(** * Hospital management application: booking, registration, login, completion

    A shallow embedding of [app/models.py], [app/routes.py] and the store
    effects of [create_db.py], with the properties of the booking conflict
    check, registration, login and appointment completion.

    - A Python computation that may raise is a result in [pyres].
    - Rows are records, a table is the list of its rows in insertion (rowid)
      order, the database is a record of tables.  Columns that the handlers
      always fill are not optional here; the two flags of a doctor are, as
      [login] tests them for truth.
    - A handler runs in a state-and-exception monad [M] over a database
      session: the committed store, the view inside the open transaction,
      and the number of write statements sent.  Objects added to the session
      are written where they are flushed.  The store layer may fail at one
      write statement or at the commit ([fault]); reads do not fail; a
      commit makes the whole transaction visible or nothing of it.
    - The functions the handlers call but the repository does not define
      ([datetime.fromisoformat], [datetime.strptime], the password hashing
      primitives, the e-mail validator) are the methods of the class
      [Externals]; every property is proved for all of its instances.  A
      reference instance is given to run the handlers on concrete requests.
    - [strftime] pads the year to four digits, as documented for [%Y].
    - Python [str] is modelled by [string], a sequence of bytes; white space
      is the ASCII white space. *)

From Stdlib Require Import ZArith List String Ascii Bool Lia Permutation Sorted.
Import ListNotations.

#[local] Open Scope string_scope.
#[local] Open Scope list_scope.
#[local] Open Scope Z_scope.

(* ===================================================================== *)
(** ** Python results and exceptions *)

Inductive exn : Type :=
| ValueError
| TypeError
| AttributeError
| IntegrityError
| OperationalError.

Inductive pyres (A : Type) : Type :=
| Ret (a : A)
| Raise (e : exn).

Arguments Ret {A} a.
Arguments Raise {A} e.

(* ===================================================================== *)
(** ** Strings *)

Module Str.

(** [c in s] for a one-character needle. *)
Fixpoint contains (c : ascii) (s : string) : bool :=
  match s with
  | EmptyString => false
  | String x s' => Ascii.eqb x c || contains c s'
  end.

(** [str.isspace] on the ASCII range. *)
Definition isspace (c : ascii) : bool :=
  let n := N_of_ascii c in
  ((9 <=? n) && (n <=? 13) || (28 <=? n) && (n <=? 32))%N.

Fixpoint lstrip (s : string) : string :=
  match s with
  | EmptyString => EmptyString
  | String c s' => if isspace c then lstrip s' else s
  end.

Fixpoint rev_onto (s acc : string) : string :=
  match s with
  | EmptyString => acc
  | String c s' => rev_onto s' (String c acc)
  end.

Definition rev (s : string) : string := rev_onto s EmptyString.

Definition rstrip (s : string) : string := rev (lstrip (rev s)).

(** [s.strip()] *)
Definition strip (s : string) : string := rstrip (lstrip s).

(** Truth value of a string: non-empty. *)
Definition truthy (s : string) : bool :=
  match s with EmptyString => false | String _ _ => true end.

(** SQLite compares TEXT under the BINARY collation: bytewise, a proper
    prefix first.  That is [String.compare]. *)
Definition le (a b : string) : bool := String.leb a b.
Definition ge (a b : string) : bool := String.leb b a.

End Str.

(* ===================================================================== *)
(** ** [datetime.datetime] *)

Module Datetime.

(** The fields of a [datetime] object; [tzinfo] is the UTC offset in
    microseconds of an aware value, [None] for a naive one. *)
Record t : Type := mk {
  year : Z;
  month : Z;
  day : Z;
  hour : Z;
  minute : Z;
  second : Z;
  microsecond : Z;
  tzinfo : option Z
}.

Definition is_leap (y : Z) : bool :=
  (y mod 4 =? 0) && (negb (y mod 100 =? 0) || (y mod 400 =? 0)).

Definition DAYS_IN_MONTH : list Z :=
  [-1; 31; 28; 31; 30; 31; 30; 31; 31; 30; 31; 30; 31].

Definition DAYS_BEFORE_MONTH : list Z :=
  [-1; 0; 31; 59; 90; 120; 151; 181; 212; 243; 273; 304; 334].

Definition days_in_month (y m : Z) : Z :=
  if (m =? 2) && is_leap y then 29 else nth (Z.to_nat m) DAYS_IN_MONTH 0.

Definition in_range (lo x hi : Z) : bool := (lo <=? x) && (x <=? hi).

Definition day_us : Z := 86400000000.

(** What the constructor checks ([MINYEAR = 1], [MAXYEAR = 9999], an
    offset strictly between -24h and 24h). *)
Definition valid (d : t) : bool :=
  in_range 1 (year d) 9999 &&
  in_range 1 (month d) 12 &&
  in_range 1 (day d) (days_in_month (year d) (month d)) &&
  in_range 0 (hour d) 23 &&
  in_range 0 (minute d) 59 &&
  in_range 0 (second d) 59 &&
  in_range 0 (microsecond d) 999999 &&
  match tzinfo d with
  | None => true
  | Some off => (- day_us <? off) && (off <? day_us)
  end.

(** [datetime(...)]: raises [ValueError] on an out-of-range field. *)
Definition make (y mo dd h mi s us : Z) (tz : option Z) : pyres t :=
  let d := mk y mo dd h mi s us tz in
  if valid d then Ret d else Raise ValueError.

(** *** Ordering *)

Definition lex (c : comparison) (k : comparison) : comparison :=
  match c with Eq => k | _ => c end.

(** Comparison of the packed fields, most significant first (what
    [memcmp] over the object's data bytes computes). *)
Definition cmp_fields (a b : t) : comparison :=
  lex (year a ?= year b)
 (lex (month a ?= month b)
 (lex (day a ?= day b)
 (lex (hour a ?= hour b)
 (lex (minute a ?= minute b)
 (lex (second a ?= second b)
      (microsecond a ?= microsecond b)))))).

Definition days_before_year (y : Z) : Z :=
  let p := y - 1 in p * 365 + p / 4 - p / 100 + p / 400.

Definition days_before_month (y m : Z) : Z :=
  nth (Z.to_nat m) DAYS_BEFORE_MONTH 0
  + (if (2 <? m) && is_leap y then 1 else 0).

Definition ymd2ord (y m d : Z) : Z :=
  days_before_year y + days_before_month y m + d.

(** Microseconds since the start of day 0 of the proleptic calendar,
    on the wall clock of the value. *)
Definition wall_us (d : t) : Z :=
  (((ymd2ord (year d) (month d) (day d) * 24 + hour d) * 60 + minute d) * 60
     + second d) * 1000000 + microsecond d.

(** [a < b], [a <= b], ... go through one three-way comparison; ordering
    a naive value against an aware one raises [TypeError]. *)
Definition compare (a b : t) : pyres comparison :=
  match tzinfo a, tzinfo b with
  | None, None => Ret (cmp_fields a b)
  | Some oa, Some ob =>
      if oa =? ob then Ret (cmp_fields a b)
      else Ret ((wall_us a - oa) ?= (wall_us b - ob))
  | _, _ => Raise TypeError
  end.

Definition le (a b : t) : pyres bool :=
  match compare a b with
  | Ret Gt => Ret false
  | Ret _ => Ret true
  | Raise e => Raise e
  end.

(** *** Rendering *)

Definition digit (n : Z) : ascii := ascii_of_N (48 + Z.to_N n).

Definition digits2 (n : Z) : string :=
  String (digit (n / 10)) (String (digit (n mod 10)) EmptyString).

Definition digits4 (n : Z) : string :=
  digits2 (n / 100) ++ digits2 (n mod 100).

(** [d.strftime(fmt)] for the directives [%Y %m %d %H %M %S], each
    zero-padded to its fixed width; any other character is copied. *)
Fixpoint strftime (d : t) (fmt : string) : string :=
  match fmt with
  | EmptyString => EmptyString
  | String "%" (String c rest) =>
      (if Ascii.eqb c "Y" then digits4 (year d)
       else if Ascii.eqb c "m" then digits2 (month d)
       else if Ascii.eqb c "d" then digits2 (day d)
       else if Ascii.eqb c "H" then digits2 (hour d)
       else if Ascii.eqb c "M" then digits2 (minute d)
       else if Ascii.eqb c "S" then digits2 (second d)
       else String "%" (String c EmptyString)) ++ strftime d rest
  | String c rest => String c (strftime d rest)
  end.

(** The value a rendering to the second retains: wall-clock fields,
    no fraction, no offset. *)
Definition to_second (d : t) : t :=
  mk (year d) (month d) (day d) (hour d) (minute d) (second d) 0 None.

End Datetime.

Definition STORE_FMT : string := "%Y-%m-%d %H:%M:%S".

(* ===================================================================== *)
(** ** Functions from outside the repository *)

(** [fromisoformat] and [strptime] return a [datetime] or raise; a
    [datetime] object always has in-range fields.  [generate_password_hash]
    takes the salt it draws as an argument. *)
Class Externals : Type := {
  fromisoformat : string -> pyres Datetime.t;
  strptime : string -> string -> pyres Datetime.t;
  generate_password_hash : string -> string -> string;
  check_password_hash : string -> string -> bool;
  email_validator : string -> bool;
  fromisoformat_valid :
    forall s d, fromisoformat s = Ret d -> Datetime.valid d = true;
  strptime_valid :
    forall s f d, strptime s f = Ret d -> Datetime.valid d = true
}.

(* ===================================================================== *)
(** ** [models.py]: rows and tables *)

Module User.
Record t : Type := mk {
  id : Z;
  username : string;
  email : string;
  password_hash : string;
  full_name : option string;
  role : string
}.
End User.

Module Department.
Record t : Type := mk {
  id : Z;
  name : string
}.
End Department.

Module Doctor.
Record t : Type := mk {
  id : Z;
  user_id : Z;
  department_id : option Z;
  specialization : option string;
  contact : option string;
  is_active : option bool;
  is_approved : option bool
}.
End Doctor.

Module Patient.
Record t : Type := mk {
  id : Z;
  user_id : Z;
  dob : option string;
  gender : option string;
  contact : option string
}.
End Patient.

Module Appointment.
Record t : Type := mk {
  id : Z;
  patient_id : Z;
  doctor_id : Z;
  start_datetime : string;
  end_datetime : string;
  reason : option string;
  status : string
}.

Definition set_status (a : t) (s : string) : t :=
  mk (id a) (patient_id a) (doctor_id a) (start_datetime a)
     (end_datetime a) (reason a) s.
End Appointment.

Module Treatment.
Record t : Type := mk {
  id : Z;
  appointment_id : Z;
  diagnosis : option string;
  prescription : option string;
  date_created : Datetime.t
}.
End Treatment.

Record Store : Type := mkStore {
  users : list User.t;
  departments : list Department.t;
  doctors : list Doctor.t;
  patients : list Patient.t;
  appointments : list Appointment.t;
  treatments : list Treatment.t
}.

Definition empty_store : Store := mkStore [] [] [] [] [] [].

(** An integer primary key without a value gets one more than the largest
    key of the table (1 in an empty table). *)
Definition next_id (ids : list Z) : Z := 1 + fold_right Z.max 0 ids.

(** Truth value of a nullable boolean column. *)
Definition truthy_flag (b : option bool) : bool :=
  match b with Some true => true | _ => false end.

(* ===================================================================== *)
(** ** The database session *)

(** [committed] is what other requests see, [txn] the view inside the open
    transaction, [executed] the number of write statements sent so far. *)
Record Session : Type := mkSession {
  committed : Store;
  txn : Store;
  executed : nat
}.

(** What a request does not control: the write statement at which the store
    layer fails (if any), the clock, the salt of the next password hash. *)
Record Env : Type := mkEnv {
  fault : option nat;
  utcnow : Datetime.t;
  salt : string
}.

Definition M (A : Type) : Type := Env -> Session -> pyres A * Session.

Definition ret {A} (a : A) : M A := fun _ s => (Ret a, s).

Definition bind {A B} (c : M A) (k : A -> M B) : M B :=
  fun env s =>
    match c env s with
    | (Ret a, s') => k a env s'
    | (Raise e, s') => (Raise e, s')
    end.

Definition raise {A} (e : exn) : M A := fun _ s => (Raise e, s).

(** [try: c  except Exception as e: h e] *)
Definition try_except {A} (c : M A) (h : exn -> M A) : M A :=
  fun env s =>
    match c env s with
    | (Ret a, s') => (Ret a, s')
    | (Raise e, s') => h e env s'
    end.

Definition lift {A} (r : pyres A) : M A := fun _ s => (r, s).

Definition ask : M Env := fun env s => (Ret env, s).

(** A read against the open transaction. *)
Definition query {A} (f : Store -> A) : M A := fun _ s => (Ret (f (txn s)), s).

Declare Scope db_scope.
Delimit Scope db_scope with db.
Notation "x <- c ;; k" := (bind c (fun x => k))
  (at level 61, c at next level, right associativity) : db_scope.
Notation "c ;;; k" := (bind c (fun _ => k))
  (at level 61, right associativity) : db_scope.
#[local] Open Scope db_scope.

(** One write statement reaches the store layer; it fails there when the
    environment says so. *)
Definition faulty (env : Env) (n : nat) : bool :=
  match fault env with
  | Some k => Nat.eqb k n
  | None => false
  end.

Definition statement : M unit :=
  fun env s =>
    let s' := mkSession (committed s) (txn s) (S (executed s)) in
    if faulty env (executed s) then (Raise OperationalError, s')
    else (Ret tt, s').

Definition set_txn (f : Store -> Store) : M unit :=
  fun _ s => (Ret tt, mkSession (committed s) (f (txn s)) (executed s)).

(** [db.session.commit()] once everything pending is flushed. *)
Definition commit : M unit :=
  statement ;;;
  (fun _ s => (Ret tt, mkSession (txn s) (txn s) (executed s))).

(** [db.session.rollback()] *)
Definition rollback : M unit :=
  fun _ s => (Ret tt, mkSession (committed s) (committed s) (executed s)).

Definition check (ok : bool) : M unit :=
  if ok then ret tt else raise IntegrityError.

(** INSERT statements, each with the UNIQUE constraints of its table.  The
    argument is the row awaiting its key; the key given is returned. *)

Definition insert_user (row : Z -> User.t) : M Z :=
  statement ;;;
  us <- query users ;;
  let u := row (next_id (map User.id us)) in
  check (negb (existsb (fun x => String.eqb (User.username x) (User.username u)) us)) ;;;
  check (negb (existsb (fun x => String.eqb (User.email x) (User.email u)) us)) ;;;
  set_txn (fun st => mkStore (users st ++ [u]) (departments st) (doctors st)
    (patients st) (appointments st) (treatments st)) ;;;
  ret (User.id u).

Definition insert_department (row : Z -> Department.t) : M Z :=
  statement ;;;
  ds <- query departments ;;
  let d := row (next_id (map Department.id ds)) in
  check (negb (existsb (fun x => String.eqb (Department.name x) (Department.name d)) ds)) ;;;
  set_txn (fun st => mkStore (users st) (departments st ++ [d]) (doctors st)
    (patients st) (appointments st) (treatments st)) ;;;
  ret (Department.id d).

Definition insert_doctor (row : Z -> Doctor.t) : M Z :=
  statement ;;;
  ds <- query doctors ;;
  let d := row (next_id (map Doctor.id ds)) in
  check (negb (existsb (fun x => Doctor.user_id x =? Doctor.user_id d) ds)) ;;;
  set_txn (fun st => mkStore (users st) (departments st) (doctors st ++ [d])
    (patients st) (appointments st) (treatments st)) ;;;
  ret (Doctor.id d).

Definition insert_patient (row : Z -> Patient.t) : M Z :=
  statement ;;;
  ps <- query patients ;;
  let p := row (next_id (map Patient.id ps)) in
  check (negb (existsb (fun x => Patient.user_id x =? Patient.user_id p) ps)) ;;;
  set_txn (fun st => mkStore (users st) (departments st) (doctors st)
    (patients st ++ [p]) (appointments st) (treatments st)) ;;;
  ret (Patient.id p).

Definition insert_appointment (row : Z -> Appointment.t) : M Z :=
  statement ;;;
  xs <- query appointments ;;
  let a := row (next_id (map Appointment.id xs)) in
  set_txn (fun st => mkStore (users st) (departments st) (doctors st)
    (patients st) (appointments st ++ [a]) (treatments st)) ;;;
  ret (Appointment.id a).

Definition insert_treatment (row : Z -> Treatment.t) : M Z :=
  statement ;;;
  xs <- query treatments ;;
  let t := row (next_id (map Treatment.id xs)) in
  set_txn (fun st => mkStore (users st) (departments st) (doctors st)
    (patients st) (appointments st) (treatments st ++ [t])) ;;;
  ret (Treatment.id t).

(** UPDATE appointments SET status = ... WHERE id = ... *)
Definition update_appointment_status (aid : Z) (s : string) : M unit :=
  statement ;;;
  set_txn (fun st => mkStore (users st) (departments st) (doctors st)
    (patients st)
    (map (fun a => if Appointment.id a =? aid
                   then Appointment.set_status a s else a)
         (appointments st))
    (treatments st)).

(* ===================================================================== *)
(** ** Requests, forms and responses *)

Record Request : Type := mkRequest {
  method : string;
  csrf_ok : bool;
  form : list (string * string);
  cookie : option Z
}.

Fixpoint form_get (k : string) (f : list (string * string)) : option string :=
  match f with
  | [] => None
  | (k', v) :: f' => if String.eqb k' k then Some v else form_get k f'
  end.

(** [form.<name>.data] of a field that passed [DataRequired]. *)
Definition field (req : Request) (k : string) : string :=
  match form_get k (form req) with Some v => v | None => EmptyString end.

Inductive validator : Type := DataRequired | Email | Optional.

Definition blank (data : option string) : bool :=
  match data with
  | Some v => negb (Str.truthy v && Str.truthy (Str.strip v))
  | None => true
  end.

Section Handlers.

Context {E : Externals}.

Fixpoint run_validators (data : option string) (vs : list validator) : bool :=
  match vs with
  | [] => true
  | DataRequired :: vs' => negb (blank data) && run_validators data vs'
  | Email :: vs' =>
      match data with
      | Some v => email_validator v && run_validators data vs'
      | None => false
      end
  | Optional :: vs' => blank data || run_validators data vs'
  end.

Definition is_submitted (req : Request) : bool :=
  existsb (String.eqb (method req)) ["POST"; "PUT"; "PATCH"; "DELETE"].

(** [form.validate_on_submit()]: every field is validated, the form is
    valid when the CSRF token and all fields are. *)
Definition validate_on_submit (req : Request)
    (fields : list (string * list validator)) : bool :=
  is_submitted req && csrf_ok req &&
  forallb (fun f => run_validators (form_get (fst f) (form req)) (snd f)) fields.

Definition LoginForm : list (string * list validator) :=
  [("username", [DataRequired]); ("password", [DataRequired])].

Definition RegisterForm : list (string * list validator) :=
  [("full_name", [DataRequired]); ("username", [DataRequired]);
   ("email", [DataRequired; Email]); ("password", [DataRequired])].

Definition AddDoctorForm : list (string * list validator) :=
  [("full_name", [DataRequired]); ("username", [DataRequired]);
   ("email", [DataRequired; Email]); ("password", [DataRequired]);
   ("department", [Optional]); ("specialization", [Optional])].

Definition BookAppointmentForm : list (string * list validator) :=
  [("start_datetime", [DataRequired]); ("end_datetime", [DataRequired]);
   ("reason", [Optional])].

Inductive CtxVal : Type :=
| CForm (f : list (string * string))
| CDoctor (d : Doctor.t)
| CAppointment (a : Appointment.t).

Inductive View : Type :=
| Render (template : string) (ctx : list (string * CtxVal))
| Redirect (endpoint : string) (args : list (string * Z))
| Abort (code : Z).

(** What a handler sends back: the view, the messages flashed (text and
    category), and the identity [login_user] bound to the session, if any. *)
Record Response : Type := mkResponse {
  view : View;
  flashes : list (string * string);
  login_as : option Z
}.

Definition respond (v : View) (fl : list (string * string)) : Response :=
  mkResponse v fl None.

(* ===================================================================== *)
(** ** [routes.py]: helpers *)

Fixpoint parse_datetime_loop (dt_str : string) (fmts : list string)
    : pyres (option Datetime.t) :=
  match fmts with
  | [] => Ret None
  | fmt :: fmts' =>
      match strptime dt_str fmt with
      | Ret d => Ret (Some d)
      | Raise ValueError => parse_datetime_loop dt_str fmts'
      | Raise e => Raise e
      end
  end.

(** The body of the outer [try]; running off the loop reaches the final
    [return None]. *)
Definition parse_datetime_try (dt_str : string) : pyres (option Datetime.t) :=
  if Str.contains "T" dt_str then
    match fromisoformat dt_str with
    | Ret d => Ret (Some d)
    | Raise e => Raise e
    end
  else parse_datetime_loop dt_str ["%Y-%m-%d %H:%M:%S"; "%Y-%m-%d %H:%M"].

Definition parse_datetime (dt_str : string) : pyres (option Datetime.t) :=
  match parse_datetime_try dt_str with
  | Ret r => Ret r
  | Raise _ => Ret None
  end.

(** [User.query.get(int(user_id))] *)
Definition load_user (uid : Z) (st : Store) : option User.t :=
  find (fun u => User.id u =? uid) (users st).

(** [user.doctor_profile], [user.patient_profile] *)
Definition doctor_profile (u : User.t) (st : Store) : option Doctor.t :=
  find (fun d => Doctor.user_id d =? User.id u) (doctors st).

Definition patient_profile (u : User.t) (st : Store) : option Patient.t :=
  find (fun p => Patient.user_id p =? User.id u) (patients st).

(** [@login_required]: an anonymous request is sent to the login view. *)
Definition login_required (req : Request) (body : User.t -> M Response)
    : M Response :=
  let unauthorized :=
    respond (Redirect "main.login" [])
            [("Please log in to access this page.", "message")] in
  match cookie req with
  | None => ret unauthorized
  | Some uid =>
      u <- query (load_user uid) ;;
      match u with
      | None => ret unauthorized
      | Some current_user => body current_user
      end
  end.

(** The filter of the uniqueness checks and of the login lookup. *)
Definition username_or_email (username email : string) (u : User.t) : bool :=
  String.eqb (User.username u) username || String.eqb (User.email u) email.

(** The filter of the conflict query. *)
Definition conflicts (doctor_id : Z) (start_str end_str : string)
    (a : Appointment.t) : bool :=
  (Appointment.doctor_id a =? doctor_id) &&
  String.eqb (Appointment.status a) "Booked" &&
  negb (Str.le (Appointment.end_datetime a) start_str
        || Str.ge (Appointment.start_datetime a) end_str).

(* ===================================================================== *)
(** ** [routes.py]: the handlers *)

Definition invalid_credentials : string * string :=
  ("Invalid username or password.", "danger").

(** The doctor gate of [login]: the message that stops a doctor, if any. *)
Definition doctor_gate (user : User.t) : M (option (string * string)) :=
  if String.eqb (User.role user) "doctor" then
    doc <- query (doctor_profile user) ;;
    match doc with
    | None => ret (Some ("Doctor profile not found. Contact admin.", "danger"))
    | Some d =>
        if negb (truthy_flag (Doctor.is_approved d)) then
          ret (Some ("Your account is pending admin approval.", "warning"))
        else if negb (truthy_flag (Doctor.is_active d)) then
          ret (Some ("Your account has been deactivated. Contact admin.", "danger"))
        else ret None
    end
  else ret None.

Definition landing (role : string) : string :=
  if String.eqb role "admin" then "main.admin_dashboard"
  else if String.eqb role "doctor" then "main.doctor_dashboard"
  else if String.eqb role "patient" then "main.patient_dashboard"
  else "main.index".

Definition login (req : Request) : M Response :=
  let page := Render "login.html" [("form", CForm (form req))] in
  if validate_on_submit req LoginForm then
    let username := Str.strip (field req "username") in
    let password := field req "password" in
    try_except
      (user <- query (fun st => find (username_or_email username username) (users st)) ;;
       match user with
       | None => ret (respond page [invalid_credentials])
       | Some user =>
           if negb (check_password_hash (User.password_hash user) password) then
             ret (respond page [invalid_credentials])
           else
             stop <- doctor_gate user ;;
             match stop with
             | Some message => ret (respond page [message])
             | None =>
                 ret (mkResponse (Redirect (landing (User.role user)) [])
                        [("Logged in successfully.", "success")]
                        (Some (User.id user)))
             end
       end)
      (fun _ =>
         rollback ;;;
         ret (respond page
                [("An unexpected error occurred. Please try again.", "danger")]))
  else ret (respond page []).

Definition register (req : Request) : M Response :=
  let page := Render "register.html" [("form", CForm (form req))] in
  if validate_on_submit req RegisterForm then
    let username := Str.strip (field req "username") in
    let email := Str.strip (field req "email") in
    let password := field req "password" in
    let full_name := Str.strip (field req "full_name") in
    existing <- query (fun st => find (username_or_email username email) (users st)) ;;
    match existing with
    | Some _ => ret (respond page [("Username or email already exists.", "danger")])
    | None =>
        try_except
          (env <- ask ;;
           uid <- insert_user (fun i =>
                    User.mk i username email
                      (generate_password_hash (salt env) password)
                      (Some full_name) "patient") ;;
           insert_patient (fun i => Patient.mk i uid None None None) ;;;
           commit ;;;
           ret (respond (Redirect "main.login" [])
                  [("Registration successful! Please log in.", "success")]))
          (fun _ =>
             rollback ;;;
             ret (respond page
                    [("An error occurred while registering. Try again.", "danger")]))
    end
  else ret (respond page []).

(** [x.strip() if x else None] *)
Definition strip_or_none (data : option string) : option string :=
  match data with
  | Some v => if Str.truthy v then Some (Str.strip v) else None
  | None => None
  end.

Definition get_or_create_department (department_name : option string)
    : M (option Z) :=
  match department_name with
  | Some n =>
      if Str.truthy n then
        dept <- query (fun st => find (fun d => String.eqb (Department.name d) n)
                                      (departments st)) ;;
        match dept with
        | Some d => ret (Some (Department.id d))
        | None =>
            i <- insert_department (fun i => Department.mk i n) ;;
            ret (Some i)
        end
      else ret None
  | None => ret None
  end.

Definition add_doctor (req : Request) : M Response :=
  login_required req (fun current_user =>
    if negb (String.eqb (User.role current_user) "admin") then
      ret (respond (Redirect "main.index" []) [("Access denied. Admins only.", "danger")])
    else
      let page := Render "add_doctor.html" [("form", CForm (form req))] in
      if validate_on_submit req AddDoctorForm then
        let username := Str.strip (field req "username") in
        let email := Str.strip (field req "email") in
        let password := field req "password" in
        let full_name := Str.strip (field req "full_name") in
        let department_name := strip_or_none (form_get "department" (form req)) in
        let specialization := strip_or_none (form_get "specialization" (form req)) in
        existing <- query (fun st => find (username_or_email username email) (users st)) ;;
        match existing with
        | Some _ => ret (respond page [("Username or email already exists.", "danger")])
        | None =>
            try_except
              (env <- ask ;;
               uid <- insert_user (fun i =>
                        User.mk i username email
                          (generate_password_hash (salt env) password)
                          (Some full_name) "doctor") ;;
               dept <- get_or_create_department department_name ;;
               insert_doctor (fun i =>
                 Doctor.mk i uid dept specialization None (Some true) (Some true)) ;;;
               commit ;;;
               ret (respond (Redirect "main.admin_dashboard" [])
                      [("Doctor added successfully.", "success")]))
              (fun _ =>
                 rollback ;;;
                 ret (respond page
                        [("An error occurred while adding the doctor.", "danger")]))
        end
      else ret (respond page [])).

Definition book_appointment (doctor_id : Z) (req : Request) : M Response :=
  login_required req (fun current_user =>
    if negb (String.eqb (User.role current_user) "patient") then
      ret (respond (Redirect "main.index" []) [("Access denied.", "danger")])
    else
      patient <- query (patient_profile current_user) ;;
      doctor <- query (fun st => find (fun d => Doctor.id d =? doctor_id) (doctors st)) ;;
      match doctor with
      | None => ret (respond (Abort 404) [])
      | Some doctor =>
          let again :=
            Redirect "main.book_appointment" [("doctor_id", Doctor.id doctor)] in
          if validate_on_submit req BookAppointmentForm then
            start_dt <- lift (parse_datetime (field req "start_datetime")) ;;
            end_dt <- lift (parse_datetime (field req "end_datetime")) ;;
            let reason := form_get "reason" (form req) in
            (* not start_dt or not end_dt or end_dt <= start_dt *)
            invalid <- match start_dt, end_dt with
                       | Some s, Some e => lift (Datetime.le e s)
                       | _, _ => ret true
                       end ;;
            match invalid, start_dt, end_dt with
            | false, Some start_dt, Some end_dt =>
                let start_str := Datetime.strftime start_dt STORE_FMT in
                let end_str := Datetime.strftime end_dt STORE_FMT in
                conflict <- query (fun st =>
                  find (conflicts (Doctor.id doctor) start_str end_str)
                       (appointments st)) ;;
                match conflict with
                | Some _ =>
                    ret (respond again [("That slot is already booked.", "danger")])
                | None =>
                    match patient with
                    | None => raise AttributeError
                    | Some patient =>
                        insert_appointment (fun i =>
                          Appointment.mk i (Patient.id patient) (Doctor.id doctor)
                            start_str end_str reason "Booked") ;;;
                        commit ;;;
                        ret (respond (Redirect "main.patient_dashboard" [])
                               [("Appointment booked successfully.", "success")])
                    end
                end
            | _, _, _ => ret (respond again [("Invalid time range.", "danger")])
            end
          else
            ret (respond (Render "book_appointment.html"
                            [("doctor", CDoctor doctor); ("form", CForm (form req))])
                         [])
      end).

(** The assignment to [appt.status] and the added [Treatment] are flushed by
    the one [commit]: the UPDATE, the INSERT, then COMMIT. *)
Definition complete_appointment (appointment_id : Z) (req : Request)
    : M Response :=
  login_required req (fun current_user =>
    if negb (String.eqb (User.role current_user) "doctor") then
      ret (respond (Redirect "main.index" []) [("Access denied.", "danger")])
    else
      appt <- query (fun st =>
        find (fun a => Appointment.id a =? appointment_id) (appointments st)) ;;
      match appt with
      | None => ret (respond (Abort 404) [])
      | Some appt =>
          doc <- query (doctor_profile current_user) ;;
          match doc with
          | None => raise AttributeError
          | Some doc =>
              if negb (Appointment.doctor_id appt =? Doctor.id doc) then
                ret (respond (Redirect "main.doctor_dashboard" [])
                       [("You are not authorized to modify this appointment.", "danger")])
              else if String.eqb (method req) "POST" then
                let diagnosis := form_get "diagnosis" (form req) in
                let prescription := form_get "prescription" (form req) in
                env <- ask ;;
                update_appointment_status (Appointment.id appt) "Completed" ;;;
                insert_treatment (fun i =>
                  Treatment.mk i (Appointment.id appt) diagnosis prescription
                    (utcnow env)) ;;;
                commit ;;;
                ret (respond (Redirect "main.doctor_dashboard" [])
                       [("Appointment completed and treatment saved.", "success")])
              else
                ret (respond (Render "complete_appointment.html"
                                [("appointment", CAppointment appt)]) [])
          end
      end).

(* ===================================================================== *)
(** ** [create_db.py]: what the seeding utility does to the store

    The prompts are answered by the arguments: the details and password
    entered, and the answer to "create another admin?". *)

Definition default_depts : list string :=
  ["General"; "Cardiology"; "Orthopedics"; "ENT"; "Dermatology"; "Neurology";
   "Pediatrics"].

Fixpoint add_default_departments (names : list string) (added : nat) : M nat :=
  match names with
  | [] => ret added
  | name :: names' =>
      existing <- query (fun st =>
        find (fun d => String.eqb (Department.name d) name) (departments st)) ;;
      match existing with
      | Some _ => add_default_departments names' added
      | None =>
          insert_department (fun i => Department.mk i name) ;;;
          add_default_departments names' (S added)
      end
  end.

(** An exception ends the utility after the rollback. *)
Definition setup_database : M unit :=
  try_except
    (added <- add_default_departments default_depts O ;;
     match added with
     | O => ret tt
     | S _ => commit
     end)
    (fun _ => rollback).

Definition create_admin_user (username email full_name password : string)
    (another : bool) : M unit :=
  existing_admin <- query (fun st =>
    find (fun u => String.eqb (User.role u) "admin") (users st)) ;;
  match existing_admin, another with
  | Some _, false => ret tt
  | _, _ =>
      conflict <- query (fun st => find (username_or_email username email) (users st)) ;;
      match conflict with
      | Some _ => ret tt
      | None =>
          try_except
            (env <- ask ;;
             insert_user (fun i =>
               User.mk i username email
                 (generate_password_hash (salt env) password)
                 (Some full_name) "admin") ;;;
             commit)
            (fun _ => rollback)
      end
  end.

(** A run of the utility leaves what it committed. *)
Definition run_utility (u : M unit) (env : Env) (st : Store) : Store :=
  committed (snd (u env (mkSession st st O))).

(** One request from start to finish: the handler runs in a fresh session
    over the committed store; an exception that leaves the handler becomes
    a 500 response and the open transaction is discarded. *)
Definition run (h : M Response) (env : Env) (st : Store) : Response * Store :=
  match h env (mkSession st st O) with
  | (Ret r, s) => (r, committed s)
  | (Raise _, s) => (respond (Abort 500) [], committed s)
  end.

End Handlers.

(* ===================================================================== *)
(** ** A reference implementation of the outside functions

    Enough of CPython's [datetime] parsing to run the handlers on concrete
    requests: [fromisoformat] for the grammar
    [YYYY-MM-DD[*HH[:MM[:SS[.fff[fff]]]][(+|-)HH:MM]]] that every CPython
    since 3.7 accepts, [strptime] for formats built from the directives
    [%Y %m %d %H %M %S], literals and white space.  Anything else raises
    [ValueError].  The hash is a transparent stand-in. *)

Module Reference.

Definition obind {A B} (o : option A) (k : A -> option B) : option B :=
  match o with Some a => k a | None => None end.

Notation "'let*' x ':=' c 'in' k" := (obind c (fun x => k))
  (at level 10, x pattern, c at level 100, k at level 200).

Definition digit_val (c : ascii) : option Z :=
  let n := N_of_ascii c in
  if ((48 <=? n) && (n <=? 57))%N then Some (Z.of_N n - 48) else None.

(** Exactly [n] decimal digits. *)
Fixpoint digits (n : nat) (acc : Z) (s : string) : option (Z * string) :=
  match n, s with
  | O, _ => Some (acc, s)
  | S k, String c r =>
      match digit_val c with
      | Some v => digits k (acc * 10 + v) r
      | None => None
      end
  | S _, EmptyString => None
  end.

(** One or two decimal digits, as many as there are. *)
Definition digits12 (s : string) : option (Z * string) :=
  match digits 2 0 s with
  | Some r => Some r
  | None => digits 1 0 s
  end.

Definition expect (c : ascii) (s : string) : option string :=
  match s with
  | String x r => if Ascii.eqb x c then Some r else None
  | EmptyString => None
  end.

Definition fields : Type := (Z * Z * Z * Z * Z * Z * Z * option Z)%type.

Definition of_fields (f : fields) : pyres Datetime.t :=
  let '(y, mo, d, h, mi, s, us, tz) := f in Datetime.make y mo d h mi s us tz.

(** [(+|-)HH:MM] or nothing, up to the end of the string. *)
Definition iso_offset (t : string) : option (option Z) :=
  match t with
  | EmptyString => Some None
  | String c r =>
      let* sign := (if Ascii.eqb c "+" then Some 1
                    else if Ascii.eqb c "-" then Some (-1) else None) in
      let* (h, r) := digits 2 0 r in
      let* r := expect ":" r in
      let* (m, r) := digits 2 0 r in
      match r with
      | EmptyString => Some (Some (sign * (h * 3600 + m * 60) * 1000000))
      | _ => None
      end
  end.

(** [.ffffff] or [.fff] or nothing. *)
Definition iso_fraction (t : string) : option (Z * string) :=
  match t with
  | String "." r =>
      match digits 6 0 r with
      | Some res => Some res
      | None => let* (ms, r) := digits 3 0 r in Some (ms * 1000, r)
      end
  | _ => Some (0, t)
  end.

Definition iso_time (t : string) : option (Z * Z * Z * Z * option Z) :=
  let* (h, t) := digits 2 0 t in
  match t with
  | String ":" t =>
      let* (mi, t) := digits 2 0 t in
      match t with
      | String ":" t =>
          let* (s, t) := digits 2 0 t in
          let* (us, t) := iso_fraction t in
          let* tz := iso_offset t in
          Some (h, mi, s, us, tz)
      | _ => let* tz := iso_offset t in Some (h, mi, 0, 0, tz)
      end
  | _ => let* tz := iso_offset t in Some (h, 0, 0, 0, tz)
  end.

Definition iso_fields (s : string) : option fields :=
  let* (y, s) := digits 4 0 s in
  let* s := expect "-" s in
  let* (mo, s) := digits 2 0 s in
  let* s := expect "-" s in
  let* (d, s) := digits 2 0 s in
  match s with
  | EmptyString => Some (y, mo, d, 0, 0, 0, 0, None)
  | String _ t =>
      let* (h, mi, sec, us, tz) := iso_time t in
      Some (y, mo, d, h, mi, sec, us, tz)
  end.

Definition fromisoformat (s : string) : pyres Datetime.t :=
  match iso_fields s with
  | Some f => of_fields f
  | None => Raise ValueError
  end.

(** The pattern of a directive, on the text at hand. *)
Definition directive (c : ascii) (data : string) : option (Z * string) :=
  let ranged lo hi r :=
    let* (v, rest) := r in
    if Datetime.in_range lo v hi then Some (v, rest) else None in
  if Ascii.eqb c "Y" then digits 4 0 data
  else if Ascii.eqb c "m" then ranged 1 12 (digits12 data)
  else if Ascii.eqb c "d" then
    match data with
    | String " " r => ranged 1 9 (digits 1 0 r)
    | _ => ranged 1 31 (digits12 data)
    end
  else if Ascii.eqb c "H" then ranged 0 23 (digits12 data)
  else if Ascii.eqb c "M" then ranged 0 59 (digits12 data)
  else if Ascii.eqb c "S" then ranged 0 61 (digits12 data)
  else None.

Definition set_field (c : ascii) (v : Z) (f : fields) : fields :=
  let '(y, mo, d, h, mi, s, us, tz) := f in
  if Ascii.eqb c "Y" then (v, mo, d, h, mi, s, us, tz)
  else if Ascii.eqb c "m" then (y, v, d, h, mi, s, us, tz)
  else if Ascii.eqb c "d" then (y, mo, v, h, mi, s, us, tz)
  else if Ascii.eqb c "H" then (y, mo, d, v, mi, s, us, tz)
  else if Ascii.eqb c "M" then (y, mo, d, h, v, s, us, tz)
  else (y, mo, d, h, mi, v, us, tz).

Definition starts_with_space (s : string) : bool :=
  match s with String c _ => Str.isspace c | EmptyString => false end.

(** The format is matched against the whole text; a run of white space
    in the format stands for one or more white-space characters. *)
Fixpoint strptime_fields (fmt data : string) (f : fields) : option fields :=
  match fmt with
  | EmptyString =>
      match data with EmptyString => Some f | _ => None end
  | String "%" (String c fmt') =>
      let* (v, data') := directive c data in
      strptime_fields fmt' data' (set_field c v f)
  | String c fmt' =>
      if Str.isspace c then
        if starts_with_space fmt' then strptime_fields fmt' data f
        else if starts_with_space data
             then strptime_fields fmt' (Str.lstrip data) f
             else None
      else
        let* data' := expect c data in strptime_fields fmt' data' f
  end.

Definition strptime (data fmt : string) : pyres Datetime.t :=
  match strptime_fields fmt data (1900, 1, 1, 0, 0, 0, 0, None) with
  | Some f => of_fields f
  | None => Raise ValueError
  end.

Definition generate_password_hash (salt password : string) : string :=
  "plain$" ++ salt ++ "$" ++ password.

Fixpoint after_dollar (s : string) : string :=
  match s with
  | EmptyString => EmptyString
  | String c r => if Ascii.eqb c "$" then r else after_dollar r
  end.

Definition check_password_hash (pwhash password : string) : bool :=
  String.eqb (after_dollar (after_dollar pwhash)) password.

(** A local part, an [@], a domain with a dot. *)
Fixpoint email_validator_from (seen_at : bool) (s : string) : bool :=
  match s with
  | EmptyString => false
  | String c r =>
      if Ascii.eqb c "@" then negb seen_at && email_validator_from true r
      else if Ascii.eqb c "." then
        (seen_at && Str.truthy r && negb (Str.contains "@" r))
        || email_validator_from seen_at r
      else email_validator_from seen_at r
  end.

Definition email_validator (s : string) : bool :=
  match s with
  | String c _ => negb (Ascii.eqb c "@") && email_validator_from false s
  | EmptyString => false
  end.

End Reference.

#[export] Instance reference_externals : Externals.
Proof.
  refine {| fromisoformat := Reference.fromisoformat;
            strptime := Reference.strptime;
            generate_password_hash := Reference.generate_password_hash;
            check_password_hash := Reference.check_password_hash;
            email_validator := Reference.email_validator |}.
  - intros s d. unfold Reference.fromisoformat.
    destruct (Reference.iso_fields s) as [[[[[[[[y mo] dd] h] mi] sec] us] tz]|];
      [|discriminate].
    unfold Reference.of_fields, Datetime.make.
    destruct (Datetime.valid _) eqn:V; [|discriminate].
    intros H; inversion H; subst; exact V.
  - intros s f d. unfold Reference.strptime.
    destruct (Reference.strptime_fields f s _) as [[[[[[[[y mo] dd] h] mi] sec] us] tz]|];
      [|discriminate].
    unfold Reference.of_fields, Datetime.make.
    destruct (Datetime.valid _) eqn:V; [|discriminate].
    intros H; inversion H; subst; exact V.
Defined.

(* ===================================================================== *)
(** ** Notions the properties are stated with *)

Module Interval.

(** A value with no fraction of a second and no offset: what a stored
    string can denote. *)
Definition plain (d : Datetime.t) : bool :=
  (Datetime.microsecond d =? 0) &&
  match Datetime.tzinfo d with None => true | Some _ => false end.

(** The stored text [s] is the rendering of the instant [c]. *)
Definition denotes (s : string) (c : Datetime.t) : Prop :=
  Datetime.valid c = true /\ plain c = true /\
  s = Datetime.strftime c STORE_FMT.

(** [a] is strictly earlier than [b], both read on the wall clock. *)
Definition before (a b : Datetime.t) : Prop :=
  Datetime.wall_us a < Datetime.wall_us b.

(** The half-open intervals [[a,b)] and [[c,d)] overlap. *)
Definition overlap (a b c d : Datetime.t) : Prop :=
  before a d /\ before c b.

End Interval.

(** Every appointment row holds renderings of instants. *)
Definition rendered (st : Store) : Prop :=
  forall r, In r (appointments st) ->
    exists c d, Interval.denotes (Appointment.start_datetime r) c /\
                Interval.denotes (Appointment.end_datetime r) d.

(** Referential integrity of the profile tables. *)
Definition profiles_ok (st : Store) : Prop :=
  (forall p, In p (patients st) ->
     exists u, In u (users st) /\ User.id u = Patient.user_id p) /\
  (forall d, In d (doctors st) ->
     exists u, In u (users st) /\ User.id u = Doctor.user_id d).

Definition treatments_of (aid : Z) (st : Store) : list Treatment.t :=
  filter (fun t => Treatment.appointment_id t =? aid) (treatments st).

Definition set_approved (d : Doctor.t) (b : option bool) : Doctor.t :=
  Doctor.mk (Doctor.id d) (Doctor.user_id d) (Doctor.department_id d)
    (Doctor.specialization d) (Doctor.contact d) (Doctor.is_active d) b.

(** The circumstances the properties of the handlers are stated in. *)
Section Circumstances.

Context {E : Externals}.

(** [req] comes from the logged-in user [current_user]. *)
Definition sent_by (st : Store) (req : Request) (current_user : User.t) : Prop :=
  cookie req = Some (User.id current_user) /\
  load_user (User.id current_user) st = Some current_user.

(** A submitted, valid booking form from a patient for an existing doctor:
    the request reaches the parsing of the two instants. *)
Definition booking_request (st : Store) (req : Request) (doctor_id : Z)
    (current_user : User.t) (doctor : Doctor.t) : Prop :=
  sent_by st req current_user /\
  User.role current_user = "patient" /\
  find (fun d => Doctor.id d =? doctor_id) (doctors st) = Some doctor /\
  validate_on_submit req BookAppointmentForm = true.

(** The request also passes the time-range validation, with [a] and [b]
    the parsed start and end. *)
Definition timed_booking_request (st : Store) (req : Request) (doctor_id : Z)
    (current_user : User.t) (doctor : Doctor.t) (a b : Datetime.t) : Prop :=
  booking_request st req doctor_id current_user doctor /\
  parse_datetime (field req "start_datetime") = Ret (Some a) /\
  parse_datetime (field req "end_datetime") = Ret (Some b) /\
  Datetime.le b a = Ret false.

(** No library call made for [dt_str] returns a value. *)
Definition unparsable (dt_str : string) : Prop :=
  if Str.contains "T" dt_str
  then exists e, fromisoformat dt_str = Raise e
  else forall fmt, In fmt ["%Y-%m-%d %H:%M:%S"; "%Y-%m-%d %H:%M"] ->
         exists e, strptime dt_str fmt = Raise e.

(** A request of the doctor [doc] (logged in as [current_user]) about the
    existing appointment [appt]. *)
Definition completion_request (st : Store) (req : Request) (appointment_id : Z)
    (current_user : User.t) (doc : Doctor.t) (appt : Appointment.t) : Prop :=
  sent_by st req current_user /\
  User.role current_user = "doctor" /\
  doctor_profile current_user st = Some doc /\
  find (fun a => Appointment.id a =? appointment_id) (appointments st) = Some appt.

(** The store after a completion of [appt] recorded at [now]. *)
Definition completed (st : Store) (appt : Appointment.t)
    (diagnosis prescription : option string) (now : Datetime.t) : Store :=
  mkStore (users st) (departments st) (doctors st) (patients st)
    (map (fun a => if Appointment.id a =? Appointment.id appt
                   then Appointment.set_status a "Completed" else a)
         (appointments st))
    (treatments st ++
       [Treatment.mk (next_id (map Treatment.id (treatments st)))
          (Appointment.id appt) diagnosis prescription now]).

(** The store after [current_user]'s patient [p] booked [doctor] for the
    rendered interval. *)
Definition booked (st : Store) (p : Patient.t) (doctor : Doctor.t)
    (start_str end_str : string) (reason : option string) : Store :=
  mkStore (users st) (departments st) (doctors st) (patients st)
    (appointments st ++
       [Appointment.mk (next_id (map Appointment.id (appointments st)))
          (Patient.id p) (Doctor.id doctor) start_str end_str reason "Booked"])
    (treatments st).

(** The store after a registration. *)
Definition registered (st : Store) (username email pwhash full_name : string)
    : Store :=
  let uid := next_id (map User.id (users st)) in
  mkStore
    (users st ++ [User.mk uid username email pwhash (Some full_name) "patient"])
    (departments st) (doctors st)
    (patients st ++
       [Patient.mk (next_id (map Patient.id (patients st))) uid None None None])
    (appointments st) (treatments st).

(** The answers of the handlers. *)

Definition invalid_time_range (doctor : Doctor.t) : Response :=
  respond (Redirect "main.book_appointment" [("doctor_id", Doctor.id doctor)])
          [("Invalid time range.", "danger")].

Definition slot_taken (doctor : Doctor.t) : Response :=
  respond (Redirect "main.book_appointment" [("doctor_id", Doctor.id doctor)])
          [("That slot is already booked.", "danger")].

Definition booking_done : Response :=
  respond (Redirect "main.patient_dashboard" [])
          [("Appointment booked successfully.", "success")].

Definition internal_server_error : Response := respond (Abort 500) [].

Definition not_found : Response := respond (Abort 404) [].

Definition access_denied : Response :=
  respond (Redirect "main.index" []) [("Access denied.", "danger")].

Definition not_authorized : Response :=
  respond (Redirect "main.doctor_dashboard" [])
          [("You are not authorized to modify this appointment.", "danger")].

Definition completion_done : Response :=
  respond (Redirect "main.doctor_dashboard" [])
          [("Appointment completed and treatment saved.", "success")].

Definition registration_done : Response :=
  respond (Redirect "main.login" [])
          [("Registration successful! Please log in.", "success")].

Definition already_exists (req : Request) : Response :=
  respond (Render "register.html" [("form", CForm (form req))])
          [("Username or email already exists.", "danger")].

Definition login_rejected (req : Request) (message : string * string) : Response :=
  respond (Render "login.html" [("form", CForm (form req))]) [message].

Definition logged_in (user : User.t) : Response :=
  mkResponse (Redirect (landing (User.role user)) [])
             [("Logged in successfully.", "success")] (Some (User.id user)).


Definition login_needed : Response :=
  respond (Redirect "main.login" [])
          [("Please log in to access this page.", "message")].

Definition completion_form (appt : Appointment.t) : Response :=
  respond (Render "complete_appointment.html" [("appointment", CAppointment appt)]) [].


Definition profile_missing : string * string :=
  ("Doctor profile not found. Contact admin.", "danger").

Definition pending_approval : string * string :=
  ("Your account is pending admin approval.", "warning").

Definition deactivated : string * string :=
  ("Your account has been deactivated. Contact admin.", "danger").

(** The store after the approval flag of the doctor row [d] is set. *)
Definition approve (st : Store) (d : Doctor.t) : Store :=
  mkStore (users st) (departments st)
    (map (fun x => if Doctor.id x =? Doctor.id d
                   then set_approved x (Some true) else x)
         (doctors st))
    (patients st) (appointments st) (treatments st).

(** The identity the login lookup finds for the submitted identifier. *)
Definition identified (st : Store) (req : Request) : option User.t :=
  find (username_or_email (Str.strip (field req "username"))
                          (Str.strip (field req "username")))
       (users st).

(** The transaction of [register], once the uniqueness check has passed. *)
Definition register_transaction (req : Request) : M Response :=
  try_except
    (env <- ask ;;
     uid <- insert_user (fun i =>
              User.mk i (Str.strip (field req "username"))
                (Str.strip (field req "email"))
                (generate_password_hash (salt env) (field req "password"))
                (Some (Str.strip (field req "full_name"))) "patient") ;;
     insert_patient (fun i => Patient.mk i uid None None None) ;;;
     commit ;;;
     ret registration_done)
    (fun _ =>
       rollback ;;;
       ret (respond (Render "register.html" [("form", CForm (form req))])
              [("An error occurred while registering. Try again.", "danger")])).

(** The stores the application can be in: from the empty database, by
    runs of the seeding utility and by requests to the routes. *)
Inductive reachable : Store -> Prop :=
| reach_empty : reachable empty_store
| reach_setup env st :
    reachable st -> reachable (run_utility setup_database env st)
| reach_admin env st username email full_name password another :
    reachable st ->
    reachable (run_utility
                 (create_admin_user username email full_name password another)
                 env st)
| reach_login env st req :
    reachable st -> reachable (snd (run (login req) env st))
| reach_register env st req :
    reachable st -> reachable (snd (run (register req) env st))
| reach_add_doctor env st req :
    reachable st -> reachable (snd (run (add_doctor req) env st))
| reach_book env st req doctor_id :
    reachable st -> reachable (snd (run (book_appointment doctor_id req) env st))
| reach_complete env st req appointment_id :
    reachable st ->
    reachable (snd (run (complete_appointment appointment_id req) env st)).


(** Two stores with the same rows outside the departments table. *)
Definition same_but_departments (st st' : Store) : Prop :=
  users st' = users st /\ doctors st' = doctors st /\
  patients st' = patients st /\ appointments st' = appointments st /\
  treatments st' = treatments st.

(** The invariant of the store the properties lean on. *)
Definition store_invariant (st : Store) : Prop := rendered st /\ profiles_ok st.


(** The answers of [add_doctor]. *)

Definition admins_only : Response :=
  respond (Redirect "main.index" []) [("Access denied. Admins only.", "danger")].

Definition doctor_added : Response :=
  respond (Redirect "main.admin_dashboard" [])
          [("Doctor added successfully.", "success")].

Definition doctor_exists (req : Request) : Response :=
  respond (Render "add_doctor.html" [("form", CForm (form req))])
          [("Username or email already exists.", "danger")].

(** The department rows [add_doctor] adds for the name entered, and the
    key the new doctor row refers to. *)
Definition department_for (st : Store) (department_name : option string)
    : list Department.t * option Z :=
  match department_name with
  | Some n =>
      if Str.truthy n then
        match find (fun d => String.eqb (Department.name d) n) (departments st) with
        | Some d => ([], Some (Department.id d))
        | None =>
            let i := next_id (map Department.id (departments st)) in
            ([Department.mk i n], Some i)
        end
      else ([], None)
  | None => ([], None)
  end.

(** The store after a doctor was added. *)
Definition with_doctor (st : Store) (username email pwhash full_name : string)
    (department_name specialization : option string) : Store :=
  let uid := next_id (map User.id (users st)) in
  let dept := department_for st department_name in
  mkStore
    (users st ++ [User.mk uid username email pwhash (Some full_name) "doctor"])
    (departments st ++ fst dept)
    (doctors st ++
       [Doctor.mk (next_id (map Doctor.id (doctors st))) uid (snd dept)
          specialization None (Some true) (Some true)])
    (patients st) (appointments st) (treatments st).

End Circumstances.

(** ** A small clinic to run the handlers on *)

Module Clinic.

Definition alice : User.t :=
  User.mk 1 "alice" "alice@example.org" "plain$s1$wonderland" (Some "Alice") "patient".
Definition drbob : User.t :=
  User.mk 2 "drbob" "bob@example.org" "plain$s2$stethoscope" (Some "Bob") "doctor".
Definition drcarol : User.t :=
  User.mk 3 "drcarol" "carol@example.org" "plain$s3$scalpel" (Some "Carol") "doctor".
Definition drdave : User.t :=
  User.mk 4 "drdave" "dave@example.org" "plain$s4$otoscope" (Some "Dave") "doctor".

Definition bob : Doctor.t := Doctor.mk 1 2 None None None (Some true) (Some true).
Definition carol : Doctor.t := Doctor.mk 2 3 None None None (Some true) (Some true).
Definition dave : Doctor.t := Doctor.mk 3 4 None None None (Some true) (Some false).

Definition alice_profile : Patient.t := Patient.mk 1 1 None None None.

(** Dr Bob, 2024-01-10, 09:00 to 09:30. *)
Definition nine : Appointment.t :=
  Appointment.mk 1 1 1 "2024-01-10 09:00:00" "2024-01-10 09:30:00" None "Booked".

Definition store : Store :=
  mkStore [alice; drbob; drcarol; drdave] [] [bob; carol; dave]
          [alice_profile] [nine] [].

Definition now : Datetime.t := Datetime.mk 2024 1 10 9 45 0 0 None.

Definition env : Env := mkEnv None now "s5".

Definition at_ (h mi s us : Z) : Datetime.t :=
  Datetime.mk 2024 1 10 h mi s us None.

(** Alice asks for a slot with Dr Bob. *)
Definition booking (start_s end_s : string) : Request :=
  mkRequest "POST" true
    [("start_datetime", start_s); ("end_datetime", end_s); ("reason", "cough")]
    (Some 1).

Definition touching : Request := booking "2024-01-10T09:30" "2024-01-10T10:00".
Definition overlapping : Request := booking "2024-01-10 09:15" "2024-01-10 09:45".
Definition half_second_late : Request :=
  booking "2024-01-10T08:30" "2024-01-10T09:00:00.500000".
Definition no_date : Request := booking "tomorrow" "2024-01-10 10:00".
Definition inverted : Request := booking "2024-01-10T10:00" "2024-01-10T09:00".
Definition inverted_with_offset : Request :=
  booking "2024-01-10T10:00+00:00" "2024-01-09T10:00".

(** A completion form posted by the user with key [uid]. *)
Definition completion (uid : Z) : Request :=
  mkRequest "POST" true
    [("diagnosis", "cold"); ("prescription", "rest")] (Some uid).

Definition credentials (username password : string) : Request :=
  mkRequest "POST" true [("username", username); ("password", password)] None.

Definition signup (username email : string) : Request :=
  mkRequest "POST" true
    [("full_name", "Erin"); ("username", username); ("email", email);
     ("password", "hunter2")] None.

Definition erin : Request := signup " erin " "erin@example.org".
Definition nobody : Request := credentials "nobody" "wonderland".
Definition alice_mistyped : Request := credentials "alice" "wonderlan".
Definition dave_login : Request := credentials "dave@example.org" "otoscope".

(** The store once Dr Bob has completed the nine o'clock appointment. *)
Definition after_nine : Store :=
  completed store nine (Some "cold") (Some "rest") now.

End Clinic.

(* ===================================================================== *)
(** ** A database grown from nothing

    The seeding utility, an administrator, Dr Bob, Alice, two bookings and
    a completion, one after the other on the empty database. *)

Module Journey.

Definition env : Env := mkEnv None (Datetime.mk 2024 1 10 9 45 0 0 None) "s5".

Definition add_bob : Request :=
  mkRequest "POST" true
    [("full_name", "Bob"); ("username", "drbob"); ("email", "bob@example.org");
     ("password", "stethoscope"); ("department", "Cardiology");
     ("specialization", "")]
    (Some 1).

Definition signup_alice : Request :=
  mkRequest "POST" true
    [("full_name", "Alice"); ("username", "alice");
     ("email", "alice@example.org"); ("password", "wonderland")] None.

(** Alice (identity 3) asks for a slot. *)
Definition slot (start_s end_s : string) : Request :=
  mkRequest "POST" true
    [("start_datetime", start_s); ("end_datetime", end_s); ("reason", "cough")]
    (Some 3).

Definition nine : Request := slot "2024-01-10T09:00" "2024-01-10T09:30".
Definition half_past_nine : Request := slot "2024-01-10T09:30" "2024-01-10T10:00".

(** Dr Bob (identity 2) posts the completion form. *)
Definition done : Request :=
  mkRequest "POST" true [("diagnosis", "cold"); ("prescription", "rest")] (Some 2).

Definition seeded : Store := run_utility setup_database env empty_store.
Definition with_admin : Store :=
  run_utility (create_admin_user "root" "root@example.org" "Root" "secret1" false)
    env seeded.
Definition with_bob : Store := snd (run (add_doctor add_bob) env with_admin).
Definition with_alice : Store := snd (run (register signup_alice) env with_bob).
Definition booked_once : Store := snd (run (book_appointment 1 nine) env with_alice).
Definition booked_twice : Store :=
  snd (run (book_appointment 1 half_past_nine) env booked_once).
Definition completed_once : Store :=
  snd (run (complete_appointment 1 done) env booked_twice).

(** A page request from the identity with key [uid]. *)
Definition view (uid : Z) : Request := mkRequest "GET" false [] (Some uid).

Definition login_as_user (username password : string) : Request :=
  mkRequest "POST" true [("username", username); ("password", password)] None.

(** The rows the journey leaves. *)
Definition root : User.t :=
  User.mk 1 "root" "root@example.org" "plain$s5$secret1" (Some "Root") "admin".
Definition drbob : User.t :=
  User.mk 2 "drbob" "bob@example.org" "plain$s5$stethoscope" (Some "Bob") "doctor".
Definition alice : User.t :=
  User.mk 3 "alice" "alice@example.org" "plain$s5$wonderland" (Some "Alice")
    "patient".
Definition bob : Doctor.t :=
  Doctor.mk 1 2 (Some 2) None None (Some true) (Some true).
Definition alice_profile : Patient.t := Patient.mk 1 3 None None None.
Definition first_visit : Appointment.t :=
  Appointment.mk 1 1 1 "2024-01-10 09:00:00" "2024-01-10 09:30:00" (Some "cough")
    "Booked".
Definition second_visit : Appointment.t :=
  Appointment.mk 2 1 1 "2024-01-10 09:30:00" "2024-01-10 10:00:00" (Some "cough")
    "Booked".

End Journey.

(* ===================================================================== *)
(** ** [routes.py]: the dashboards *)

(** [ORDER BY]: rows with equal keys keep their table order. *)
Fixpoint insert_by {A} (le : A -> A -> bool) (x : A) (l : list A) : list A :=
  match l with
  | [] => [x]
  | y :: l' => if le x y then x :: l else y :: insert_by le x l'
  end.

Definition order_by {A} (le : A -> A -> bool) (l : list A) : list A :=
  fold_right (insert_by le) [] l.

(** [Appointment.start_datetime] ascending, and [.desc()]. *)
Definition start_asc (a b : Appointment.t) : bool :=
  Str.le (Appointment.start_datetime a) (Appointment.start_datetime b).

Definition start_desc (a b : Appointment.t) : bool :=
  Str.ge (Appointment.start_datetime a) (Appointment.start_datetime b).

(** What a dashboard hands to its template. *)
Inductive Dashboard : Type :=
| AdminDashboard (doctors : list Doctor.t) (patients : list Patient.t)
    (appointments : list Appointment.t)
| PatientDashboard (patient : Patient.t) (upcoming : list Appointment.t)
    (doctors : list Doctor.t)
| DoctorDashboard (doctor : Doctor.t) (appointments : list Appointment.t).

Inductive Answer : Type :=
| Page (d : Dashboard)
| Other (r : Response).

(** [@login_required] for a route that answers with a page. *)
Definition login_required_page (req : Request) (body : User.t -> M Answer)
    : M Answer :=
  let unauthorized :=
    Other (respond (Redirect "main.login" [])
             [("Please log in to access this page.", "message")]) in
  match cookie req with
  | None => ret unauthorized
  | Some uid =>
      u <- query (load_user uid) ;;
      match u with
      | None => ret unauthorized
      | Some current_user => body current_user
      end
  end.

Definition admin_dashboard (req : Request) : M Answer :=
  login_required_page req (fun current_user =>
    if negb (String.eqb (User.role current_user) "admin") then
      ret (Other (respond (Redirect "main.index" []) [("Access denied.", "danger")]))
    else
      doctors <- query doctors ;;
      patients <- query patients ;;
      appointments <- query (fun st => order_by start_desc (appointments st)) ;;
      ret (Page (AdminDashboard doctors patients appointments))).

Definition patient_dashboard (req : Request) : M Answer :=
  login_required_page req (fun current_user =>
    if negb (String.eqb (User.role current_user) "patient") then
      ret (Other (respond (Redirect "main.index" []) [("Access denied.", "danger")]))
    else
      patient <- query (patient_profile current_user) ;;
      match patient with
      | None => raise AttributeError
      | Some patient =>
          upcoming <- query (fun st =>
            order_by start_asc
              (filter (fun a => Appointment.patient_id a =? Patient.id patient)
                      (appointments st))) ;;
          doctors <- query (fun st =>
            filter (fun d => truthy_flag (Doctor.is_active d)
                             && truthy_flag (Doctor.is_approved d))
                   (doctors st)) ;;
          ret (Page (PatientDashboard patient upcoming doctors))
      end).

Definition doctor_dashboard (req : Request) : M Answer :=
  login_required_page req (fun current_user =>
    if negb (String.eqb (User.role current_user) "doctor") then
      ret (Other (respond (Redirect "main.index" []) [("Access denied.", "danger")]))
    else
      doctor <- query (doctor_profile current_user) ;;
      match doctor with
      | None => raise AttributeError
      | Some doctor =>
          appointments <- query (fun st =>
            order_by start_asc
              (filter (fun a => Appointment.doctor_id a =? Doctor.id doctor)
                      (appointments st))) ;;
          ret (Page (DoctorDashboard doctor appointments))
      end).

(** A dashboard request from start to finish. *)
Definition run_page (h : M Answer) (env : Env) (st : Store) : Answer * Store :=
  match h env (mkSession st st O) with
  | (Ret r, s) => (r, committed s)
  | (Raise _, s) => (Other (respond (Abort 500) []), committed s)
  end.

(* ===================================================================== *)
(** ** [create_db.py]: resetting the database

    [typed] is what is typed at the prompt, when the prompt is shown. *)

(** [db.drop_all()]: every table is emptied at once. *)
Definition drop_all : M unit :=
  statement ;;;
  (fun _ s => (Ret tt, mkSession empty_store empty_store (executed s))).

Definition reset_database (require_yes : bool) (typed : string) : M bool :=
  if require_yes && negb (String.eqb (Str.strip typed) "DELETE ALL DATA") then
    ret false
  else
    try_except (drop_all ;;; ret true) (fun _ => ret false).

(** The [--reset] branch of the command line, and choice 3 of the menu. *)
Definition main_reset (yes : bool) (typed : string) : M unit :=
  if yes then
    ok <- reset_database false typed ;;
    if ok then setup_database else ret tt
  else ret tt.

Definition menu_reset (typed : string) : M unit :=
  ok <- reset_database false typed ;;
  if ok then setup_database else ret tt.

(* ===================================================================== *)
(** ** What the data model asks of a store *)

(** No Booked row conflicts, by the filter of the conflict query, with a
    row that stands before it in the table. *)
Definition no_double_booking (st : Store) : Prop :=
  forall i j r' r,
    (i < j)%nat ->
    nth_error (appointments st) i = Some r' ->
    nth_error (appointments st) j = Some r ->
    Appointment.status r = "Booked" ->
    conflicts (Appointment.doctor_id r) (Appointment.start_datetime r)
              (Appointment.end_datetime r) r' = false.

Record consistent (st : Store) : Prop := {
  user_ids_nodup : NoDup (map User.id (users st));
  usernames_nodup : NoDup (map User.username (users st));
  emails_nodup : NoDup (map User.email (users st));
  roles_known :
    forall u, In u (users st) ->
      User.role u = "admin" \/ User.role u = "doctor" \/ User.role u = "patient";
  department_ids_nodup : NoDup (map Department.id (departments st));
  department_names_nodup : NoDup (map Department.name (departments st));
  doctor_ids_nodup : NoDup (map Doctor.id (doctors st));
  doctor_users_nodup : NoDup (map Doctor.user_id (doctors st));
  patient_ids_nodup : NoDup (map Patient.id (patients st));
  patient_users_nodup : NoDup (map Patient.user_id (patients st));
  appointment_ids_nodup : NoDup (map Appointment.id (appointments st));
  treatment_ids_nodup : NoDup (map Treatment.id (treatments st));
  patient_has_identity :
    forall p, In p (patients st) ->
      exists u, In u (users st) /\ User.id u = Patient.user_id p /\
                User.role u = "patient";
  doctor_has_identity :
    forall d, In d (doctors st) ->
      exists u, In u (users st) /\ User.id u = Doctor.user_id d /\
                User.role u = "doctor";
  patient_role_has_profile :
    forall u, In u (users st) -> User.role u = "patient" ->
      exists p, In p (patients st) /\ Patient.user_id p = User.id u;
  doctor_role_has_profile :
    forall u, In u (users st) -> User.role u = "doctor" ->
      exists d, In d (doctors st) /\ Doctor.user_id d = User.id u;
  doctors_approved :
    forall d, In d (doctors st) ->
      Doctor.is_active d = Some true /\ Doctor.is_approved d = Some true;
  doctor_department :
    forall d k, In d (doctors st) -> Doctor.department_id d = Some k ->
      exists dept, In dept (departments st) /\ Department.id dept = k;
  appointment_parties :
    forall a, In a (appointments st) ->
      (exists p, In p (patients st) /\ Patient.id p = Appointment.patient_id a) /\
      (exists d, In d (doctors st) /\ Doctor.id d = Appointment.doctor_id a);
  appointment_status :
    forall a, In a (appointments st) ->
      Appointment.status a = "Booked" \/ Appointment.status a = "Completed";
  treatment_of_completed :
    forall t, In t (treatments st) ->
      exists a, In a (appointments st) /\
                Appointment.id a = Treatment.appointment_id t /\
                Appointment.status a = "Completed";
  completed_has_treatment :
    forall a, In a (appointments st) -> Appointment.status a = "Completed" ->
      exists t, In t (treatments st) /\
                Treatment.appointment_id t = Appointment.id a;
  booked_apart : no_double_booking st
}.

(* ===================================================================== *)
(** * Properties *)

(** ** Rendering to the second preserves order *)

Module Rendering.

Import Datetime.

Lemma digit_compare x y :
  0 <= x < 10 -> 0 <= y < 10 ->
  Ascii.compare (digit x) (digit y) = (x ?= y).
Proof.
  intros Hx Hy. unfold Ascii.compare, digit.
  rewrite !N_ascii_embedding by lia.
  destruct (Z.compare_spec x y) as [->|H|H].
  - apply N.compare_refl.
  - apply N.compare_lt_iff. lia.
  - apply N.compare_gt_iff. lia.
Qed.

Lemma compare_refl s : String.compare s s = Eq.
Proof.
  induction s as [|c s IH]; simpl; [reflexivity|].
  unfold Ascii.compare. now rewrite N.compare_refl.
Qed.

Lemma compare_app p : forall q s t,
  String.length p = String.length q ->
  String.compare (p ++ s) (q ++ t) = lex (String.compare p q) (String.compare s t).
Proof.
  induction p as [|c p IH]; intros [|c' q] s t L; simpl in *; try discriminate.
  - reflexivity.
  - destruct (Ascii.compare c c'); simpl; auto.
Qed.

Lemma lex_pair (a b base x1 x2 y1 y2 : Z) :
  0 < base -> 0 <= x2 < base -> 0 <= y2 < base ->
  a = x1 * base + x2 -> b = y1 * base + y2 ->
  lex (x1 ?= y1) (x2 ?= y2) = (a ?= b).
Proof.
  intros Hb Hx Hy -> ->.
  destruct (Z.compare_spec x1 y1) as [->|H|H]; simpl.
  - destruct (Z.compare_spec x2 y2) as [->|H2|H2]; symmetry.
    + apply Z.compare_refl.
    + apply Z.compare_lt_iff. lia.
    + apply Z.compare_gt_iff. lia.
  - symmetry. apply Z.compare_lt_iff. nia.
  - symmetry. apply Z.compare_gt_iff. nia.
Qed.

Lemma digits2_compare x y :
  0 <= x < 100 -> 0 <= y < 100 ->
  String.compare (digits2 x) (digits2 y) = (x ?= y).
Proof.
  intros Hx Hy. unfold digits2. simpl.
  assert (0 <= x / 10 < 10) by (split; [apply Z.div_pos|apply Z.div_lt_upper_bound]; lia).
  assert (0 <= y / 10 < 10) by (split; [apply Z.div_pos|apply Z.div_lt_upper_bound]; lia).
  assert (0 <= x mod 10 < 10) by (apply Z.mod_pos_bound; lia).
  assert (0 <= y mod 10 < 10) by (apply Z.mod_pos_bound; lia).
  rewrite !digit_compare by assumption.
  rewrite <- (lex_pair x y 10 (x / 10) (x mod 10) (y / 10) (y mod 10))
    by (lia || (rewrite Z.mul_comm; apply Z.div_mod; lia)).
  unfold lex. destruct (x / 10 ?= y / 10), (x mod 10 ?= y mod 10); reflexivity.
Qed.

Lemma digits4_compare x y :
  0 <= x < 10000 -> 0 <= y < 10000 ->
  String.compare (digits4 x) (digits4 y) = (x ?= y).
Proof.
  intros Hx Hy. unfold digits4.
  rewrite compare_app by reflexivity.
  assert (0 <= x / 100 < 100) by (split; [apply Z.div_pos|apply Z.div_lt_upper_bound]; lia).
  assert (0 <= y / 100 < 100) by (split; [apply Z.div_pos|apply Z.div_lt_upper_bound]; lia).
  assert (0 <= x mod 100 < 100) by (apply Z.mod_pos_bound; lia).
  assert (0 <= y mod 100 < 100) by (apply Z.mod_pos_bound; lia).
  rewrite !digits2_compare by assumption.
  apply lex_pair with (base := 100); try lia.
  - rewrite Z.mul_comm. apply Z.div_mod. lia.
  - rewrite Z.mul_comm. apply Z.div_mod. lia.
Qed.

Lemma strftime_store d :
  strftime d STORE_FMT =
  (digits4 (year d) ++ String "-" (digits2 (month d) ++ String "-"
    (digits2 (day d) ++ String " " (digits2 (hour d) ++ String ":"
    (digits2 (minute d) ++ String ":" (digits2 (second d)))))))%string.
Proof.
  reflexivity.
Qed.

Ltac month_cases m :=
  let H := fresh in
  assert (H : m = 1 \/ m = 2 \/ m = 3 \/ m = 4 \/ m = 5 \/ m = 6 \/ m = 7 \/
              m = 8 \/ m = 9 \/ m = 10 \/ m = 11 \/ m = 12) by lia;
  destruct H as [->|[->|[->|[->|[->|[->|[->|[->|[->|[->|[->| ->]]]]]]]]]]].

Ltac month_tables :=
  cbv [days_before_month days_in_month DAYS_BEFORE_MONTH DAYS_IN_MONTH nth
       Z.to_nat Pos.to_nat Pos.iter_op Nat.add Z.eqb Z.ltb Z.compare
       Pos.compare Pos.compare_cont Pos.eqb andb] in *.

Lemma days_in_month_le_31 y m : 1 <= m <= 12 -> days_in_month y m <= 31.
Proof.
  intros Hm. month_cases m; month_tables; try destruct (is_leap y); lia.
Qed.

Lemma compare_cons c s t :
  String.compare (String c s) (String c t) = String.compare s t.
Proof.
  simpl. unfold Ascii.compare. now rewrite N.compare_refl.
Qed.

End Rendering.

Module RenderingOrder.

Import Datetime Rendering.

Lemma valid_ranges d :
  valid d = true ->
  0 <= year d < 10000 /\ 0 <= month d < 100 /\ 0 <= day d < 100 /\
  0 <= hour d < 100 /\ 0 <= minute d < 100 /\ 0 <= second d < 100.
Proof.
  unfold valid, in_range. intros V.
  repeat (apply andb_prop in V; destruct V as [V ?]).
  repeat match goal with H : (_ && _)%bool = true |- _ =>
    apply andb_prop in H; destruct H end.
  assert (days_in_month (year d) (month d) <= 31)
    by (apply Rendering.days_in_month_le_31; lia).
  lia.
Qed.

Lemma lex_Eq_r c : lex c Eq = c.
Proof. destruct c; reflexivity. Qed.

(** Comparing two renderings bytewise is comparing the values they were
    rendered from, to the second and on the wall clock. *)
Lemma strftime_compare d1 d2 :
  valid d1 = true -> valid d2 = true ->
  String.compare (strftime d1 STORE_FMT) (strftime d2 STORE_FMT)
  = cmp_fields (to_second d1) (to_second d2).
Proof.
  intros V1 V2.
  destruct (valid_ranges _ V1) as (?&?&?&?&?&?).
  destruct (valid_ranges _ V2) as (?&?&?&?&?&?).
  rewrite !strftime_store. unfold cmp_fields, to_second; simpl year; simpl month;
    simpl day; simpl hour; simpl minute; simpl second; simpl microsecond.
  rewrite compare_app, digits4_compare by (reflexivity || assumption). f_equal.
  do 4 (rewrite compare_cons, compare_app, digits2_compare
          by (reflexivity || assumption); f_equal).
  rewrite compare_cons.
  rewrite digits2_compare by assumption.
  rewrite Z.compare_refl. symmetry. apply lex_Eq_r.
Qed.

Lemma cmp_fields_antisym x y : cmp_fields x y = CompOpp (cmp_fields y x).
Proof.
  unfold cmp_fields, lex.
  rewrite (Z.compare_antisym (year y)), (Z.compare_antisym (month y)),
    (Z.compare_antisym (day y)), (Z.compare_antisym (hour y)),
    (Z.compare_antisym (minute y)), (Z.compare_antisym (second y)),
    (Z.compare_antisym (microsecond y)).
  destruct (year y ?= year x); simpl; try reflexivity.
  destruct (month y ?= month x); simpl; try reflexivity.
  destruct (day y ?= day x); simpl; try reflexivity.
  destruct (hour y ?= hour x); simpl; try reflexivity.
  destruct (minute y ?= minute x); simpl; try reflexivity.
  destruct (second y ?= second x); simpl; try reflexivity.
Qed.

Lemma to_second_plain c : Interval.plain c = true -> to_second c = c.
Proof.
  destruct c as [y mo dd h mi s us tz]. unfold Interval.plain, to_second. simpl.
  intros H. apply andb_prop in H. destruct H as [H1 H2].
  apply Z.eqb_eq in H1. subst us. destruct tz; [discriminate|reflexivity].
Qed.

Lemma to_second_valid d : valid d = true -> valid (to_second d) = true.
Proof.
  unfold valid, to_second. cbn [year month day hour minute second microsecond tzinfo].
  intros V.
  do 7 (apply andb_prop in V; destruct V as [V ?]).
  repeat match goal with H : in_range _ _ _ = true |- _ => rewrite H; clear H end.
  reflexivity.
Qed.


Lemma strftime_to_second d :
  strftime (to_second d) STORE_FMT = strftime d STORE_FMT.
Proof. reflexivity. Qed.

(** [x <= y] in the order of the store is [not (y' < x')] on the values
    rendered, cut to the second. *)
Lemma le_rendered d1 d2 :
  valid d1 = true -> valid d2 = true ->
  Str.le (strftime d1 STORE_FMT) (strftime d2 STORE_FMT) = false
  <-> cmp_fields (to_second d2) (to_second d1) = Lt.
Proof.
  intros V1 V2. unfold Str.le, String.leb.
  rewrite strftime_compare by assumption.
  rewrite (cmp_fields_antisym (to_second d2)).
  destruct (cmp_fields (to_second d1) (to_second d2)); simpl;
    split; congruence.
Qed.

End RenderingOrder.

(** ** The order of the fields is the order in time *)

Module Chronology.

Import Datetime.

Lemma lex_assoc a b c : lex (lex a b) c = lex a (lex b c).
Proof. destruct a; reflexivity. Qed.

Lemma days_in_year y :
  days_before_year (y + 1) - days_before_year y
  = if is_leap y then 366 else 365.
Proof.
  unfold days_before_year, is_leap. cbv zeta.
  replace (y + 1 - 1) with y by lia.
  destruct (Z.eqb_spec (y mod 4) 0), (Z.eqb_spec (y mod 100) 0),
    (Z.eqb_spec (y mod 400) 0); cbn [andb orb negb];
    Z.div_mod_to_equations; lia.
Qed.

Lemma days_before_year_mono y y' :
  y <= y' -> days_before_year y <= days_before_year y'.
Proof. unfold days_before_year. cbv zeta. Z.div_mod_to_equations. lia. Qed.

Import Rendering.

Lemma day_of_year_bound y m d :
  1 <= m <= 12 -> 1 <= d <= days_in_month y m ->
  1 <= days_before_month y m + d <= (if is_leap y then 366 else 365).
Proof.
  intros Hm Hd.
  month_cases m; month_tables; destruct (is_leap y); lia.
Qed.

Lemma day_of_year_mono y m1 d1 m2 d2 :
  1 <= m1 -> m1 < m2 -> m2 <= 12 ->
  d1 <= days_in_month y m1 -> 1 <= d2 ->
  days_before_month y m1 + d1 < days_before_month y m2 + d2.
Proof.
  intros H1 H12 H2 Hd1 Hd2.
  month_cases m1; month_cases m2; try lia; month_tables;
    destruct (is_leap y); lia.
Qed.

Lemma ymd2ord_compare y1 m1 d1 y2 m2 d2 :
  1 <= m1 <= 12 -> 1 <= d1 <= days_in_month y1 m1 ->
  1 <= m2 <= 12 -> 1 <= d2 <= days_in_month y2 m2 ->
  lex (y1 ?= y2) (lex (m1 ?= m2) (d1 ?= d2))
  = (ymd2ord y1 m1 d1 ?= ymd2ord y2 m2 d2).
Proof.
  intros Hm1 Hd1 Hm2 Hd2. unfold ymd2ord.
  pose proof (day_of_year_bound y1 m1 d1 Hm1 Hd1) as B1.
  pose proof (day_of_year_bound y2 m2 d2 Hm2 Hd2) as B2.
  destruct (Z.compare_spec y1 y2) as [->|Hy|Hy]; cbn [lex].
  - destruct (Z.compare_spec m1 m2) as [->|Hm|Hm]; cbn [lex].
    + destruct (Z.compare_spec d1 d2) as [->|Hd|Hd]; symmetry.
      * apply Z.compare_refl.
      * apply Z.compare_lt_iff. lia.
      * apply Z.compare_gt_iff. lia.
    + symmetry. apply Z.compare_lt_iff.
      pose proof (day_of_year_mono y2 m1 d1 m2 d2). lia.
    + symmetry. apply Z.compare_gt_iff.
      pose proof (day_of_year_mono y2 m2 d2 m1 d1). lia.
  - symmetry. apply Z.compare_lt_iff.
    pose proof (days_in_year y1).
    pose proof (days_before_year_mono (y1 + 1) y2).
    destruct (is_leap y1); lia.
  - symmetry. apply Z.compare_gt_iff.
    pose proof (days_in_year y2).
    pose proof (days_before_year_mono (y2 + 1) y1).
    destruct (is_leap y2); lia.
Qed.

Lemma valid_fields d :
  valid d = true ->
  1 <= month d <= 12 /\ 1 <= day d <= days_in_month (year d) (month d) /\
  0 <= hour d < 24 /\ 0 <= minute d < 60 /\ 0 <= second d < 60 /\
  0 <= microsecond d < 1000000.
Proof.
  unfold valid, in_range. intros V.
  do 7 (apply andb_prop in V; destruct V as [V ?]).
  repeat match goal with H : (_ && _)%bool = true |- _ =>
    apply andb_prop in H; destruct H end.
  lia.
Qed.

(** On valid values the comparison of the fields is the comparison of the
    microseconds elapsed on the wall clock. *)
Lemma cmp_fields_wall_us a b :
  valid a = true -> valid b = true ->
  cmp_fields a b = (wall_us a ?= wall_us b).
Proof.
  intros Va Vb.
  destruct (valid_fields a Va) as (Am & Ad & Ah & Ami & As & Aus).
  destruct (valid_fields b Vb) as (Bm & Bd & Bh & Bmi & Bs & Bus).
  unfold cmp_fields.
  rewrite <- (lex_assoc (month a ?= month b) (day a ?= day b)),
    <- (lex_assoc (year a ?= year b)).
  rewrite ymd2ord_compare by assumption.
  rewrite (Rendering.lex_pair
             (second a * 1000000 + microsecond a)
             (second b * 1000000 + microsecond b) 1000000
             (second a) (microsecond a) (second b) (microsecond b))
    by (lia || reflexivity).
  rewrite (Rendering.lex_pair
             (minute a * 60000000 + (second a * 1000000 + microsecond a))
             (minute b * 60000000 + (second b * 1000000 + microsecond b))
             60000000 (minute a) _ (minute b) _)
    by (lia || reflexivity).
  rewrite (Rendering.lex_pair
             (hour a * 3600000000
              + (minute a * 60000000 + (second a * 1000000 + microsecond a)))
             (hour b * 3600000000
              + (minute b * 60000000 + (second b * 1000000 + microsecond b)))
             3600000000 (hour a) _ (hour b) _)
    by (lia || reflexivity).
  rewrite (Rendering.lex_pair (wall_us a) (wall_us b) 86400000000
             (ymd2ord (year a) (month a) (day a)) _
             (ymd2ord (year b) (month b) (day b)) _)
    by (unfold wall_us; lia).
  reflexivity.
Qed.

Lemma before_cmp_fields a b :
  valid a = true -> valid b = true ->
  Interval.before a b <-> cmp_fields a b = Lt.
Proof.
  intros Va Vb. unfold Interval.before.
  rewrite (cmp_fields_wall_us a b Va Vb). symmetry. apply Z.compare_lt_iff.
Qed.

(** The order of the store on two renderings, read in time. *)
Lemma le_rendered_before d1 d2 :
  valid d1 = true -> valid d2 = true ->
  Str.le (strftime d1 STORE_FMT) (strftime d2 STORE_FMT) = false
  <-> Interval.before (to_second d2) (to_second d1).
Proof.
  intros V1 V2. rewrite RenderingOrder.le_rendered by assumption.
  symmetry. apply before_cmp_fields; apply RenderingOrder.to_second_valid;
    assumption.
Qed.

End Chronology.

(* ===================================================================== *)
(** ** The handlers *)

Section HandlerProperties.

Context {E : Externals}.


Lemma parse_datetime_total dt_str : exists r, parse_datetime dt_str = Ret r.
Proof.
  unfold parse_datetime.
  destruct (parse_datetime_try dt_str) as [r|e]; eauto.
Qed.

Lemma parse_datetime_loop_unparsable dt_str fmts :
  (forall fmt, In fmt fmts -> exists e, strptime dt_str fmt = Raise e) ->
  parse_datetime_loop dt_str fmts = Ret None \/
  exists e, parse_datetime_loop dt_str fmts = Raise e.
Proof.
  induction fmts as [|fmt fmts IH]; simpl; intros H.
  - left; reflexivity.
  - destruct (H fmt (or_introl eq_refl)) as [e He]. rewrite He.
    destruct e; eauto.
Qed.

Lemma parse_datetime_unparsable dt_str :
  unparsable dt_str -> parse_datetime dt_str = Ret None.
Proof.
  unfold unparsable, parse_datetime, parse_datetime_try.
  destruct (Str.contains "T" dt_str).
  - intros [e ->]. reflexivity.
  - intros H. destruct (parse_datetime_loop_unparsable _ _ H) as [->|[e ->]];
      reflexivity.
Qed.

(** A value comes out of [parse_datetime] only from a library call. *)
Lemma parse_datetime_some dt_str d :
  parse_datetime dt_str = Ret (Some d) ->
  fromisoformat dt_str = Ret d \/ exists fmt, strptime dt_str fmt = Ret d.
Proof.
  unfold parse_datetime, parse_datetime_try.
  destruct (Str.contains "T" dt_str).
  - destruct (fromisoformat dt_str); intros H; inversion H; auto.
  - simpl.
    destruct (strptime dt_str "%Y-%m-%d %H:%M:%S") as [d1|[]] eqn:P1;
      intros H; try discriminate H; try (inversion H; subst; eauto; fail).
    destruct (strptime dt_str "%Y-%m-%d %H:%M") as [d2|[]] eqn:P2;
      try discriminate H; inversion H; subst; eauto.
Qed.

Lemma parse_datetime_valid dt_str d :
  parse_datetime dt_str = Ret (Some d) -> Datetime.valid d = true.
Proof.
  intros H. destruct (parse_datetime_some _ _ H) as [H1|[fmt H1]].
  - eapply fromisoformat_valid; eauto.
  - eapply strptime_valid; eauto.
Qed.

(** Entering the body of [book_appointment]. *)
Lemma book_appointment_enter env st req doctor_id current_user doctor :
  booking_request st req doctor_id current_user doctor ->
  book_appointment doctor_id req env (mkSession st st O) =
  (start_dt <- lift (parse_datetime (field req "start_datetime")) ;;
   end_dt <- lift (parse_datetime (field req "end_datetime")) ;;
   let reason := form_get "reason" (form req) in
   invalid <- match start_dt, end_dt with
              | Some s, Some e => lift (Datetime.le e s)
              | _, _ => ret true
              end ;;
   match invalid, start_dt, end_dt with
   | false, Some start_dt, Some end_dt =>
       let start_str := Datetime.strftime start_dt STORE_FMT in
       let end_str := Datetime.strftime end_dt STORE_FMT in
       conflict <- query (fun st =>
         find (conflicts (Doctor.id doctor) start_str end_str)
              (appointments st)) ;;
       match conflict with
       | Some _ =>
           ret (respond (Redirect "main.book_appointment" [("doctor_id", Doctor.id doctor)])
                  [("That slot is already booked.", "danger")])
       | None =>
           match patient_profile current_user st with
           | None => raise AttributeError
           | Some patient =>
               insert_appointment (fun i =>
                 Appointment.mk i (Patient.id patient) (Doctor.id doctor)
                   start_str end_str reason "Booked") ;;;
               commit ;;;
               ret (respond (Redirect "main.patient_dashboard" [])
                      [("Appointment booked successfully.", "success")])
           end
       end
   | _, _, _ =>
       ret (respond (Redirect "main.book_appointment" [("doctor_id", Doctor.id doctor)])
              [("Invalid time range.", "danger")])
   end) env (mkSession st st O).
Proof.
  intros [[Hc Hl] [Hr [Hd Hv]]].
  unfold book_appointment, login_required. rewrite Hc.
  unfold bind at 1, query at 1. cbn [txn]. rewrite Hl, Hr, String.eqb_refl. cbn [negb].
  unfold bind at 1, query at 1. cbn [txn].
  unfold bind at 1, query at 1. cbn [txn]. rewrite Hd, Hv.
  reflexivity.
Qed.


(** The validation of the two instants, where it works: [parse_datetime]
    never raises and gives [None] whenever the library calls made for the
    string all raise; a booking request in which the start or the end does
    not parse, or in which both parse and [end_dt <= start_dt] evaluates to
    true, is answered with the invalid-time-range message (no exception
    leaves the handler) and the store is left as it was. *)
Theorem booking_rejects_bad_times :
  (forall dt_str, exists r, parse_datetime dt_str = Ret r) /\
  (forall dt_str, unparsable dt_str -> parse_datetime dt_str = Ret None) /\
  (forall env st req doctor_id current_user doctor,
     booking_request st req doctor_id current_user doctor ->
     (unparsable (field req "start_datetime") \/
      unparsable (field req "end_datetime") \/
      exists a b,
        parse_datetime (field req "start_datetime") = Ret (Some a) /\
        parse_datetime (field req "end_datetime") = Ret (Some b) /\
        Datetime.le b a = Ret true) ->
     run (book_appointment doctor_id req) env st
     = (invalid_time_range doctor, st)).
Proof.
  split; [exact parse_datetime_total|].
  split; [exact parse_datetime_unparsable|].
  intros env st req doctor_id current_user doctor Hreq Hbad.
  unfold run. rewrite (book_appointment_enter _ _ _ _ _ _ Hreq).
  destruct Hbad as [U|[U|(a & b & Pa & Pb & Hle)]].
  - apply parse_datetime_unparsable in U.
    unfold bind at 1. rewrite U. cbn [lift].
    destruct (parse_datetime_total (field req "end_datetime")) as [r ->].
    reflexivity.
  - apply parse_datetime_unparsable in U.
    destruct (parse_datetime_total (field req "start_datetime")) as [r ->].
    unfold bind at 1. cbn [lift]. unfold bind at 1. rewrite U. cbn [lift].
    destruct r; reflexivity.
  - unfold bind at 1. rewrite Pa. cbn [lift].
    unfold bind at 1. rewrite Pb. cbn [lift].
    unfold bind at 1. rewrite Hle. reflexivity.
Qed.


(** Where it does not: when one of the two parsed values carries a UTC
    offset and the other does not, [end_dt <= start_dt] raises, nothing
    catches it and the request ends in a 500 answer. *)
Lemma booking_mixed_awareness_raises env st req doctor_id current_user doctor a b :
  booking_request st req doctor_id current_user doctor ->
  parse_datetime (field req "start_datetime") = Ret (Some a) ->
  parse_datetime (field req "end_datetime") = Ret (Some b) ->
  (Datetime.tzinfo a = None <-> Datetime.tzinfo b <> None) ->
  Datetime.le b a = Raise TypeError /\
  run (book_appointment doctor_id req) env st = (internal_server_error, st).
Proof.
  intros Hreq Pa Pb Hmix.
  assert (L : Datetime.le b a = Raise TypeError).
  { unfold Datetime.le, Datetime.compare.
    destruct (Datetime.tzinfo a) as [oa|], (Datetime.tzinfo b) as [ob|];
      try reflexivity.
    - assert (X : Some oa = None) by (apply (proj2 Hmix); discriminate).
      discriminate X.
    - exfalso. apply (proj1 Hmix eq_refl). reflexivity. }
  split; [exact L|].
  unfold run. rewrite (book_appointment_enter _ _ _ _ _ _ Hreq).
  unfold bind at 1. rewrite Pa. cbn [lift].
  unfold bind at 1. rewrite Pb. cbn [lift].
  unfold bind at 1. rewrite L. reflexivity.
Qed.

(** The filter of the conflict query, on rows that hold renderings, is the
    overlap test on the request cut to the second. *)
Lemma conflicts_overlap doctor_id a b r c d :
  Datetime.valid a = true -> Datetime.valid b = true ->
  Interval.denotes (Appointment.start_datetime r) c ->
  Interval.denotes (Appointment.end_datetime r) d ->
  conflicts doctor_id (Datetime.strftime a STORE_FMT)
            (Datetime.strftime b STORE_FMT) r = true
  <-> Appointment.doctor_id r = doctor_id /\
      Appointment.status r = "Booked" /\
      Interval.overlap (Datetime.to_second a) (Datetime.to_second b) c d.
Proof.
  intros Va Vb (Vc & Pc & Sc) (Vd & Pd & Sd).
  unfold conflicts, Interval.overlap, Str.ge. rewrite Sc, Sd.
  pose proof (Chronology.le_rendered_before d a Vd Va) as L1.
  pose proof (Chronology.le_rendered_before b c Vb Vc) as L2.
  rewrite (RenderingOrder.to_second_plain d Pd) in L1.
  rewrite (RenderingOrder.to_second_plain c Pc) in L2.
  fold (Str.le (Datetime.strftime b STORE_FMT) (Datetime.strftime c STORE_FMT)).
  rewrite !andb_true_iff, negb_true_iff, orb_false_iff, Z.eqb_eq, String.eqb_eq.
  rewrite L1, L2. tauto.
Qed.

Lemma find_some_in {A} (f : A -> bool) l x :
  In x l -> f x = true -> exists y, find f l = Some y.
Proof.
  intros Hin Hf. destruct (find f l) as [y|] eqn:Hfind; [eauto|].
  rewrite (find_none f l Hfind x Hin) in Hf. discriminate.
Qed.




Lemma insert_appointment_ok env s row :
  fault env = None ->
  insert_appointment row env s =
  (Ret (Appointment.id (row (next_id (map Appointment.id (appointments (txn s)))))),
   mkSession (committed s)
     (mkStore (users (txn s)) (departments (txn s)) (doctors (txn s))
        (patients (txn s))
        (appointments (txn s)
           ++ [row (next_id (map Appointment.id (appointments (txn s))))])
        (treatments (txn s)))
     (S (executed s))).
Proof.
  intros F. unfold insert_appointment, bind, statement, query, set_txn, ret, faulty.
  rewrite F. reflexivity.
Qed.

Lemma commit_ok env s :
  fault env = None ->
  commit env s = (Ret tt, mkSession (txn s) (txn s) (S (executed s))).
Proof.
  intros F. unfold commit, bind, statement, faulty. rewrite F. reflexivity.
Qed.

(** What a booking request that passed the time-range validation comes to:
    the conflict query decides. *)
Lemma book_appointment_decided env st req doctor_id current_user doctor patient a b :
  timed_booking_request st req doctor_id current_user doctor a b ->
  patient_profile current_user st = Some patient ->
  fault env = None ->
  run (book_appointment doctor_id req) env st =
  match find (conflicts (Doctor.id doctor) (Datetime.strftime a STORE_FMT)
                (Datetime.strftime b STORE_FMT)) (appointments st) with
  | Some _ => (slot_taken doctor, st)
  | None => (booking_done,
             booked st patient doctor (Datetime.strftime a STORE_FMT)
               (Datetime.strftime b STORE_FMT) (form_get "reason" (form req)))
  end.
Proof.
  intros (Hreq & Pa & Pb & Hle) Hp F.
  unfold run. rewrite (book_appointment_enter _ _ _ _ _ _ Hreq).
  unfold bind at 1. rewrite Pa. cbn [lift].
  unfold bind at 1. rewrite Pb. cbn [lift].
  unfold bind at 1. rewrite Hle. cbn [lift].
  unfold bind at 1, query at 1. cbn [txn].
  destruct (find _ (appointments st)); [reflexivity|].
  rewrite Hp. unfold bind at 1. rewrite insert_appointment_ok by assumption.
  unfold bind at 1. rewrite commit_ok by assumption. reflexivity.
Qed.



(** Every way [book_appointment] can end: the store is as it was, or it
    has one more Booked row whose two strings are renderings of the parsed
    values. *)
Lemma book_appointment_store (P : Store -> Prop) env st req doctor_id :
  P st ->
  (forall patient doctor a b,
     Datetime.valid a = true -> Datetime.valid b = true ->
     P (booked st patient doctor (Datetime.strftime a STORE_FMT)
          (Datetime.strftime b STORE_FMT) (form_get "reason" (form req)))) ->
  P (snd (run (book_appointment doctor_id req) env st)).
Proof.
  intros P0 Pb.
  unfold run, book_appointment, login_required.
  destruct (cookie req) as [uid|]; [|exact P0].
  unfold bind at 1, query at 1. cbn [txn].
  destruct (load_user uid st) as [cu|]; [|exact P0].
  destruct (negb _); [exact P0|].
  unfold bind at 1, query at 1. cbn [txn].
  unfold bind at 1, query at 1. cbn [txn].
  destruct (find _ (doctors st)) as [doctor|]; [|exact P0].
  destruct (validate_on_submit _ _); [|exact P0].
  destruct (parse_datetime_total (field req "start_datetime")) as [ra Pa].
  destruct (parse_datetime_total (field req "end_datetime")) as [rb Pb'].
  unfold bind at 1. rewrite Pa. cbn [lift].
  unfold bind at 1. rewrite Pb'. cbn [lift].
  destruct ra as [a|]; [|exact P0].
  destruct rb as [b|]; [|exact P0].
  unfold bind at 1.
  destruct (Datetime.le b a) as [[|]|e]; cbn [lift]; try exact P0.
  unfold bind at 1, query at 1. cbn [txn].
  destruct (find _ (appointments st)); [exact P0|].
  destruct (patient_profile cu st) as [p|]; [|exact P0].
  unfold insert_appointment, commit, bind, statement, query, set_txn, ret.
  cbn [txn committed executed].
  destruct (faulty env 0); cbn [fst snd committed executed]; [exact P0|].
  destruct (faulty env 1); cbn [fst snd committed executed]; [exact P0|].
  apply Pb; eapply parse_datetime_valid; eauto.
Qed.


Lemma rendered_booked st patient doctor a b reason :
  Datetime.valid a = true -> Datetime.valid b = true ->
  rendered st ->
  rendered (booked st patient doctor (Datetime.strftime a STORE_FMT)
              (Datetime.strftime b STORE_FMT) reason).
Proof.
  intros Va Vb Hst r Hin. unfold booked in Hin. cbn [appointments] in Hin.
  apply in_app_or in Hin. destruct Hin as [Hin|[<-|[]]]; [auto|].
  exists (Datetime.to_second a), (Datetime.to_second b).
  cbn [Appointment.start_datetime Appointment.end_datetime].
  split; (split; [apply RenderingOrder.to_second_valid; assumption|]);
    (split; [reflexivity|]); symmetry; apply RenderingOrder.strftime_to_second.
Qed.

Lemma le_plain d1 d2 :
  Interval.plain d1 = true -> Interval.plain d2 = true ->
  Datetime.le d1 d2 =
  Ret (match Datetime.cmp_fields d1 d2 with Gt => false | _ => true end).
Proof.
  unfold Interval.plain, Datetime.le, Datetime.compare.
  intros H1 H2. apply andb_prop in H1, H2.
  destruct H1 as [_ H1], H2 as [_ H2].
  destruct (Datetime.tzinfo d1); [discriminate|].
  destruct (Datetime.tzinfo d2); [discriminate|].
  destruct (Datetime.cmp_fields d1 d2); reflexivity.
Qed.

(** *** Registration *)

Lemma next_id_fresh x l : In x l -> x < next_id l.
Proof.
  unfold next_id. induction l as [|y l IH]; cbn [fold_right In]; intros H;
    [contradiction|].
  destruct H as [->|H]; [lia|]. specialize (IH H). lia.
Qed.

Lemma find_none_iff {A} (f : A -> bool) l :
  find f l = None <-> existsb f l = false.
Proof.
  induction l as [|x l IH]; simpl; [tauto|].
  destruct (f x); simpl; [split; discriminate|exact IH].
Qed.


Lemma no_patient_of_new_user st :
  profiles_ok st ->
  existsb (fun x => Patient.user_id x =? next_id (map User.id (users st)))
          (patients st) = false.
Proof.
  intros [Hp _]. destruct (existsb _ (patients st)) eqn:Hex; [|reflexivity].
  apply existsb_exists in Hex. destruct Hex as (p & Hin & Heq).
  apply Z.eqb_eq in Heq. destruct (Hp p Hin) as (u & Hu & Hid).
  pose proof (next_id_fresh (User.id u) (map User.id (users st))
                (in_map User.id _ _ Hu)). lia.
Qed.

Lemma register_unfold req env s :
  register req env s =
  if validate_on_submit req RegisterForm then
    match find (username_or_email (Str.strip (field req "username"))
                  (Str.strip (field req "email"))) (users (txn s)) with
    | Some _ => (Ret (already_exists req), s)
    | None => register_transaction req env s
    end
  else (Ret (respond (Render "register.html" [("form", CForm (form req))]) []), s).
Proof.
  unfold register. destruct (validate_on_submit req RegisterForm); [|reflexivity].
  unfold bind at 1, query at 1.
  destruct (find _ (users (txn s))); reflexivity.
Qed.

Lemma insert_user_eq row env s :
  insert_user row env s =
  let s' := mkSession (committed s) (txn s) (S (executed s)) in
  let u := row (next_id (map User.id (users (txn s)))) in
  if faulty env (executed s) then (Raise OperationalError, s')
  else if existsb (fun x => String.eqb (User.username x) (User.username u))
                  (users (txn s))
  then (Raise IntegrityError, s')
  else if existsb (fun x => String.eqb (User.email x) (User.email u))
                  (users (txn s))
  then (Raise IntegrityError, s')
  else (Ret (User.id u),
        mkSession (committed s)
          (mkStore (users (txn s) ++ [u]) (departments (txn s))
             (doctors (txn s)) (patients (txn s)) (appointments (txn s))
             (treatments (txn s)))
          (S (executed s))).
Proof.
  unfold insert_user, check, bind, statement, query, set_txn, ret, raise.
  destruct (faulty env (executed s)); [reflexivity|].
  cbn [txn]. destruct (existsb _ (users (txn s))); [reflexivity|].
  cbn [negb txn]. destruct (existsb _ (users (txn s))); reflexivity.
Qed.

Lemma insert_patient_eq row env s :
  insert_patient row env s =
  let s' := mkSession (committed s) (txn s) (S (executed s)) in
  let p := row (next_id (map Patient.id (patients (txn s)))) in
  if faulty env (executed s) then (Raise OperationalError, s')
  else if existsb (fun x => Patient.user_id x =? Patient.user_id p)
                  (patients (txn s))
  then (Raise IntegrityError, s')
  else (Ret (Patient.id p),
        mkSession (committed s)
          (mkStore (users (txn s)) (departments (txn s)) (doctors (txn s))
             (patients (txn s) ++ [p]) (appointments (txn s))
             (treatments (txn s)))
          (S (executed s))).
Proof.
  unfold insert_patient, check, bind, statement, query, set_txn, ret, raise.
  destruct (faulty env (executed s)); [reflexivity|].
  cbn [txn]. destruct (existsb _ (patients (txn s))); reflexivity.
Qed.

Lemma commit_eq env s :
  commit env s =
  if faulty env (executed s)
  then (Raise OperationalError, mkSession (committed s) (txn s) (S (executed s)))
  else (Ret tt, mkSession (txn s) (txn s) (S (executed s))).
Proof.
  unfold commit, bind, statement.
  destruct (faulty env (executed s)); reflexivity.
Qed.

(** Every way the transaction of [register] can end: nothing is committed,
    or both rows are. *)
Lemma register_transaction_store (P : Store -> Prop) req env st :
  P st ->
  P (registered st (Str.strip (field req "username"))
       (Str.strip (field req "email"))
       (generate_password_hash (salt env) (field req "password"))
       (Str.strip (field req "full_name"))) ->
  P (committed (snd (register_transaction req env (mkSession st st O)))).
Proof.
  intros P0 P1.
  unfold register_transaction, try_except.
  unfold bind at 1, ask at 1. unfold bind at 1. rewrite insert_user_eq.
  cbn [txn committed executed]. cbv zeta.
  unfold rollback, bind, ret.
  destruct (faulty env 0); [exact P0|].
  destruct (existsb _ (users st)); [exact P0|].
  destruct (existsb _ (users st)); [exact P0|].
  rewrite insert_patient_eq. cbn [txn committed executed patients]. cbv zeta.
  destruct (faulty env 1); [exact P0|].
  destruct (existsb _ (patients st)); [exact P0|].
  rewrite commit_eq. cbn [txn committed executed].
  destruct (faulty env 2); [exact P0|].
  exact P1.
Qed.


Lemma faulty_none env n : fault env = None -> faulty env n = false.
Proof. unfold faulty. intros ->. reflexivity. Qed.

Lemma existsb_false_intro {A} (f : A -> bool) l :
  (forall x, In x l -> f x = false) -> existsb f l = false.
Proof.
  intros H. destruct (existsb f l) eqn:Hex; [|reflexivity].
  apply existsb_exists in Hex. destruct Hex as (x & Hin & Hx).
  rewrite (H x Hin) in Hx. discriminate.
Qed.



(** *** Completion *)

Lemma update_appointment_status_eq aid status env s :
  update_appointment_status aid status env s =
  if faulty env (executed s)
  then (Raise OperationalError, mkSession (committed s) (txn s) (S (executed s)))
  else (Ret tt,
        mkSession (committed s)
          (mkStore (users (txn s)) (departments (txn s)) (doctors (txn s))
             (patients (txn s))
             (map (fun a => if Appointment.id a =? aid
                            then Appointment.set_status a status else a)
                  (appointments (txn s)))
             (treatments (txn s)))
          (S (executed s))).
Proof.
  unfold update_appointment_status, bind, statement, set_txn.
  destruct (faulty env (executed s)); reflexivity.
Qed.

Lemma insert_treatment_eq row env s :
  insert_treatment row env s =
  let t := row (next_id (map Treatment.id (treatments (txn s)))) in
  if faulty env (executed s)
  then (Raise OperationalError, mkSession (committed s) (txn s) (S (executed s)))
  else (Ret (Treatment.id t),
        mkSession (committed s)
          (mkStore (users (txn s)) (departments (txn s)) (doctors (txn s))
             (patients (txn s)) (appointments (txn s))
             (treatments (txn s) ++ [t]))
          (S (executed s))).
Proof.
  unfold insert_treatment, bind, statement, query, set_txn, ret.
  destruct (faulty env (executed s)); reflexivity.
Qed.

Lemma login_required_enter st req current_user body env :
  sent_by st req current_user ->
  login_required req body env (mkSession st st O)
  = body current_user env (mkSession st st O).
Proof.
  intros [Hc Hl]. unfold login_required. rewrite Hc.
  unfold bind, query. cbn [txn]. rewrite Hl. reflexivity.
Qed.

(** The two writes of a completion and the commit, under every behaviour
    of the store layer. *)
Lemma completion_writes env st appt diagnosis prescription :
  match (update_appointment_status (Appointment.id appt) "Completed" ;;;
         insert_treatment (fun i =>
           Treatment.mk i (Appointment.id appt) diagnosis prescription
             (utcnow env)) ;;;
         commit ;;;
         ret completion_done) env (mkSession st st O)
  with
  | (Ret r, s') =>
      faulty env 0 || faulty env 1 || faulty env 2 = false /\
      r = completion_done /\
      committed s' = completed st appt diagnosis prescription (utcnow env)
  | (Raise e, s') =>
      faulty env 0 || faulty env 1 || faulty env 2 = true /\ committed s' = st
  end.
Proof.
  unfold bind at 1. rewrite update_appointment_status_eq.
  cbn [txn committed executed].
  destruct (faulty env 0); [split; reflexivity|]. cbn [orb].
  unfold bind at 1. rewrite insert_treatment_eq.
  cbn [txn committed executed treatments]. cbv zeta.
  destruct (faulty env 1); [split; reflexivity|]. cbn [orb].
  unfold bind at 1. rewrite commit_eq. cbn [txn committed executed].
  destruct (faulty env 2); repeat split; reflexivity.
Qed.

(** What a completion request of an existing appointment by a doctor with
    a profile comes to. *)
Lemma complete_appointment_decided env st req appointment_id current_user doc appt :
  completion_request st req appointment_id current_user doc appt ->
  run (complete_appointment appointment_id req) env st =
  if negb (Appointment.doctor_id appt =? Doctor.id doc) then (not_authorized, st)
  else if String.eqb (method req) "POST" then
    if faulty env 0 || faulty env 1 || faulty env 2
    then (internal_server_error, st)
    else (completion_done,
          completed st appt (form_get "diagnosis" (form req))
            (form_get "prescription" (form req)) (utcnow env))
  else (completion_form appt, st).
Proof.
  intros (Hs & Hr & Hd & Ha).
  unfold run, complete_appointment.
  rewrite (login_required_enter _ _ _ _ _ Hs). rewrite Hr, String.eqb_refl.
  cbn [negb]. unfold bind at 1, query at 1. cbn [txn]. rewrite Ha.
  unfold bind at 1, query at 1. cbn [txn]. rewrite Hd.
  destruct (negb _); [reflexivity|].
  destruct (String.eqb (method req) "POST"); [|reflexivity].
  unfold bind at 1, ask at 1.
  pose proof (completion_writes env st appt (form_get "diagnosis" (form req))
                (form_get "prescription" (form req))) as W.
  destruct ((update_appointment_status _ _ ;;; _) env _) as [[r|e] s'].
  - destruct W as (-> & -> & ->). reflexivity.
  - destruct W as (-> & ->). reflexivity.
Qed.


Lemma find_after_status aid aid' status l :
  find (fun a => Appointment.id a =? aid)
       (map (fun a => if Appointment.id a =? aid'
                      then Appointment.set_status a status else a) l)
  = option_map (fun a => if Appointment.id a =? aid'
                         then Appointment.set_status a status else a)
      (find (fun a => Appointment.id a =? aid) l).
Proof.
  induction l as [|x l IH]; [reflexivity|]. cbn [map find].
  replace (Appointment.id (if Appointment.id x =? aid'
                           then Appointment.set_status x status else x))
    with (Appointment.id x) by (destruct (Appointment.id x =? aid'); reflexivity).
  destruct (Appointment.id x =? aid); [reflexivity|exact IH].
Qed.

Lemma completed_facts st appt appointment_id diagnosis prescription now :
  find (fun a => Appointment.id a =? appointment_id) (appointments st) = Some appt ->
  let st' := completed st appt diagnosis prescription now in
  find (fun a => Appointment.id a =? appointment_id) (appointments st')
  = Some (Appointment.set_status appt "Completed") /\
  (exists t, treatments st' = treatments st ++ [t] /\
             Treatment.appointment_id t = Appointment.id appt /\
             treatments_of (Appointment.id appt) st'
             = treatments_of (Appointment.id appt) st ++ [t]) /\
  users st' = users st /\ departments st' = departments st /\
  doctors st' = doctors st /\ patients st' = patients st.
Proof.
  intros Hf st'. subst st'. unfold completed. cbn [appointments treatments
    users departments doctors patients].
  split; [|split; [|repeat split]].
  - rewrite find_after_status, Hf. cbn [option_map].
    apply find_some in Hf. destruct Hf as [_ Hid]. apply Z.eqb_eq in Hid.
    rewrite Hid, Z.eqb_refl. reflexivity.
  - eexists. split; [reflexivity|]. split; [reflexivity|].
    unfold treatments_of. cbn [treatments]. rewrite filter_app.
    cbn [filter Treatment.appointment_id]. rewrite Z.eqb_refl. reflexivity.
Qed.


Lemma set_status_same a :
  Appointment.status a = "Completed" ->
  Appointment.set_status a "Completed" = a.
Proof. destruct a; cbn. intros ->. reflexivity. Qed.

(** C7. Completion is not guarded by the status: for an appointment that
    is already Completed, a further POST by the owning doctor is accepted,
    the appointment is found Completed afterwards, and one more treatment
    referring to it is stored, so the number of treatments of the
    appointment grows by one with each such POST. *)
Theorem recompletion_accepted :
  forall env st req appointment_id current_user doc appt,
    completion_request st req appointment_id current_user doc appt ->
    Appointment.doctor_id appt = Doctor.id doc ->
    method req = "POST" ->
    Appointment.status appt = "Completed" ->
    fault env = None ->
    exists st' t,
      run (complete_appointment appointment_id req) env st = (completion_done, st') /\
      completion_request st' req appointment_id current_user doc appt /\
      treatments st' = treatments st ++ [t] /\
      Treatment.appointment_id t = Appointment.id appt /\
      List.length (treatments_of (Appointment.id appt) st')
      = S (List.length (treatments_of (Appointment.id appt) st)).
Proof.
  intros env st req appointment_id current_user doc appt Hreq Hown Hpost
    Hdone F.
  pose proof (complete_appointment_decided env _ _ _ _ _ _ Hreq) as R.
  rewrite Hown, Z.eqb_refl, Hpost, String.eqb_refl, !(faulty_none _ _ F) in R.
  cbn [negb orb] in R.
  destruct Hreq as ((Hc & Hl) & Hr & Hp & Hf).
  destruct (completed_facts st appt appointment_id
              (form_get "diagnosis" (form req))
              (form_get "prescription" (form req)) (utcnow env) Hf)
    as (Hfind & (t & Ht & Hid & Hof) & Hu & _ & Hd & _).
  eexists. exists t. split; [exact R|].
  rewrite (set_status_same _ Hdone) in Hfind.
  split; [|split; [exact Ht|split; [exact Hid|]]].
  - unfold completion_request, sent_by, load_user, doctor_profile.
    rewrite Hu, Hd. repeat split; assumption.
  - rewrite Hof, length_app. cbn [List.length]. lia.
Qed.


(** C6. A completion request from a logged-in caller whose role is not
    doctor is answered with the access-denied message, whatever the
    appointment number and whether or not such an appointment exists; from
    a doctor about an existing appointment whose doctor reference is not
    the caller's own profile, with the not-authorized message.  Both
    answers differ from the not-found answer, which a doctor gets for an
    appointment that does not exist, and in each of these cases the store
    (appointments and treatments included) is left as it was. *)
Theorem completion_requires_owning_doctor :
  forall env st req appointment_id current_user,
    sent_by st req current_user ->
    let result := run (complete_appointment appointment_id req) env st in
    (User.role current_user <> "doctor" -> result = (access_denied, st)) /\
    (forall doc appt,
       User.role current_user = "doctor" ->
       doctor_profile current_user st = Some doc ->
       find (fun a => Appointment.id a =? appointment_id) (appointments st)
       = Some appt ->
       Appointment.doctor_id appt <> Doctor.id doc ->
       result = (not_authorized, st)) /\
    (User.role current_user = "doctor" ->
     find (fun a => Appointment.id a =? appointment_id) (appointments st) = None ->
     result = (not_found, st)) /\
    access_denied <> not_found /\ not_authorized <> not_found /\
    access_denied <> completion_done /\ not_authorized <> completion_done.
Proof.
  intros env st req appointment_id current_user Hs result. subst result.
  split; [|split; [|split]].
  - intros Hrole. unfold run, complete_appointment.
    rewrite (login_required_enter _ _ _ _ _ Hs).
    apply String.eqb_neq in Hrole. rewrite Hrole. reflexivity.
  - intros doc appt Hr Hd Ha Hne.
    rewrite (complete_appointment_decided env st req appointment_id
               current_user doc appt) by (repeat split; try apply Hs; assumption).
    apply Z.eqb_neq in Hne. rewrite Hne. reflexivity.
  - intros Hr Ha. unfold run, complete_appointment.
    rewrite (login_required_enter _ _ _ _ _ Hs). rewrite Hr, String.eqb_refl.
    cbn [negb]. unfold bind at 1, query at 1. cbn [txn]. rewrite Ha.
    reflexivity.
  - repeat split; discriminate.
Qed.


(** *** Login *)

Lemma login_decided env st req :
  validate_on_submit req LoginForm = true ->
  run (login req) env st =
  match identified st req with
  | None => (login_rejected req invalid_credentials, st)
  | Some user =>
      if negb (check_password_hash (User.password_hash user) (field req "password"))
      then (login_rejected req invalid_credentials, st)
      else if String.eqb (User.role user) "doctor" then
        match doctor_profile user st with
        | None => (login_rejected req profile_missing, st)
        | Some d =>
            if negb (truthy_flag (Doctor.is_approved d))
            then (login_rejected req pending_approval, st)
            else if negb (truthy_flag (Doctor.is_active d))
            then (login_rejected req deactivated, st)
            else (logged_in user, st)
        end
      else (logged_in user, st)
  end.
Proof.
  intros Hv. unfold run, login, identified. rewrite Hv.
  unfold try_except. unfold bind at 1, query at 1. cbn [txn].
  destruct (find _ (users st)) as [user|]; [|reflexivity].
  destruct (negb (check_password_hash _ _)); [reflexivity|].
  unfold bind at 1, doctor_gate.
  destruct (String.eqb (User.role user) "doctor"); [|reflexivity].
  unfold bind at 1, query at 1. cbn [txn].
  destruct (doctor_profile user st) as [d|]; [|reflexivity].
  destruct (negb (truthy_flag (Doctor.is_approved d))); [reflexivity|].
  destruct (negb (truthy_flag (Doctor.is_active d))); reflexivity.
Qed.

Lemma truthy_flag_true b : truthy_flag b = true <-> b = Some true.
Proof. destruct b as [[|]|]; cbn; split; congruence. Qed.

Lemma doctor_profile_approve user st d :
  doctor_profile user st = Some d ->
  doctor_profile user (approve st d) = Some (set_approved d (Some true)).
Proof.
  unfold doctor_profile, approve. cbn [doctors].
  induction (doctors st) as [|x l IH]; [discriminate|]. cbn [find map].
  replace (Doctor.user_id (if Doctor.id x =? Doctor.id d
                           then set_approved x (Some true) else x))
    with (Doctor.user_id x) by (destruct (Doctor.id x =? Doctor.id d); reflexivity).
  destruct (Doctor.user_id x =? User.id user).
  - intros H. inversion H; subst. rewrite Z.eqb_refl. reflexivity.
  - exact IH.
Qed.

(** C8. For a login attempt that identifies a doctor and carries the
    right credential: the attempt logs the doctor in exactly when a Doctor
    profile exists with [is_approved] and [is_active] both true; with
    [is_approved] not true it is refused with the pending-approval message;
    after the approval flag of the profile is set, with [is_active] true
    and nothing else changed, the same attempt logs the doctor in; a
    missing profile and a deactivated one are refused each with its own
    message, and the three messages differ from one another and from the
    invalid-credentials message.  The store is never changed. *)
Theorem doctor_login_gate :
  forall env st req user,
    validate_on_submit req LoginForm = true ->
    identified st req = Some user ->
    check_password_hash (User.password_hash user) (field req "password") = true ->
    User.role user = "doctor" ->
    let attempt st := run (login req) env st in
    (login_as (fst (attempt st)) = Some (User.id user)
     <-> exists d, doctor_profile user st = Some d /\
                   Doctor.is_approved d = Some true /\
                   Doctor.is_active d = Some true) /\
    (forall d, doctor_profile user st = Some d ->
               Doctor.is_approved d <> Some true ->
               attempt st = (login_rejected req pending_approval, st)) /\
    (forall d, doctor_profile user st = Some d ->
               Doctor.is_active d = Some true ->
               attempt (approve st d) = (logged_in user, approve st d)) /\
    (doctor_profile user st = None ->
     attempt st = (login_rejected req profile_missing, st)) /\
    (forall d, doctor_profile user st = Some d ->
               Doctor.is_approved d = Some true ->
               Doctor.is_active d <> Some true ->
               attempt st = (login_rejected req deactivated, st)) /\
    snd (attempt st) = st /\
    profile_missing <> pending_approval /\ profile_missing <> deactivated /\
    pending_approval <> deactivated /\
    profile_missing <> invalid_credentials /\
    pending_approval <> invalid_credentials /\
    deactivated <> invalid_credentials.
Proof.
  intros env st req user Hv Hid Hpw Hrole attempt.
  assert (R : attempt st =
    match doctor_profile user st with
    | None => (login_rejected req profile_missing, st)
    | Some d =>
        if negb (truthy_flag (Doctor.is_approved d))
        then (login_rejected req pending_approval, st)
        else if negb (truthy_flag (Doctor.is_active d))
        then (login_rejected req deactivated, st)
        else (logged_in user, st)
    end).
  { subst attempt. cbv beta. rewrite (login_decided _ _ _ Hv), Hid, Hpw, Hrole.
    rewrite String.eqb_refl. reflexivity. }
  split; [|split; [|split; [|split; [|split; [|split]]]]].
  - rewrite R. split.
    + destruct (doctor_profile user st) as [d|]; [|discriminate].
      destruct (truthy_flag (Doctor.is_approved d)) eqn:A; [|discriminate].
      destruct (truthy_flag (Doctor.is_active d)) eqn:B; [|discriminate].
      intros _. exists d. repeat split; apply truthy_flag_true; assumption.
    + intros (d & -> & A & B). apply truthy_flag_true in A, B.
      rewrite A, B. reflexivity.
  - intros d Hd Hna. rewrite R, Hd.
    destruct (truthy_flag (Doctor.is_approved d)) eqn:A; [|reflexivity].
    apply truthy_flag_true in A. contradiction.
  - intros d Hd Hact. subst attempt. cbv beta.
    rewrite (login_decided _ _ _ Hv).
    change (identified (approve st d) req) with (identified st req).
    rewrite Hid, Hpw, Hrole, String.eqb_refl.
    rewrite (doctor_profile_approve _ _ _ Hd). cbn [negb].
    unfold set_approved. cbn [Doctor.is_approved Doctor.is_active truthy_flag negb].
    apply truthy_flag_true in Hact. rewrite Hact. reflexivity.
  - intros Hd. rewrite R, Hd. reflexivity.
  - intros d Hd A Hna. rewrite R, Hd.
    apply truthy_flag_true in A. rewrite A. cbn [negb].
    destruct (truthy_flag (Doctor.is_active d)) eqn:B; [|reflexivity].
    apply truthy_flag_true in B. contradiction.
  - rewrite R. destruct (doctor_profile user st) as [d|]; [|reflexivity].
    destruct (negb _); [reflexivity|]. destruct (negb _); reflexivity.
  - repeat split; discriminate.
Qed.

(** C9. A login attempt whose identifier matches no identity and a login
    attempt that matches an identity but fails the credential check get
    the same rejection: the login page with the one message
    "Invalid username or password.", no session, the store untouched.  The
    answer depends on the submitted form only, so the two answers are
    equal whenever the submitted forms are. *)
Theorem login_rejection_uniform :
  forall env1 env2 st1 st2 req1 req2 user,
    validate_on_submit req1 LoginForm = true ->
    validate_on_submit req2 LoginForm = true ->
    identified st1 req1 = None ->
    identified st2 req2 = Some user ->
    check_password_hash (User.password_hash user) (field req2 "password") = false ->
    let r1 := run (login req1) env1 st1 in
    let r2 := run (login req2) env2 st2 in
    r1 = (login_rejected req1 invalid_credentials, st1) /\
    r2 = (login_rejected req2 invalid_credentials, st2) /\
    flashes (fst r1) = flashes (fst r2) /\
    login_as (fst r1) = None /\ login_as (fst r2) = None /\
    (form req1 = form req2 -> fst r1 = fst r2).
Proof.
  intros env1 env2 st1 st2 req1 req2 user Hv1 Hv2 Hnone Hsome Hpw r1 r2.
  assert (R1 : r1 = (login_rejected req1 invalid_credentials, st1)).
  { subst r1. rewrite (login_decided _ _ _ Hv1), Hnone. reflexivity. }
  assert (R2 : r2 = (login_rejected req2 invalid_credentials, st2)).
  { subst r2. rewrite (login_decided _ _ _ Hv2), Hsome, Hpw. reflexivity. }
  rewrite R1, R2. cbn [fst]. unfold login_rejected, respond.
  cbn [flashes login_as].
  repeat split. intros ->. reflexivity.
Qed.


(** *** What each operation can do to the store *)

Lemma insert_department_eq row env s :
  insert_department row env s =
  let s' := mkSession (committed s) (txn s) (S (executed s)) in
  let d := row (next_id (map Department.id (departments (txn s)))) in
  if faulty env (executed s) then (Raise OperationalError, s')
  else if existsb (fun x => String.eqb (Department.name x) (Department.name d))
                  (departments (txn s))
  then (Raise IntegrityError, s')
  else (Ret (Department.id d),
        mkSession (committed s)
          (mkStore (users (txn s)) (departments (txn s) ++ [d])
             (doctors (txn s)) (patients (txn s)) (appointments (txn s))
             (treatments (txn s)))
          (S (executed s))).
Proof.
  unfold insert_department, check, bind, statement, query, set_txn, ret, raise.
  destruct (faulty env (executed s)); [reflexivity|].
  cbn [txn]. destruct (existsb _ (departments (txn s))); reflexivity.
Qed.

Lemma insert_doctor_eq row env s :
  insert_doctor row env s =
  let s' := mkSession (committed s) (txn s) (S (executed s)) in
  let d := row (next_id (map Doctor.id (doctors (txn s)))) in
  if faulty env (executed s) then (Raise OperationalError, s')
  else if existsb (fun x => Doctor.user_id x =? Doctor.user_id d)
                  (doctors (txn s))
  then (Raise IntegrityError, s')
  else (Ret (Doctor.id d),
        mkSession (committed s)
          (mkStore (users (txn s)) (departments (txn s))
             (doctors (txn s) ++ [d]) (patients (txn s)) (appointments (txn s))
             (treatments (txn s)))
          (S (executed s))).
Proof.
  unfold insert_doctor, check, bind, statement, query, set_txn, ret, raise.
  destruct (faulty env (executed s)); [reflexivity|].
  cbn [txn]. destruct (existsb _ (doctors (txn s))); reflexivity.
Qed.

Lemma login_store env st req : snd (run (login req) env st) = st.
Proof.
  destruct (validate_on_submit req LoginForm) eqn:Hv.
  - rewrite (login_decided _ _ _ Hv).
    destruct (identified st req) as [user|]; [|reflexivity].
    destruct (negb _); [reflexivity|].
    destruct (String.eqb _ _); [|reflexivity].
    destruct (doctor_profile user st) as [d|]; [|reflexivity].
    destruct (negb _); [reflexivity|]. destruct (negb _); reflexivity.
  - unfold run, login. rewrite Hv. reflexivity.
Qed.

Lemma register_store (P : Store -> Prop) env st req :
  P st ->
  (forall username email pwhash full_name,
     P (registered st username email pwhash full_name)) ->
  P (snd (run (register req) env st)).
Proof.
  intros P0 P1. unfold run. rewrite register_unfold.
  destruct (validate_on_submit req RegisterForm); [|exact P0].
  cbn [txn]. destruct (find _ (users st)); [exact P0|].
  pose proof (register_transaction_store P req env st P0 (P1 _ _ _ _)) as H.
  destruct (register_transaction req env (mkSession st st O)) as [[r|e] s'];
    exact H.
Qed.

Lemma complete_appointment_store (P : Store -> Prop) env st req appointment_id :
  P st ->
  (forall appt diagnosis prescription,
     In appt (appointments st) ->
     P (completed st appt diagnosis prescription (utcnow env))) ->
  P (snd (run (complete_appointment appointment_id req) env st)).
Proof.
  intros P0 P1. unfold run, complete_appointment, login_required.
  destruct (cookie req) as [uid|]; [|exact P0].
  unfold bind at 1, query at 1. cbn [txn].
  destruct (load_user uid st) as [cu|]; [|exact P0].
  destruct (negb _); [exact P0|].
  unfold bind at 1, query at 1. cbn [txn].
  destruct (find _ (appointments st)) as [appt|] eqn:Ha; [|exact P0].
  unfold bind at 1, query at 1. cbn [txn].
  destruct (doctor_profile cu st) as [doc|]; [|exact P0].
  destruct (negb _); [exact P0|].
  destruct (String.eqb (method req) "POST"); [|exact P0].
  unfold bind at 1, ask at 1.
  pose proof (completion_writes env st appt (form_get "diagnosis" (form req))
                (form_get "prescription" (form req))) as W.
  destruct ((update_appointment_status _ _ ;;; _) env _) as [[r|e] s'].
  - destruct W as (_ & _ & W). cbn [snd]. rewrite W. apply P1.
    apply find_some in Ha. apply Ha.
  - destruct W as (_ & W). cbn [snd]. rewrite W. exact P0.
Qed.

(** Symbolic execution of a handler: a write statement is replaced by its
    equation, then the case it branches on is split. *)
Ltac exec_write :=
  match goal with
  | |- context [insert_user ?r ?e ?s] => rewrite (insert_user_eq r e s)
  | |- context [insert_patient ?r ?e ?s] => rewrite (insert_patient_eq r e s)
  | |- context [insert_doctor ?r ?e ?s] => rewrite (insert_doctor_eq r e s)
  | |- context [insert_department ?r ?e ?s] =>
      rewrite (insert_department_eq r e s)
  | |- context [commit ?e ?s] => rewrite (commit_eq e s)
  end;
  cbv beta iota zeta; cbn [txn committed executed fst snd].

Ltac exec_case :=
  match goal with
  | |- context [if faulty ?e ?n then _ else _] => destruct (faulty e n)
  | |- context [if existsb ?f ?l then _ else _] => destruct (existsb f l)
  | |- context [match find ?f ?l with _ => _ end] =>
      let F := fresh "F" in destruct (find f l) eqn:F
  end;
  cbv beta iota zeta; cbn [txn committed executed fst snd].

Lemma add_doctor_store (P : Store -> Prop) env st req :
  P st ->
  (forall u depts d,
     Doctor.user_id d = User.id u ->
     P (mkStore (users st ++ [u]) (departments st ++ depts) (doctors st ++ [d])
          (patients st) (appointments st) (treatments st))) ->
  P (snd (run (add_doctor req) env st)).
Proof.
  intros P0 P1. unfold run, add_doctor, login_required.
  destruct (cookie req) as [uid|]; [|exact P0].
  unfold bind at 1, query at 1. cbn [txn].
  destruct (load_user uid st) as [cu|]; [|exact P0].
  destruct (negb _); [exact P0|].
  destruct (validate_on_submit req AddDoctorForm); [|exact P0].
  unfold bind at 1, query at 1. cbn [txn].
  destruct (find _ (users st)); [exact P0|].
  assert (P1' : forall u d,
     Doctor.user_id d = User.id u ->
     P (mkStore (users st ++ [u]) (departments st) (doctors st ++ [d])
          (patients st) (appointments st) (treatments st))).
  { intros u d H. rewrite <- (app_nil_r (departments st)). apply P1, H. }
  unfold try_except, rollback, get_or_create_department.
  destruct (strip_or_none (form_get "department" (form req))) as [n|];
    [destruct (Str.truthy n)|];
    unfold bind, query, ret, ask;
    cbv beta iota zeta; cbn [txn committed executed fst snd];
    repeat first [exact P0 | exec_write | exec_case
                 | cbn [departments doctors users] ];
    first [apply P1; reflexivity | apply P1'; reflexivity].
Qed.


Lemma create_admin_user_store (P : Store -> Prop) env st
    username email full_name password another :
  P st ->
  (forall u, P (mkStore (users st ++ [u]) (departments st) (doctors st)
                  (patients st) (appointments st) (treatments st))) ->
  P (run_utility (create_admin_user username email full_name password another)
       env st).
Proof.
  intros P0 P1. unfold run_utility, create_admin_user.
  unfold bind at 1, query at 1. cbn [txn].
  assert (Go : P (committed (snd
    ((conflict <- query (fun st0 => find (username_or_email username email) (users st0)) ;;
      match conflict with
      | Some _ => ret tt
      | None =>
          try_except
            (env0 <- ask ;;
             insert_user (fun i =>
               User.mk i username email
                 (generate_password_hash (salt env0) password)
                 (Some full_name) "admin") ;;;
             commit)
            (fun _ => rollback)
      end) env (mkSession st st O))))).
  { unfold try_except, rollback, bind, query, ret, ask.
    cbv beta iota zeta; cbn [txn committed executed fst snd].
    repeat first [exact P0 | exec_write | exec_case | cbn [users]].
    apply P1. }
  destruct (find _ (users st)); [destruct another|]; try exact Go. exact P0.
Qed.

Lemma add_default_departments_keeps names : forall added env s,
  match add_default_departments names added env s with
  | (_, s') =>
      committed s' = committed s /\ same_but_departments (txn s) (txn s')
  end.
Proof.
  induction names as [|name names IH]; intros added env s.
  - cbn. repeat split; reflexivity.
  - cbn [add_default_departments]. unfold bind at 1, query at 1.
    destruct (find _ (departments (txn s))); [apply IH|].
    unfold bind at 1. rewrite insert_department_eq. cbv zeta.
    destruct (faulty env (executed s)); [cbn; repeat split; reflexivity|].
    destruct (existsb _ (departments (txn s))); [cbn; repeat split; reflexivity|].
    specialize (IH (S added) env
      (mkSession (committed s)
         (mkStore (users (txn s))
            (departments (txn s)
             ++ [Department.mk (next_id (map Department.id (departments (txn s)))) name])
            (doctors (txn s)) (patients (txn s)) (appointments (txn s))
            (treatments (txn s)))
         (S (executed s)))).
    cbn [Department.id] in *.
    destruct (add_default_departments names (S added) env _) as [r s'].
    exact IH.
Qed.

Lemma setup_database_store (P : Store -> Prop) env st :
  P st ->
  (forall st', same_but_departments st st' -> P st') ->
  P (run_utility setup_database env st).
Proof.
  intros P0 P1. unfold run_utility, setup_database, try_except.
  unfold bind at 1.
  pose proof (add_default_departments_keeps default_depts O env
                (mkSession st st O)) as K.
  destruct (add_default_departments default_depts O env (mkSession st st O))
    as [[added|e] s']; cbn [snd committed txn] in *; destruct K as (Hc & Hs).
  - destruct added as [|k].
    + cbn. rewrite Hc. exact P0.
    + rewrite commit_eq. destruct (faulty env (executed s'));
        cbn [snd committed]; [rewrite Hc; exact P0|apply P1; exact Hs].
  - cbn. rewrite Hc. exact P0.
Qed.

(** *** The invariant holds of every reachable store *)

Lemma rendered_same_appointments st st' :
  appointments st' = appointments st -> rendered st -> rendered st'.
Proof. unfold rendered. intros ->. auto. Qed.

Lemma profiles_ok_grow st st' :
  (forall u, In u (users st) -> In u (users st')) ->
  (forall p, In p (patients st') ->
     In p (patients st) \/ exists u, In u (users st') /\ User.id u = Patient.user_id p) ->
  (forall d, In d (doctors st') ->
     In d (doctors st) \/ exists u, In u (users st') /\ User.id u = Doctor.user_id d) ->
  profiles_ok st -> profiles_ok st'.
Proof.
  intros Hu Hp Hd [Op Od]. split.
  - intros p Hin. destruct (Hp p Hin) as [H|H]; [|exact H].
    destruct (Op p H) as (u & U1 & U2). exists u. auto.
  - intros d Hin. destruct (Hd d Hin) as [H|H]; [|exact H].
    destruct (Od d H) as (u & U1 & U2). exists u. auto.
Qed.

Lemma rendered_completed st appt diagnosis prescription now :
  rendered st -> rendered (completed st appt diagnosis prescription now).
Proof.
  intros Hst r Hin. unfold completed in Hin. cbn [appointments] in Hin.
  apply in_map_iff in Hin. destruct Hin as (r0 & <- & Hin0).
  destruct (Hst r0 Hin0) as (c & d & Dc & Dd). exists c, d.
  destruct (Appointment.id r0 =? Appointment.id appt); auto.
Qed.

(** The rows of every reachable store hold renderings, and its profiles
    refer to identities. *)
Lemma reachable_invariant st : reachable st -> store_invariant st.
Proof.
  induction 1 as [|env st _ [IR IP]|env st ? ? ? ? ? _ [IR IP]
                  |env st req _ IH|env st req _ [IR IP]|env st req _ [IR IP]
                  |env st req doctor_id _ [IR IP]
                  |env st req appointment_id _ [IR IP]].
  - split; [intros r []|split; intros x []].
  - apply setup_database_store; [split; assumption|].
    intros st' (Hu & Hd & Hp & Ha & Ht). split.
    + apply (rendered_same_appointments st); assumption.
    + apply (profiles_ok_grow st); try assumption;
        [rewrite Hu|rewrite Hp|rewrite Hd]; auto.
  - apply create_admin_user_store; [split; assumption|].
    intros u. split; [exact IR|].
    apply (profiles_ok_grow st); cbn [users patients doctors]; auto.
    intros x Hx. apply in_or_app. auto.
  - rewrite login_store. exact IH.
  - apply register_store; [split; assumption|].
    intros username email pwhash full_name. split; [exact IR|].
    apply (profiles_ok_grow st); unfold registered;
      cbn [users patients doctors]; auto.
    + intros x Hx. apply in_or_app. auto.
    + intros p Hin. apply in_app_or in Hin. destruct Hin as [Hin|[<-|[]]]; [auto|].
      right. eexists. split; [apply in_or_app; right; left; reflexivity|].
      reflexivity.
  - apply add_doctor_store; [split; assumption|].
    intros u depts d Hd. split; [exact IR|].
    apply (profiles_ok_grow st); cbn [users patients doctors]; auto.
    + intros x Hx. apply in_or_app. auto.
    + intros x Hin. apply in_app_or in Hin. destruct Hin as [Hin|[<-|[]]]; [auto|].
      right. exists u. split; [apply in_or_app; right; left; reflexivity|].
      symmetry. exact Hd.
  - apply book_appointment_store; [split; assumption|].
    intros patient doctor a b Va Vb. split.
    + apply rendered_booked; assumption.
    + exact IP.
  - apply complete_appointment_store; [split; assumption|].
    intros appt diagnosis prescription Hin. split.
    + apply rendered_completed. exact IR.
    + exact IP.
Qed.



(** Without a session every route behind [@login_required] sends to the
    login view. *)
Lemma anonymous_sent_to_login env st req appointment_id doctor_id :
  cookie req = None ->
  run (complete_appointment appointment_id req) env st = (login_needed, st) /\
  run (book_appointment doctor_id req) env st = (login_needed, st) /\
  run (add_doctor req) env st = (login_needed, st).
Proof.
  intros H. unfold run, complete_appointment, book_appointment, add_doctor,
    login_required. rewrite H. repeat split; reflexivity.
Qed.

End HandlerProperties.

(* ===================================================================== *)
(** ** The data model on every reachable store *)

Section StoreProperties.

Context {E : Externals}.

Ltac exec_write :=
  match goal with
  | |- context [insert_user ?r ?e ?s] => rewrite (insert_user_eq r e s)
  | |- context [insert_patient ?r ?e ?s] => rewrite (insert_patient_eq r e s)
  | |- context [insert_doctor ?r ?e ?s] => rewrite (insert_doctor_eq r e s)
  | |- context [insert_department ?r ?e ?s] =>
      rewrite (insert_department_eq r e s)
  | |- context [commit ?e ?s] => rewrite (commit_eq e s)
  end;
  cbv beta iota zeta; cbn [txn committed executed fst snd].

(** As [exec_case], keeping what each test came to. *)
Ltac exec_test :=
  match goal with
  | |- context [if faulty ?e ?n then _ else _] => destruct (faulty e n)
  | |- context [if existsb ?f ?l then _ else _] =>
      let X := fresh "X" in destruct (existsb f l) eqn:X
  | |- context [match find ?f ?l with _ => _ end] =>
      let F := fresh "F" in destruct (find f l) eqn:F
  end;
  cbv beta iota zeta; cbn [txn committed executed fst snd].

(** *** What each operation appends, and under which tests *)

Lemma register_effect (P : Store -> Prop) env st req :
  P st ->
  (forall username email pwhash full_name,
     existsb (fun x => String.eqb (User.username x) username) (users st) = false ->
     existsb (fun x => String.eqb (User.email x) email) (users st) = false ->
     existsb (fun x => Patient.user_id x =? next_id (map User.id (users st)))
             (patients st) = false ->
     P (registered st username email pwhash full_name)) ->
  P (snd (run (register req) env st)).
Proof.
  intros P0 P1. unfold run. rewrite register_unfold.
  destruct (validate_on_submit req RegisterForm); [|exact P0].
  cbn [txn]. destruct (find _ (users st)); [exact P0|].
  unfold register_transaction, try_except, rollback, bind, ret, ask.
  cbv beta iota zeta; cbn [txn committed executed fst snd].
  repeat first [exact P0 | exec_write | exec_test
               | cbn [users patients User.username User.email User.id
                      Patient.user_id] ].
  apply P1; assumption.
Qed.


Lemma create_admin_user_effect (P : Store -> Prop) env st
    username email full_name password another :
  P st ->
  (forall pwhash,
     existsb (fun x => String.eqb (User.username x) username) (users st) = false ->
     existsb (fun x => String.eqb (User.email x) email) (users st) = false ->
     P (mkStore
          (users st ++ [User.mk (next_id (map User.id (users st))) username email
                          pwhash (Some full_name) "admin"])
          (departments st) (doctors st) (patients st) (appointments st)
          (treatments st))) ->
  P (run_utility (create_admin_user username email full_name password another)
       env st).
Proof.
  intros P0 P1. unfold run_utility, create_admin_user.
  unfold bind at 1, query at 1. cbn [txn].
  assert (Go : P (committed (snd
    ((conflict <- query (fun st0 => find (username_or_email username email) (users st0)) ;;
      match conflict with
      | Some _ => ret tt
      | None =>
          try_except
            (env0 <- ask ;;
             insert_user (fun i =>
               User.mk i username email
                 (generate_password_hash (salt env0) password)
                 (Some full_name) "admin") ;;;
             commit)
            (fun _ => rollback)
      end) env (mkSession st st O))))).
  { unfold try_except, rollback, bind, query, ret, ask.
    cbv beta iota zeta; cbn [txn committed executed fst snd].
    repeat first [exact P0 | exec_write | exec_test
                 | cbn [users User.username User.email] ].
    apply P1; assumption. }
  destruct (find _ (users st)); [destruct another|]; try exact Go. exact P0.
Qed.

Lemma add_doctor_effect (P : Store -> Prop) env st req :
  P st ->
  (forall username email pwhash full_name depts dept specialization,
     existsb (fun x => String.eqb (User.username x) username) (users st) = false ->
     existsb (fun x => String.eqb (User.email x) email) (users st) = false ->
     existsb (fun x => Doctor.user_id x =? next_id (map User.id (users st)))
             (doctors st) = false ->
     (depts = [] /\ (dept = None \/
                     exists d, In d (departments st) /\ dept = Some (Department.id d))
      \/ exists n,
           existsb (fun x => String.eqb (Department.name x) n) (departments st) = false /\
           depts = [Department.mk (next_id (map Department.id (departments st))) n] /\
           dept = Some (next_id (map Department.id (departments st)))) ->
     P (mkStore
          (users st ++ [User.mk (next_id (map User.id (users st))) username email
                          pwhash (Some full_name) "doctor"])
          (departments st ++ depts)
          (doctors st ++ [Doctor.mk (next_id (map Doctor.id (doctors st)))
                            (next_id (map User.id (users st))) dept specialization
                            None (Some true) (Some true)])
          (patients st) (appointments st) (treatments st))) ->
  P (snd (run (add_doctor req) env st)).
Proof.
  intros P0 P1. unfold run, add_doctor, login_required.
  destruct (cookie req) as [uid|]; [|exact P0].
  unfold bind at 1, query at 1. cbn [txn].
  destruct (load_user uid st) as [cu|]; [|exact P0].
  destruct (negb _); [exact P0|].
  destruct (validate_on_submit req AddDoctorForm); [|exact P0].
  unfold bind at 1, query at 1. cbn [txn].
  destruct (find _ (users st)); [exact P0|].
  assert (P1' : forall username email pwhash full_name dept specialization,
     existsb (fun x => String.eqb (User.username x) username) (users st) = false ->
     existsb (fun x => String.eqb (User.email x) email) (users st) = false ->
     existsb (fun x => Doctor.user_id x =? next_id (map User.id (users st)))
             (doctors st) = false ->
     (dept = None \/
      exists d, In d (departments st) /\ dept = Some (Department.id d)) ->
     P (mkStore
          (users st ++ [User.mk (next_id (map User.id (users st))) username email
                          pwhash (Some full_name) "doctor"])
          (departments st)
          (doctors st ++ [Doctor.mk (next_id (map Doctor.id (doctors st)))
                            (next_id (map User.id (users st))) dept specialization
                            None (Some true) (Some true)])
          (patients st) (appointments st) (treatments st))).
  { intros. rewrite <- (app_nil_r (departments st)). apply P1; auto. }
  unfold try_except, rollback, get_or_create_department.
  destruct (strip_or_none (form_get "department" (form req))) as [n|];
    [destruct (Str.truthy n)|];
    unfold bind, query, ret, ask;
    cbv beta iota zeta; cbn [txn committed executed fst snd];
    repeat first [exact P0 | exec_write | exec_test
                 | cbn [departments doctors users User.username User.email
                        User.id Doctor.user_id Department.name Department.id] ].
  - apply P1'; try assumption. right.
    apply find_some in F. destruct F as [Hin _]. eauto.
  - apply P1; try assumption. right. exists n. auto.
  - apply P1'; try assumption. left. reflexivity.
  - apply P1'; try assumption. left. reflexivity.
Qed.


Lemma NoDup_snoc {A} (l : list A) x : NoDup l -> ~ In x l -> NoDup (l ++ [x]).
Proof.
  induction l as [|y l IH]; intros N H; cbn.
  - constructor; [intros []|constructor].
  - inversion N as [|? ? Hy Nl]; subst. constructor.
    + intros Hin. apply in_app_or in Hin. destruct Hin as [Hin|[->|[]]].
      * exact (Hy Hin).
      * apply H. left. reflexivity.
    + apply IH; [exact Nl|]. intros Hin. apply H. right. exact Hin.
Qed.

Lemma next_id_not_in l : ~ In (next_id l) l.
Proof. intros H. apply next_id_fresh in H. lia. Qed.

Lemma existsb_eqb_not_in {A} (key : A -> string) (l : list A) k :
  existsb (fun x => String.eqb (key x) k) l = false -> ~ In k (map key l).
Proof.
  intros X Hin. apply in_map_iff in Hin. destruct Hin as (x & Hk & Hx).
  assert (existsb (fun x => String.eqb (key x) k) l = true).
  { apply existsb_exists. exists x. split; [exact Hx|]. rewrite Hk.
    apply String.eqb_refl. }
  congruence.
Qed.

Lemma existsb_Zeqb_not_in {A} (key : A -> Z) (l : list A) k :
  existsb (fun x => key x =? k) l = false -> ~ In k (map key l).
Proof.
  intros X Hin. apply in_map_iff in Hin. destruct Hin as (x & Hk & Hx).
  assert (existsb (fun x => key x =? k) l = true).
  { apply existsb_exists. exists x. split; [exact Hx|]. rewrite Hk.
    apply Z.eqb_refl. }
  congruence.
Qed.

Lemma find_none_not_in {A} (key : A -> string) (l : list A) k :
  find (fun x => String.eqb (key x) k) l = None -> ~ In k (map key l).
Proof.
  intros F. apply existsb_eqb_not_in. apply find_none_iff. exact F.
Qed.

(** The seeding loop keeps every row, adds departments at the end of the
    table, and keeps keys and names distinct. *)
Lemma add_default_departments_effect names : forall added env s,
  match add_default_departments names added env s with
  | (_, s') =>
      committed s' = committed s /\
      exists ds,
        txn s' = mkStore (users (txn s)) (departments (txn s) ++ ds)
                   (doctors (txn s)) (patients (txn s)) (appointments (txn s))
                   (treatments (txn s)) /\
        (NoDup (map Department.id (departments (txn s))) ->
         NoDup (map Department.id (departments (txn s) ++ ds))) /\
        (NoDup (map Department.name (departments (txn s))) ->
         NoDup (map Department.name (departments (txn s) ++ ds)))
  end.
Proof.
  induction names as [|name names IH]; intros added env s.
  - cbn. split; [reflexivity|]. exists []. rewrite app_nil_r.
    destruct s as [c [u d dr p a t] n]. cbn. auto.
  - cbn [add_default_departments]. unfold bind at 1, query at 1.
    destruct (find _ (departments (txn s))) eqn:F; [apply IH|].
    unfold bind at 1. rewrite insert_department_eq. cbv zeta.
    assert (Same : committed s = committed s /\
      exists ds,
        txn s = mkStore (users (txn s)) (departments (txn s) ++ ds)
                   (doctors (txn s)) (patients (txn s)) (appointments (txn s))
                   (treatments (txn s)) /\
        (NoDup (map Department.id (departments (txn s))) ->
         NoDup (map Department.id (departments (txn s) ++ ds))) /\
        (NoDup (map Department.name (departments (txn s))) ->
         NoDup (map Department.name (departments (txn s) ++ ds)))).
    { split; [reflexivity|]. exists []. rewrite app_nil_r.
      destruct s as [c [u d dr p a t] n]. cbn. auto. }
    destruct (faulty env (executed s)); [exact Same|].
    destruct (existsb _ (departments (txn s))); [exact Same|].
    specialize (IH (S added) env
      (mkSession (committed s)
         (mkStore (users (txn s))
            (departments (txn s)
             ++ [Department.mk (next_id (map Department.id (departments (txn s)))) name])
            (doctors (txn s)) (patients (txn s)) (appointments (txn s))
            (treatments (txn s)))
         (S (executed s)))).
    cbn [Department.id] in *.
    destruct (add_default_departments names (S added) env _) as [r s'].
    cbn [committed txn users departments doctors patients appointments
         treatments] in IH.
    destruct IH as (Hc & ds & Ht & Hid & Hname).
    split; [exact Hc|].
    exists (Department.mk (next_id (map Department.id (departments (txn s)))) name
            :: ds).
    rewrite <- app_assoc in Ht, Hid, Hname. cbn [app] in Ht, Hid, Hname.
    split; [exact Ht|]. split.
    + intros N. apply Hid.
      change (Department.mk (next_id (map Department.id (departments (txn s)))) name :: ds)
        with ([Department.mk (next_id (map Department.id (departments (txn s)))) name] ++ ds)
        in Hid |- *.
      rewrite map_app. cbn [map Department.id]. apply NoDup_snoc; [exact N|].
      apply next_id_not_in.
    + intros N. apply Hname.
      rewrite map_app. cbn [map Department.name]. apply NoDup_snoc; [exact N|].
      apply find_none_not_in with (key := Department.name). exact F.
Qed.


Lemma setup_database_effect (P : Store -> Prop) env st :
  P st ->
  (forall ds,
     (NoDup (map Department.id (departments st)) ->
      NoDup (map Department.id (departments st ++ ds))) ->
     (NoDup (map Department.name (departments st)) ->
      NoDup (map Department.name (departments st ++ ds))) ->
     P (mkStore (users st) (departments st ++ ds) (doctors st) (patients st)
          (appointments st) (treatments st))) ->
  P (run_utility setup_database env st).
Proof.
  intros P0 P1. unfold run_utility, setup_database, try_except.
  unfold bind at 1.
  pose proof (add_default_departments_effect default_depts O env
                (mkSession st st O)) as K.
  destruct (add_default_departments default_depts O env (mkSession st st O))
    as [[added|e] s']; cbn [snd committed txn] in *;
    destruct K as (Hc & ds & Ht & Hid & Hname).
  - destruct added as [|k].
    + cbn. rewrite Hc. exact P0.
    + rewrite commit_eq. destruct (faulty env (executed s'));
        cbn [snd committed]; [rewrite Hc; exact P0|].
      rewrite Ht. apply P1; assumption.
  - cbn. rewrite Hc. exact P0.
Qed.

Lemma book_appointment_effect (P : Store -> Prop) env st req doctor_id :
  P st ->
  (forall current_user patient doctor a b,
     In current_user (users st) ->
     User.role current_user = "patient" ->
     patient_profile current_user st = Some patient ->
     find (fun d => Doctor.id d =? doctor_id) (doctors st) = Some doctor ->
     Datetime.valid a = true -> Datetime.valid b = true ->
     Datetime.le b a = Ret false ->
     find (conflicts (Doctor.id doctor) (Datetime.strftime a STORE_FMT)
             (Datetime.strftime b STORE_FMT)) (appointments st) = None ->
     P (booked st patient doctor (Datetime.strftime a STORE_FMT)
          (Datetime.strftime b STORE_FMT) (form_get "reason" (form req)))) ->
  P (snd (run (book_appointment doctor_id req) env st)).
Proof.
  intros P0 Pb.
  unfold run, book_appointment, login_required.
  destruct (cookie req) as [uid|]; [|exact P0].
  unfold bind at 1, query at 1. cbn [txn].
  destruct (load_user uid st) as [cu|] eqn:Hl; [|exact P0].
  destruct (String.eqb (User.role cu) "patient") eqn:Hr; cbn [negb]; [|exact P0].
  unfold bind at 1, query at 1. cbn [txn].
  unfold bind at 1, query at 1. cbn [txn].
  destruct (find _ (doctors st)) as [doctor|] eqn:Hd; [|exact P0].
  destruct (validate_on_submit _ _); [|exact P0].
  destruct (parse_datetime_total (field req "start_datetime")) as [ra Pa].
  destruct (parse_datetime_total (field req "end_datetime")) as [rb Pb'].
  unfold bind at 1. rewrite Pa. cbn [lift].
  unfold bind at 1. rewrite Pb'. cbn [lift].
  destruct ra as [a|]; [|exact P0].
  destruct rb as [b|]; [|exact P0].
  unfold bind at 1.
  destruct (Datetime.le b a) as [[|]|e] eqn:Hle; cbn [lift]; try exact P0.
  unfold bind at 1, query at 1. cbn [txn].
  destruct (find _ (appointments st)) eqn:Hc; [exact P0|].
  destruct (patient_profile cu st) as [p|] eqn:Hp; [|exact P0].
  unfold insert_appointment, commit, bind, statement, query, set_txn, ret.
  cbn [txn committed executed].
  destruct (faulty env 0); cbn [fst snd committed executed]; [exact P0|].
  destruct (faulty env 1); cbn [fst snd committed executed]; [exact P0|].
  apply (Pb cu p doctor a b); try assumption; try reflexivity.
  - unfold load_user in Hl. apply find_some in Hl. apply Hl.
  - apply String.eqb_eq. exact Hr.
  - eapply parse_datetime_valid; eauto.
  - eapply parse_datetime_valid; eauto.
Qed.


(** *** The operations keep the store consistent *)

Lemma no_double_booking_nil st :
  appointments st = [] -> no_double_booking st.
Proof.
  intros H i j r' r _ Hi. rewrite H in Hi. destruct i; discriminate.
Qed.

Lemma consistent_empty : consistent empty_store.
Proof.
  constructor; cbn [empty_store users departments doctors patients appointments
                    treatments map];
    try (apply NoDup_nil); try (intros ? []; fail); try (intros ? ? []; fail).
  apply no_double_booking_nil. reflexivity.
Qed.

Lemma consistent_departments st ds :
  consistent st ->
  NoDup (map Department.id (departments st ++ ds)) ->
  NoDup (map Department.name (departments st ++ ds)) ->
  consistent (mkStore (users st) (departments st ++ ds) (doctors st)
                (patients st) (appointments st) (treatments st)).
Proof.
  intros C Nid Nname. destruct C.
  constructor; cbn [users departments doctors patients appointments treatments];
    try assumption.
  intros d k Hd Hk. destruct (doctor_department0 d k Hd Hk) as (dept & Hin & Hid).
  exists dept. split; [apply in_or_app; left; exact Hin|exact Hid].
Qed.

Lemma in_snoc {A} (x y : A) l : In x (l ++ [y]) -> In x l \/ x = y.
Proof.
  intros H. apply in_app_or in H. destruct H as [H|[H|[]]]; auto.
Qed.

Lemma consistent_admin st username email pwhash full_name :
  consistent st ->
  existsb (fun x => String.eqb (User.username x) username) (users st) = false ->
  existsb (fun x => String.eqb (User.email x) email) (users st) = false ->
  consistent
    (mkStore
       (users st ++ [User.mk (next_id (map User.id (users st))) username email
                       pwhash (Some full_name) "admin"])
       (departments st) (doctors st) (patients st) (appointments st)
       (treatments st)).
Proof.
  intros C Xu Xe. destruct C.
  constructor; cbn [users departments doctors patients appointments treatments];
    try assumption.
  - rewrite map_app. apply NoDup_snoc; [assumption|apply next_id_not_in].
  - rewrite map_app. apply NoDup_snoc; [assumption|].
    apply existsb_eqb_not_in with (key := User.username). exact Xu.
  - rewrite map_app. apply NoDup_snoc; [assumption|].
    apply existsb_eqb_not_in with (key := User.email). exact Xe.
  - intros u Hu. apply in_snoc in Hu. destruct Hu as [Hu| ->]; [auto|].
    left. reflexivity.
  - intros p Hp. destruct (patient_has_identity0 p Hp) as (u & Hu & H1 & H2).
    exists u. split; [apply in_or_app; left; exact Hu|auto].
  - intros d Hd. destruct (doctor_has_identity0 d Hd) as (u & Hu & H1 & H2).
    exists u. split; [apply in_or_app; left; exact Hu|auto].
  - intros u Hu Hr. apply in_snoc in Hu. destruct Hu as [Hu| ->]; [auto|].
    discriminate Hr.
  - intros u Hu Hr. apply in_snoc in Hu. destruct Hu as [Hu| ->]; [auto|].
    discriminate Hr.
Qed.


Lemma consistent_registered st username email pwhash full_name :
  consistent st ->
  existsb (fun x => String.eqb (User.username x) username) (users st) = false ->
  existsb (fun x => String.eqb (User.email x) email) (users st) = false ->
  existsb (fun x => Patient.user_id x =? next_id (map User.id (users st)))
          (patients st) = false ->
  consistent (registered st username email pwhash full_name).
Proof.
  intros C Xu Xe Xp. destruct C. unfold registered.
  constructor; cbn [users departments doctors patients appointments treatments];
    try assumption.
  - rewrite map_app. apply NoDup_snoc; [assumption|apply next_id_not_in].
  - rewrite map_app. apply NoDup_snoc; [assumption|].
    apply existsb_eqb_not_in with (key := User.username). exact Xu.
  - rewrite map_app. apply NoDup_snoc; [assumption|].
    apply existsb_eqb_not_in with (key := User.email). exact Xe.
  - intros u Hu. apply in_snoc in Hu. destruct Hu as [Hu| ->]; [auto|].
    right. right. reflexivity.
  - rewrite map_app. apply NoDup_snoc; [assumption|apply next_id_not_in].
  - rewrite map_app. apply NoDup_snoc; [assumption|].
    apply existsb_Zeqb_not_in with (key := Patient.user_id). exact Xp.
  - intros p Hp. apply in_snoc in Hp. destruct Hp as [Hp| ->].
    + destruct (patient_has_identity0 p Hp) as (u & Hu & H1 & H2).
      exists u. split; [apply in_or_app; left; exact Hu|auto].
    + eexists. split; [apply in_or_app; right; left; reflexivity|].
      split; reflexivity.
  - intros d Hd. destruct (doctor_has_identity0 d Hd) as (u & Hu & H1 & H2).
    exists u. split; [apply in_or_app; left; exact Hu|auto].
  - intros u Hu Hr. apply in_snoc in Hu. destruct Hu as [Hu| ->].
    + destruct (patient_role_has_profile0 u Hu Hr) as (p & Hp & H1).
      exists p. split; [apply in_or_app; left; exact Hp|exact H1].
    + eexists. split; [apply in_or_app; right; left; reflexivity|reflexivity].
  - intros u Hu Hr. apply in_snoc in Hu. destruct Hu as [Hu| ->]; [auto|].
    discriminate Hr.
  - intros a Ha. destruct (appointment_parties0 a Ha) as [(p & Hp & H1) H2].
    split; [|exact H2]. exists p. split; [apply in_or_app; left; exact Hp|exact H1].
Qed.

Lemma consistent_doctor_added st username email pwhash full_name depts dept
    specialization :
  consistent st ->
  existsb (fun x => String.eqb (User.username x) username) (users st) = false ->
  existsb (fun x => String.eqb (User.email x) email) (users st) = false ->
  existsb (fun x => Doctor.user_id x =? next_id (map User.id (users st)))
          (doctors st) = false ->
  (depts = [] /\ (dept = None \/
                  exists d, In d (departments st) /\ dept = Some (Department.id d))
   \/ exists n,
        existsb (fun x => String.eqb (Department.name x) n) (departments st) = false /\
        depts = [Department.mk (next_id (map Department.id (departments st))) n] /\
        dept = Some (next_id (map Department.id (departments st)))) ->
  consistent
    (mkStore
       (users st ++ [User.mk (next_id (map User.id (users st))) username email
                       pwhash (Some full_name) "doctor"])
       (departments st ++ depts)
       (doctors st ++ [Doctor.mk (next_id (map Doctor.id (doctors st)))
                         (next_id (map User.id (users st))) dept specialization
                         None (Some true) (Some true)])
       (patients st) (appointments st) (treatments st)).
Proof.
  intros C Xu Xe Xd Hdept. destruct C.
  constructor; cbn [users departments doctors patients appointments treatments];
    try assumption.
  - rewrite map_app. apply NoDup_snoc; [assumption|apply next_id_not_in].
  - rewrite map_app. apply NoDup_snoc; [assumption|].
    apply existsb_eqb_not_in with (key := User.username). exact Xu.
  - rewrite map_app. apply NoDup_snoc; [assumption|].
    apply existsb_eqb_not_in with (key := User.email). exact Xe.
  - intros u Hu. apply in_snoc in Hu. destruct Hu as [Hu| ->]; [auto|].
    right. left. reflexivity.
  - destruct Hdept as [[-> _]|(n & Xn & -> & _)].
    + rewrite app_nil_r. assumption.
    + rewrite map_app. apply NoDup_snoc; [assumption|apply next_id_not_in].
  - destruct Hdept as [[-> _]|(n & Xn & -> & _)].
    + rewrite app_nil_r. assumption.
    + rewrite map_app. apply NoDup_snoc; [assumption|].
      apply existsb_eqb_not_in with (key := Department.name). exact Xn.
  - rewrite map_app. apply NoDup_snoc; [assumption|apply next_id_not_in].
  - rewrite map_app. apply NoDup_snoc; [assumption|].
    apply existsb_Zeqb_not_in with (key := Doctor.user_id). exact Xd.
  - intros p Hp. destruct (patient_has_identity0 p Hp) as (u & Hu & H1 & H2).
    exists u. split; [apply in_or_app; left; exact Hu|auto].
  - intros d Hd. apply in_snoc in Hd. destruct Hd as [Hd| ->].
    + destruct (doctor_has_identity0 d Hd) as (u & Hu & H1 & H2).
      exists u. split; [apply in_or_app; left; exact Hu|auto].
    + eexists. split; [apply in_or_app; right; left; reflexivity|].
      split; reflexivity.
  - intros u Hu Hr. apply in_snoc in Hu. destruct Hu as [Hu| ->]; [auto|].
    discriminate Hr.
  - intros u Hu Hr. apply in_snoc in Hu. destruct Hu as [Hu| ->].
    + destruct (doctor_role_has_profile0 u Hu Hr) as (d & Hd & H1).
      exists d. split; [apply in_or_app; left; exact Hd|exact H1].
    + eexists. split; [apply in_or_app; right; left; reflexivity|reflexivity].
  - intros d Hd. apply in_snoc in Hd. destruct Hd as [Hd| ->]; [auto|].
    split; reflexivity.
  - intros d k Hd Hk. apply in_snoc in Hd. destruct Hd as [Hd| ->].
    + destruct (doctor_department0 d k Hd Hk) as (x & Hx & H1).
      exists x. split; [apply in_or_app; left; exact Hx|exact H1].
    + cbn [Doctor.department_id] in Hk.
      destruct Hdept as [[-> [->|(x & Hx & ->)]]|(n & Xn & -> & ->)].
      * discriminate Hk.
      * inversion Hk; subst. exists x. rewrite app_nil_r. auto.
      * inversion Hk; subst. eexists.
        split; [apply in_or_app; right; left; reflexivity|reflexivity].
  - intros a Ha. destruct (appointment_parties0 a Ha) as [H1 (d & Hd & H2)].
    split; [exact H1|]. exists d. split; [apply in_or_app; left; exact Hd|exact H2].
Qed.


Lemma consistent_booked st patient doctor start_str end_str reason :
  consistent st ->
  In patient (patients st) -> In doctor (doctors st) ->
  find (conflicts (Doctor.id doctor) start_str end_str) (appointments st) = None ->
  consistent (booked st patient doctor start_str end_str reason).
Proof.
  intros C Hp Hd Hfree. destruct C. unfold booked.
  constructor; cbn [users departments doctors patients appointments treatments];
    try assumption.
  - rewrite map_app. apply NoDup_snoc; [assumption|apply next_id_not_in].
  - intros a Ha. apply in_snoc in Ha. destruct Ha as [Ha| ->]; [auto|].
    cbn [Appointment.patient_id Appointment.doctor_id]. split; eauto.
  - intros a Ha. apply in_snoc in Ha. destruct Ha as [Ha| ->]; [auto|].
    left. reflexivity.
  - intros t Ht. destruct (treatment_of_completed0 t Ht) as (a & Ha & H1 & H2).
    exists a. split; [apply in_or_app; left; exact Ha|auto].
  - intros a Ha Hs. apply in_snoc in Ha. destruct Ha as [Ha| ->]; [auto|].
    discriminate Hs.
  - intros i j r' r Hij Hi Hj Hs. cbn [appointments] in Hi, Hj.
    destruct (Nat.lt_ge_cases j (List.length (appointments st))) as [Hlt|Hge].
    + rewrite nth_error_app1 in Hj by exact Hlt.
      rewrite nth_error_app1 in Hi by lia.
      exact (booked_apart0 i j r' r Hij Hi Hj Hs).
    + rewrite nth_error_app2 in Hj by exact Hge.
      destruct (j - List.length (appointments st))%nat as [|k] eqn:Hk;
        [|destruct k; discriminate Hj].
      cbn in Hj. inversion Hj; subst r.
      cbn [Appointment.doctor_id Appointment.start_datetime
           Appointment.end_datetime].
      rewrite nth_error_app1 in Hi by lia.
      apply nth_error_In in Hi.
      exact (find_none _ _ Hfree r' Hi).
Qed.

Lemma consistent_completed st appt diagnosis prescription now :
  consistent st ->
  In appt (appointments st) ->
  consistent (completed st appt diagnosis prescription now).
Proof.
  intros C Happt. destruct C. unfold completed.
  set (f := fun a => if Appointment.id a =? Appointment.id appt
                     then Appointment.set_status a "Completed" else a).
  assert (Fid : forall a, Appointment.id (f a) = Appointment.id a)
    by (intros a; unfold f; destruct (_ =? _); reflexivity).
  assert (Fpat : forall a, Appointment.patient_id (f a) = Appointment.patient_id a)
    by (intros a; unfold f; destruct (_ =? _); reflexivity).
  assert (Fdoc : forall a, Appointment.doctor_id (f a) = Appointment.doctor_id a)
    by (intros a; unfold f; destruct (_ =? _); reflexivity).
  assert (Fdone : forall a, Appointment.status a = "Completed" ->
                            Appointment.status (f a) = "Completed")
    by (intros a H; unfold f; destruct (_ =? _); [reflexivity|exact H]).
  constructor; cbn [users departments doctors patients appointments treatments];
    try assumption.
  - rewrite map_map. rewrite (map_ext _ Appointment.id Fid). assumption.
  - rewrite map_app. apply NoDup_snoc; [assumption|apply next_id_not_in].
  - intros a' Ha. apply in_map_iff in Ha. destruct Ha as (a & <- & Ha).
    rewrite Fpat, Fdoc. auto.
  - intros a' Ha. apply in_map_iff in Ha. destruct Ha as (a & <- & Ha).
    unfold f. destruct (_ =? _); [right; reflexivity|auto].
  - intros t Ht. apply in_snoc in Ht. destruct Ht as [Ht| ->].
    + destruct (treatment_of_completed0 t Ht) as (a & Ha & H1 & H2).
      exists (f a). split; [apply in_map; exact Ha|].
      rewrite Fid. auto.
    + exists (f appt). split; [apply in_map; exact Happt|].
      rewrite Fid. split; [reflexivity|].
      unfold f. rewrite Z.eqb_refl. reflexivity.
  - intros a' Ha Hs. apply in_map_iff in Ha. destruct Ha as (a & <- & Ha).
    rewrite Fid. unfold f in Hs.
    destruct (Appointment.id a =? Appointment.id appt) eqn:Hid.
    + apply Z.eqb_eq in Hid. eexists.
      split; [apply in_or_app; right; left; reflexivity|].
      cbn [Treatment.appointment_id]. symmetry. exact Hid.
    + destruct (completed_has_treatment0 a Ha Hs) as (t & Ht & H1).
      exists t. split; [apply in_or_app; left; exact Ht|exact H1].
  - intros i j r' r Hij Hi Hj Hs. cbn [appointments] in Hi, Hj.
    rewrite nth_error_map in Hi, Hj.
    destruct (nth_error (appointments st) i) as [r0'|] eqn:Ei; [|discriminate].
    destruct (nth_error (appointments st) j) as [r0|] eqn:Ej; [|discriminate].
    cbn in Hi, Hj. inversion Hi; inversion Hj; subst r' r.
    unfold f in Hs |- *.
    destruct (Appointment.id r0 =? Appointment.id appt); [discriminate Hs|].
    destruct (Appointment.id r0' =? Appointment.id appt).
    + unfold conflicts. cbn [Appointment.status Appointment.set_status
                             Appointment.doctor_id].
      destruct (_ =? _); reflexivity.
    + exact (booked_apart0 i j r0' r0 Hij Ei Ej Hs).
Qed.


(** Every store the application can reach is consistent. *)
Lemma reachable_consistent st : reachable st -> consistent st.
Proof.
  induction 1 as [|env st _ IH|env st ? ? ? ? ? _ IH
                  |env st req _ IH|env st req _ IH|env st req _ IH
                  |env st req doctor_id _ IH
                  |env st req appointment_id _ IH].
  - exact consistent_empty.
  - apply setup_database_effect; [exact IH|].
    intros ds Hid Hname. apply consistent_departments; [exact IH| |].
    + apply Hid. apply IH.
    + apply Hname. apply IH.
  - apply create_admin_user_effect; [exact IH|].
    intros pwhash Xu Xe. apply consistent_admin; assumption.
  - rewrite login_store. exact IH.
  - apply register_effect; [exact IH|].
    intros. apply consistent_registered; assumption.
  - apply add_doctor_effect; [exact IH|].
    intros. apply consistent_doctor_added; assumption.
  - apply book_appointment_effect; [exact IH|].
    intros cu patient doctor a b Hcu Hr Hp Hd Va Vb Hle Hfree.
    apply consistent_booked; [exact IH| | |exact Hfree].
    + unfold patient_profile in Hp. apply find_some in Hp. apply Hp.
    + apply find_some in Hd. apply Hd.
  - apply complete_appointment_store; [exact IH|].
    intros appt diagnosis prescription Hin.
    apply consistent_completed; assumption.
Qed.


(** *** What consistency gives *)

Lemma NoDup_map_injective {A B} (f : A -> B) l x y :
  NoDup (map f l) -> In x l -> In y l -> f x = f y -> x = y.
Proof.
  induction l as [|z l IH]; cbn; intros N Hx Hy Hf; [contradiction|].
  inversion N as [|? ? Hz Nl]; subst.
  destruct Hx as [->|Hx], Hy as [->|Hy].
  - reflexivity.
  - exfalso. apply Hz. rewrite Hf. apply in_map. exact Hy.
  - exfalso. apply Hz. rewrite <- Hf. apply in_map. exact Hx.
  - auto.
Qed.


(** X2. On every reachable store an identity is determined by its key, by
    its handle and by its e-mail address: two identities that agree on
    one of the three are the same row. *)
Theorem reachable_identities_unique :
  forall st u1 u2,
    reachable st ->
    In u1 (users st) -> In u2 (users st) ->
    User.id u1 = User.id u2 \/ User.username u1 = User.username u2 \/
    User.email u1 = User.email u2 ->
    u1 = u2.
Proof.
  intros st u1 u2 R H1 H2 H.
  pose proof (reachable_consistent st R) as C.
  destruct H as [H|[H|H]].
  - exact (NoDup_map_injective User.id _ _ _ (user_ids_nodup st C) H1 H2 H).
  - exact (NoDup_map_injective User.username _ _ _ (usernames_nodup st C) H1 H2 H).
  - exact (NoDup_map_injective User.email _ _ _ (emails_nodup st C) H1 H2 H).
Qed.


Lemma find_by_key {A} (key : A -> Z) (l : list A) x :
  NoDup (map key l) -> In x l ->
  find (fun y => key y =? key x) l = Some x.
Proof.
  induction l as [|z l IH]; cbn; intros N Hx; [contradiction|].
  inversion N as [|? ? Hz Nl]; subst.
  destruct Hx as [->|Hx].
  - rewrite Z.eqb_refl. reflexivity.
  - destruct (key z =? key x) eqn:K.
    + exfalso. apply Hz. apply Z.eqb_eq in K. rewrite K. apply in_map. exact Hx.
    + auto.
Qed.

Lemma find_key_in {A} (key : A -> Z) (l : list A) k x :
  find (fun y => key y =? k) l = Some x -> In x l /\ key x = k.
Proof.
  intros F. apply find_some in F. destruct F as [I K].
  apply Z.eqb_eq in K. auto.
Qed.

Lemma filter_nil_iff {A} (f : A -> bool) l :
  filter f l = [] <-> forall x, In x l -> f x = false.
Proof.
  induction l as [|y l IH]; cbn.
  - split; [intros _ x []|reflexivity].
  - destruct (f y) eqn:Fy.
    + split; [discriminate|]. intros H. specialize (H y (or_introl eq_refl)).
      congruence.
    + rewrite IH. split.
      * intros H x [->|Hx]; auto.
      * intros H x Hx. apply H. right. exact Hx.
Qed.

(** X3. On every reachable store an identity has one of the three roles,
    it has a patient profile exactly when its role is patient, and a
    doctor profile exactly when its role is doctor (so an administrator
    has neither). *)
Theorem reachable_roles_and_profiles :
  forall st u,
    reachable st -> In u (users st) ->
    (User.role u = "admin" \/ User.role u = "doctor" \/ User.role u = "patient") /\
    (User.role u = "patient" <-> exists p, patient_profile u st = Some p) /\
    (User.role u = "doctor" <-> exists d, doctor_profile u st = Some d).
Proof.
  intros st u R Hu.
  pose proof (reachable_consistent st R) as C.
  split; [exact (roles_known st C u Hu)|]. split.
  - split.
    + intros Hr. destruct (patient_role_has_profile st C u Hu Hr) as (p & Hp & Ep).
      unfold patient_profile.
      apply (find_some_in _ _ p Hp). apply Z.eqb_eq. exact Ep.
    + intros [p Hp]. apply find_key_in in Hp. destruct Hp as [Hp Ep].
      destruct (patient_has_identity st C p Hp) as (u' & Hu' & Eu' & Hr).
      assert (u' = u) as <-; [|exact Hr].
      apply (NoDup_map_injective User.id (users st)); auto.
      exact (user_ids_nodup st C). congruence.
  - split.
    + intros Hr. destruct (doctor_role_has_profile st C u Hu Hr) as (d & Hd & Ed).
      unfold doctor_profile.
      apply (find_some_in _ _ d Hd). apply Z.eqb_eq. exact Ed.
    + intros [d Hd]. apply find_key_in in Hd. destruct Hd as [Hd Ed].
      destruct (doctor_has_identity st C d Hd) as (u' & Hu' & Eu' & Hr).
      assert (u' = u) as <-; [|exact Hr].
      apply (NoDup_map_injective User.id (users st)); auto.
      exact (user_ids_nodup st C). congruence.
Qed.

(** X4. On every reachable store every reference resolves to one row: a
    profile to the identity it belongs to, which has the matching role and
    that profile as its own; the department of a doctor, the patient and
    the doctor of an appointment, and the appointment of a treatment,
    which is Completed. *)
Theorem reachable_references_resolve :
  forall st,
    reachable st ->
    (forall p, In p (patients st) ->
       exists u, load_user (Patient.user_id p) st = Some u /\
                 User.role u = "patient" /\ patient_profile u st = Some p) /\
    (forall d, In d (doctors st) ->
       exists u, load_user (Doctor.user_id d) st = Some u /\
                 User.role u = "doctor" /\ doctor_profile u st = Some d) /\
    (forall d k, In d (doctors st) -> Doctor.department_id d = Some k ->
       exists dept, find (fun x => Department.id x =? k) (departments st) = Some dept) /\
    (forall a, In a (appointments st) ->
       (exists p, find (fun x => Patient.id x =? Appointment.patient_id a)
                       (patients st) = Some p) /\
       (exists d, find (fun x => Doctor.id x =? Appointment.doctor_id a)
                       (doctors st) = Some d)) /\
    (forall t, In t (treatments st) ->
       exists a, find (fun x => Appointment.id x =? Treatment.appointment_id t)
                      (appointments st) = Some a /\
                 Appointment.status a = "Completed").
Proof.
  intros st R.
  pose proof (reachable_consistent st R) as C.
  repeat split.
  - intros p Hp.
    destruct (patient_has_identity st C p Hp) as (u & Hu & Eu & Hr).
    exists u. repeat split; [| exact Hr |].
    + unfold load_user. rewrite <- Eu.
      apply (find_by_key User.id); [exact (user_ids_nodup st C)|exact Hu].
    + unfold patient_profile. rewrite Eu.
      apply (find_by_key Patient.user_id); [exact (patient_users_nodup st C)|exact Hp].
  - intros d Hd.
    destruct (doctor_has_identity st C d Hd) as (u & Hu & Eu & Hr).
    exists u. repeat split; [| exact Hr |].
    + unfold load_user. rewrite <- Eu.
      apply (find_by_key User.id); [exact (user_ids_nodup st C)|exact Hu].
    + unfold doctor_profile. rewrite Eu.
      apply (find_by_key Doctor.user_id); [exact (doctor_users_nodup st C)|exact Hd].
  - intros d k Hd Hk.
    destruct (doctor_department st C d k Hd Hk) as (dept & Hdept & Edept).
    apply (find_some_in _ _ dept Hdept). apply Z.eqb_eq. exact Edept.
  - destruct (appointment_parties st C a H) as [(p & Hp & Ep) _].
    apply (find_some_in _ _ p Hp). apply Z.eqb_eq. exact Ep.
  - destruct (appointment_parties st C a H) as [_ (d & Hd & Ed)].
    apply (find_some_in _ _ d Hd). apply Z.eqb_eq. exact Ed.
  - intros t Ht.
    destruct (treatment_of_completed st C t Ht) as (a & Ha & Ea & Sa).
    exists a. split; [|exact Sa]. rewrite <- Ea.
    apply (find_by_key Appointment.id); [exact (appointment_ids_nodup st C)|exact Ha].
Qed.

(** X5. On every reachable store an appointment is Booked or Completed,
    it is Completed exactly when a treatment refers to it, and Booked
    exactly when none does. *)
Theorem reachable_treatment_iff_completed :
  forall st a,
    reachable st -> In a (appointments st) ->
    (Appointment.status a = "Booked" \/ Appointment.status a = "Completed") /\
    (Appointment.status a = "Completed"
     <-> exists t, In t (treatments st) /\
                   Treatment.appointment_id t = Appointment.id a) /\
    (Appointment.status a = "Booked"
     <-> treatments_of (Appointment.id a) st = []).
Proof.
  intros st a R Ha.
  pose proof (reachable_consistent st R) as C.
  assert (Back : forall t, In t (treatments st) ->
                   Treatment.appointment_id t = Appointment.id a ->
                   Appointment.status a = "Completed").
  { intros t Ht Et.
    destruct (treatment_of_completed st C t Ht) as (a' & Ha' & Ea' & Sa').
    assert (a' = a) as <-; [|exact Sa'].
    apply (NoDup_map_injective Appointment.id (appointments st)); auto.
    exact (appointment_ids_nodup st C). congruence. }
  split; [exact (appointment_status st C a Ha)|]. split.
  - split.
    + exact (completed_has_treatment st C a Ha).
    + intros (t & Ht & Et). exact (Back t Ht Et).
  - unfold treatments_of. rewrite filter_nil_iff. split.
    + intros Sb t Ht. destruct (Treatment.appointment_id t =? Appointment.id a) eqn:K;
        [|reflexivity].
      apply Z.eqb_eq in K. pose proof (Back t Ht K) as Sc. congruence.
    + intros None_. destruct (appointment_status st C a Ha) as [Sb|Sc]; [exact Sb|].
      destruct (completed_has_treatment st C a Ha Sc) as (t & Ht & Et).
      specialize (None_ t Ht). rewrite Et, Z.eqb_refl in None_. discriminate.
Qed.



(** *** The protected routes, case by case *)

Lemma load_user_sent_by st req uid current_user :
  cookie req = Some uid -> load_user uid st = Some current_user ->
  sent_by st req current_user.
Proof.
  intros Hc Hl. pose proof Hl as Hk. unfold load_user in Hk.
  apply find_key_in in Hk. destruct Hk as [_ <-]. split; assumption.
Qed.

Lemma complete_appointment_outcome env st req appointment_id :
  run (complete_appointment appointment_id req) env st =
  match cookie req with
  | None => (login_needed, st)
  | Some uid =>
      match load_user uid st with
      | None => (login_needed, st)
      | Some current_user =>
          if negb (String.eqb (User.role current_user) "doctor")
          then (access_denied, st)
          else
            match find (fun a => Appointment.id a =? appointment_id)
                       (appointments st) with
            | None => (not_found, st)
            | Some appt =>
                match doctor_profile current_user st with
                | None => (internal_server_error, st)
                | Some doc =>
                    if negb (Appointment.doctor_id appt =? Doctor.id doc)
                    then (not_authorized, st)
                    else if String.eqb (method req) "POST" then
                      if faulty env 0 || faulty env 1 || faulty env 2
                      then (internal_server_error, st)
                      else (completion_done,
                            completed st appt (form_get "diagnosis" (form req))
                              (form_get "prescription" (form req)) (utcnow env))
                    else (completion_form appt, st)
                end
            end
      end
  end.
Proof.
  destruct (cookie req) as [uid|] eqn:Hc.
  2: { unfold run, complete_appointment, login_required. rewrite Hc. reflexivity. }
  destruct (load_user uid st) as [cu|] eqn:Hl.
  2: { unfold run, complete_appointment, login_required, bind, query.
       rewrite Hc. cbn [txn]. rewrite Hl. reflexivity. }
  pose proof (load_user_sent_by st req uid cu Hc Hl) as SB.
  destruct (String.eqb (User.role cu) "doctor") eqn:Rd; cbn [negb].
  2: { unfold run, complete_appointment.
       rewrite (login_required_enter st req cu _ env SB). rewrite Rd.
       reflexivity. }
  destruct (find (fun a => Appointment.id a =? appointment_id) (appointments st))
    as [appt|] eqn:Fa.
  2: { unfold run, complete_appointment.
       rewrite (login_required_enter st req cu _ env SB). rewrite Rd.
       unfold bind, query. cbn [txn negb]. rewrite Fa. reflexivity. }
  destruct (doctor_profile cu st) as [doc|] eqn:Fd.
  2: { unfold run, complete_appointment.
       rewrite (login_required_enter st req cu _ env SB). rewrite Rd.
       unfold bind, query. cbn [txn negb]. rewrite Fa. cbn [txn]. rewrite Fd.
       reflexivity. }
  apply (complete_appointment_decided env st req appointment_id cu doc appt).
  repeat split; auto; try apply SB. apply String.eqb_eq. exact Rd.
Qed.

Lemma le_raises b a e :
  Datetime.le b a = Raise e ->
  (Datetime.tzinfo a = None <-> Datetime.tzinfo b <> None).
Proof.
  unfold Datetime.le, Datetime.compare.
  destruct (Datetime.tzinfo b) as [ob|], (Datetime.tzinfo a) as [oa|].
  - destruct (ob =? oa).
    + destruct (Datetime.cmp_fields b a); discriminate.
    + destruct (_ ?= _); discriminate.
  - intros _. split; [discriminate|reflexivity].
  - intros _. split; [discriminate|]. intros H. exfalso. apply H. reflexivity.
  - destruct (Datetime.cmp_fields b a); discriminate.
Qed.




(** *** The dashboards *)

Lemma insert_by_perm {A} (le : A -> A -> bool) x l :
  Permutation (insert_by le x l) (x :: l).
Proof.
  induction l as [|y l IH]; cbn; [reflexivity|].
  destruct (le x y); [reflexivity|].
  rewrite IH. apply perm_swap.
Qed.

Lemma order_by_perm {A} (le : A -> A -> bool) l :
  Permutation (order_by le l) l.
Proof.
  induction l as [|x l IH]; cbn; [reflexivity|].
  fold (order_by le l). rewrite insert_by_perm. constructor. exact IH.
Qed.

Lemma insert_by_sorted {A} (le : A -> A -> bool) x l :
  (forall a b, le a b = false -> le b a = true) ->
  Sorted (fun a b => le a b = true) l ->
  Sorted (fun a b => le a b = true) (insert_by le x l).
Proof.
  intros Total. induction l as [|y l IH]; cbn; intros S.
  - repeat constructor.
  - destruct (le x y) eqn:L.
    + constructor; [exact S|]. constructor. exact L.
    + inversion S as [|? ? Sl Hd]; subst.
      constructor; [apply IH; exact Sl|].
      destruct l as [|z l]; cbn.
      * constructor. apply Total. exact L.
      * destruct (le x z).
        -- constructor. apply Total. exact L.
        -- inversion Hd; subst. constructor. assumption.
Qed.

Lemma order_by_sorted {A} (le : A -> A -> bool) l :
  (forall a b, le a b = false -> le b a = true) ->
  Sorted (fun a b => le a b = true) (order_by le l).
Proof.
  intros Total. induction l as [|x l IH]; cbn; [constructor|].
  apply insert_by_sorted; assumption.
Qed.

Lemma leb_false_flip a b : String.leb a b = false -> String.leb b a = true.
Proof.
  intros H. destruct (String.leb_total a b) as [T|T]; congruence.
Qed.

Lemma start_asc_total a b : start_asc a b = false -> start_asc b a = true.
Proof. apply leb_false_flip. Qed.

Lemma start_desc_total a b : start_desc a b = false -> start_desc b a = true.
Proof. apply leb_false_flip. Qed.

Lemma login_required_page_enter st req current_user body env :
  sent_by st req current_user ->
  login_required_page req body env (mkSession st st O)
  = body current_user env (mkSession st st O).
Proof.
  intros [Hc Hl]. unfold login_required_page, bind, query.
  rewrite Hc. cbn [txn]. rewrite Hl. reflexivity.
Qed.

Lemma in_order_by_filter {A} (le : A -> A -> bool) (f : A -> bool) l x :
  In x (order_by le (filter f l)) <-> In x l /\ f x = true.
Proof.
  rewrite <- filter_In. split; apply Permutation_in.
  - apply order_by_perm.
  - symmetry. apply order_by_perm.
Qed.

(** X9. The patient dashboard shows a patient their own profile, every
    appointment of theirs whatever its status or date and no other, each
    once and in ascending order of the stored start text, and the doctors
    that are active and approved.  Nothing is written. *)
Theorem patient_dashboard_lists :
  forall env st req current_user patient,
    sent_by st req current_user ->
    User.role current_user = "patient" ->
    patient_profile current_user st = Some patient ->
    exists upcoming listed,
      run_page (patient_dashboard req) env st
      = (Page (PatientDashboard patient upcoming listed), st) /\
      (forall a, In a upcoming <->
         In a (appointments st) /\ Appointment.patient_id a = Patient.id patient) /\
      Permutation upcoming
        (filter (fun a => Appointment.patient_id a =? Patient.id patient)
                (appointments st)) /\
      Sorted (fun a b => Str.le (Appointment.start_datetime a)
                                (Appointment.start_datetime b) = true) upcoming /\
      (forall d, In d listed <->
         In d (doctors st) /\ Doctor.is_active d = Some true /\
         Doctor.is_approved d = Some true).
Proof.
  intros env st req cu patient SB Hr Hp.
  exists (order_by start_asc
            (filter (fun a => Appointment.patient_id a =? Patient.id patient)
                    (appointments st))),
         (filter (fun d => truthy_flag (Doctor.is_active d)
                           && truthy_flag (Doctor.is_approved d)) (doctors st)).
  split; [|split; [|split; [|split]]].
  - unfold run_page, patient_dashboard.
    rewrite (login_required_page_enter st req cu _ env SB).
    rewrite Hr, String.eqb_refl. unfold bind, query. cbn [negb txn].
    rewrite Hp. reflexivity.
  - intros a. rewrite in_order_by_filter, Z.eqb_eq. reflexivity.
  - apply order_by_perm.
  - apply (order_by_sorted start_asc). exact start_asc_total.
  - intros d. rewrite filter_In, andb_true_iff, !truthy_flag_true. reflexivity.
Qed.

(** X10. The doctor dashboard shows a doctor their own profile and every
    appointment made with them, Booked or Completed, and no other, each
    once and in ascending order of the stored start text.  Nothing is
    written. *)
Theorem doctor_dashboard_lists :
  forall env st req current_user doctor,
    sent_by st req current_user ->
    User.role current_user = "doctor" ->
    doctor_profile current_user st = Some doctor ->
    exists shown,
      run_page (doctor_dashboard req) env st
      = (Page (DoctorDashboard doctor shown), st) /\
      (forall a, In a shown <->
         In a (appointments st) /\ Appointment.doctor_id a = Doctor.id doctor) /\
      Permutation shown
        (filter (fun a => Appointment.doctor_id a =? Doctor.id doctor)
                (appointments st)) /\
      Sorted (fun a b => Str.le (Appointment.start_datetime a)
                                (Appointment.start_datetime b) = true) shown.
Proof.
  intros env st req cu doctor SB Hr Hd.
  exists (order_by start_asc
            (filter (fun a => Appointment.doctor_id a =? Doctor.id doctor)
                    (appointments st))).
  split; [|split; [|split]].
  - unfold run_page, doctor_dashboard.
    rewrite (login_required_page_enter st req cu _ env SB).
    rewrite Hr, String.eqb_refl. unfold bind, query. cbn [negb txn].
    rewrite Hd. reflexivity.
  - intros a. rewrite in_order_by_filter, Z.eqb_eq. reflexivity.
  - apply order_by_perm.
  - apply (order_by_sorted start_asc). exact start_asc_total.
Qed.

(** X11. The admin dashboard shows an administrator every doctor row and
    every patient row in table order, and every appointment once, in
    descending order of the stored start text.  Nothing is written. *)
Theorem admin_dashboard_lists :
  forall env st req current_user,
    sent_by st req current_user ->
    User.role current_user = "admin" ->
    exists shown,
      run_page (admin_dashboard req) env st
      = (Page (AdminDashboard (doctors st) (patients st) shown), st) /\
      Permutation shown (appointments st) /\
      (forall a, In a shown <-> In a (appointments st)) /\
      Sorted (fun a b => Str.le (Appointment.start_datetime b)
                                (Appointment.start_datetime a) = true) shown.
Proof.
  intros env st req cu SB Hr.
  exists (order_by start_desc (appointments st)).
  split; [|split; [|split]].
  - unfold run_page, admin_dashboard.
    rewrite (login_required_page_enter st req cu _ env SB).
    rewrite Hr, String.eqb_refl. reflexivity.
  - apply order_by_perm.
  - intros a. split; apply Permutation_in;
      [|symmetry]; apply order_by_perm.
  - apply (order_by_sorted start_desc). exact start_desc_total.
Qed.


Lemma admin_dashboard_outcome env st req :
  run_page (admin_dashboard req) env st =
  (match cookie req with
   | None => Other login_needed
   | Some uid =>
       match load_user uid st with
       | None => Other login_needed
       | Some current_user =>
           if negb (String.eqb (User.role current_user) "admin")
           then Other access_denied
           else Page (AdminDashboard (doctors st) (patients st)
                        (order_by start_desc (appointments st)))
       end
   end, st).
Proof.
  unfold run_page, admin_dashboard, login_required_page, bind, query.
  destruct (cookie req) as [uid|]; [|reflexivity]. cbn [txn].
  destruct (load_user uid st) as [cu|]; [|reflexivity].
  destruct (String.eqb (User.role cu) "admin"); reflexivity.
Qed.

Lemma patient_dashboard_outcome env st req :
  run_page (patient_dashboard req) env st =
  (match cookie req with
   | None => Other login_needed
   | Some uid =>
       match load_user uid st with
       | None => Other login_needed
       | Some current_user =>
           if negb (String.eqb (User.role current_user) "patient")
           then Other access_denied
           else
             match patient_profile current_user st with
             | None => Other internal_server_error
             | Some patient =>
                 Page (PatientDashboard patient
                   (order_by start_asc
                      (filter (fun a => Appointment.patient_id a =? Patient.id patient)
                              (appointments st)))
                   (filter (fun d => truthy_flag (Doctor.is_active d)
                                     && truthy_flag (Doctor.is_approved d))
                           (doctors st)))
             end
       end
   end, st).
Proof.
  unfold run_page, patient_dashboard, login_required_page, bind, query.
  destruct (cookie req) as [uid|]; [|reflexivity]. cbn [txn].
  destruct (load_user uid st) as [cu|]; [|reflexivity].
  destruct (String.eqb (User.role cu) "patient"); [|reflexivity].
  cbn [negb txn]. destruct (patient_profile cu st); reflexivity.
Qed.

Lemma doctor_dashboard_outcome env st req :
  run_page (doctor_dashboard req) env st =
  (match cookie req with
   | None => Other login_needed
   | Some uid =>
       match load_user uid st with
       | None => Other login_needed
       | Some current_user =>
           if negb (String.eqb (User.role current_user) "doctor")
           then Other access_denied
           else
             match doctor_profile current_user st with
             | None => Other internal_server_error
             | Some doctor =>
                 Page (DoctorDashboard doctor
                   (order_by start_asc
                      (filter (fun a => Appointment.doctor_id a =? Doctor.id doctor)
                              (appointments st))))
             end
       end
   end, st).
Proof.
  unfold run_page, doctor_dashboard, login_required_page, bind, query.
  destruct (cookie req) as [uid|]; [|reflexivity]. cbn [txn].
  destruct (load_user uid st) as [cu|]; [|reflexivity].
  destruct (String.eqb (User.role cu) "doctor"); [|reflexivity].
  cbn [negb txn]. destruct (doctor_profile cu st); reflexivity.
Qed.

(** X12. The three dashboards never write; each sends an anonymous request
    to the login view and refuses every role but its own; and on every
    reachable store none of them is answered with a server error, since
    the profile each reads without a guard is there. *)
Theorem dashboards_guarded :
  forall env st req,
    let admin := run_page (admin_dashboard req) env st in
    let patient := run_page (patient_dashboard req) env st in
    let doctor := run_page (doctor_dashboard req) env st in
    (snd admin = st /\ snd patient = st /\ snd doctor = st) /\
    (cookie req = None ->
     fst admin = Other login_needed /\ fst patient = Other login_needed /\
     fst doctor = Other login_needed) /\
    (forall current_user,
       sent_by st req current_user ->
       (User.role current_user <> "admin" -> fst admin = Other access_denied) /\
       (User.role current_user <> "patient" -> fst patient = Other access_denied) /\
       (User.role current_user <> "doctor" -> fst doctor = Other access_denied)) /\
    (reachable st ->
     fst admin <> Other internal_server_error /\
     fst patient <> Other internal_server_error /\
     fst doctor <> Other internal_server_error).
Proof.
  intros env st req admin patient doctor. subst admin patient doctor.
  rewrite admin_dashboard_outcome, patient_dashboard_outcome,
    doctor_dashboard_outcome. cbn [fst snd].
  split; [auto|]. split; [intros ->; auto|]. split.
  - intros cu [Hc Hl]. rewrite Hc, Hl.
    repeat split; intros Hr; apply String.eqb_neq in Hr; rewrite Hr; reflexivity.
  - intros R. pose proof (reachable_consistent st R) as C.
    destruct (cookie req) as [uid|]; [|repeat split; discriminate].
    destruct (load_user uid st) as [cu|] eqn:Hl; [|repeat split; discriminate].
    unfold load_user in Hl. apply find_some in Hl. destruct Hl as [Hu _].
    split; [|split].
    + destruct (String.eqb (User.role cu) "admin"); discriminate.
    + destruct (String.eqb (User.role cu) "patient") eqn:Hr; [|discriminate].
      apply String.eqb_eq in Hr.
      destruct (patient_role_has_profile st C cu Hu Hr) as (p & Hp & Ep).
      destruct (find_some_in (fun x => Patient.user_id x =? User.id cu) _ p Hp)
        as [p' Fp]; [apply Z.eqb_eq; exact Ep|].
      unfold patient_profile. rewrite Fp. discriminate.
    + destruct (String.eqb (User.role cu) "doctor") eqn:Hr; [|discriminate].
      apply String.eqb_eq in Hr.
      destruct (doctor_role_has_profile st C cu Hu Hr) as (d & Hd & Ed).
      destruct (find_some_in (fun x => Doctor.user_id x =? User.id cu) _ d Hd)
        as [d' Fd]; [apply Z.eqb_eq; exact Ed|].
      unfold doctor_profile. rewrite Fd. discriminate.
Qed.


(** *** Adding doctors *)

Lemma no_doctor_of_new_user st :
  profiles_ok st ->
  existsb (fun x => Doctor.user_id x =? next_id (map User.id (users st)))
          (doctors st) = false.
Proof.
  intros [_ Hd]. apply existsb_false_intro. intros d Hin.
  destruct (Hd d Hin) as (u & Hu & Eu). apply Z.eqb_neq.
  pose proof (next_id_fresh (User.id u) (map User.id (users st))
                (in_map User.id _ _ Hu)). lia.
Qed.

Lemma no_clash_find st username email :
  (forall u, In u (users st) ->
     User.username u <> username /\ User.email u <> email) ->
  find (username_or_email username email) (users st) = None /\
  existsb (fun x => String.eqb (User.username x) username) (users st) = false /\
  existsb (fun x => String.eqb (User.email x) email) (users st) = false.
Proof.
  intros Hnew. repeat split.
  - apply find_none_iff. apply existsb_false_intro. intros x Hx.
    unfold username_or_email. apply orb_false_iff.
    split; apply String.eqb_neq; apply (Hnew x Hx).
  - apply existsb_false_intro. intros x Hx. apply String.eqb_neq.
    apply (Hnew x Hx).
  - apply existsb_false_intro. intros x Hx. apply String.eqb_neq.
    apply (Hnew x Hx).
Qed.

Lemma clash_find st username email :
  (exists u, In u (users st) /\
     (User.username u = username \/ User.email u = email)) ->
  exists y, find (username_or_email username email) (users st) = Some y.
Proof.
  intros (u & Hin & Hdup). apply (find_some_in _ _ u Hin).
  unfold username_or_email. apply orb_true_iff.
  destruct Hdup as [<-|<-]; [left|right]; apply String.eqb_refl.
Qed.

Lemma add_doctor_enter env st req current_user :
  sent_by st req current_user ->
  User.role current_user = "admin" ->
  validate_on_submit req AddDoctorForm = true ->
  add_doctor req env (mkSession st st O) =
  match find (username_or_email (Str.strip (field req "username"))
                (Str.strip (field req "email"))) (users st) with
  | Some _ => (Ret (doctor_exists req), mkSession st st O)
  | None =>
      try_except
        (env <- ask ;;
         uid <- insert_user (fun i =>
                  User.mk i (Str.strip (field req "username"))
                    (Str.strip (field req "email"))
                    (generate_password_hash (salt env) (field req "password"))
                    (Some (Str.strip (field req "full_name"))) "doctor") ;;
         dept <- get_or_create_department
                   (strip_or_none (form_get "department" (form req))) ;;
         insert_doctor (fun i =>
           Doctor.mk i uid dept
             (strip_or_none (form_get "specialization" (form req)))
             None (Some true) (Some true)) ;;;
         commit ;;;
         ret doctor_added)
        (fun _ =>
           rollback ;;;
           ret (respond (Render "add_doctor.html" [("form", CForm (form req))])
                  [("An error occurred while adding the doctor.", "danger")]))
        env (mkSession st st O)
  end.
Proof.
  intros SB Hr V. unfold add_doctor.
  rewrite (login_required_enter st req current_user _ env SB).
  rewrite Hr, V. cbn [negb String.eqb Ascii.eqb Bool.eqb].
  unfold bind at 1, query at 1. cbn [txn].
  destruct (find _ (users st)); reflexivity.
Qed.

Lemma add_doctor_decided env st req current_user :
  sent_by st req current_user ->
  User.role current_user = "admin" ->
  validate_on_submit req AddDoctorForm = true ->
  (forall u, In u (users st) ->
     User.username u <> Str.strip (field req "username") /\
     User.email u <> Str.strip (field req "email")) ->
  profiles_ok st ->
  fault env = None ->
  run (add_doctor req) env st =
  (doctor_added,
   with_doctor st (Str.strip (field req "username"))
     (Str.strip (field req "email"))
     (generate_password_hash (salt env) (field req "password"))
     (Str.strip (field req "full_name"))
     (strip_or_none (form_get "department" (form req)))
     (strip_or_none (form_get "specialization" (form req)))).
Proof.
  intros SB Hr Hv Hnew Hok F.
  destruct (no_clash_find st _ _ Hnew) as (Hfind & Hu & He).
    unfold run. rewrite (add_doctor_enter env st req current_user SB Hr Hv).
    rewrite Hfind. unfold try_except.
    unfold bind at 1, ask at 1. unfold bind at 1. rewrite insert_user_eq.
    cbn [txn committed executed User.username User.email User.id]. cbv zeta.
    rewrite (faulty_none _ _ F), Hu, He.
    unfold bind at 1.
    unfold with_doctor, department_for, get_or_create_department.
    destruct (strip_or_none (form_get "department" (form req))) as [n|];
      [destruct (Str.truthy n);
       [unfold bind at 1, query at 1; cbn [txn departments];
        destruct (find _ (departments st)) as [dp|] eqn:Fd;
        [|unfold bind at 1; rewrite insert_department_eq;
          cbn [txn committed executed departments Department.name Department.id];
          cbv zeta;
          rewrite (faulty_none _ _ F), (proj1 (find_none_iff _ _) Fd)]|]|];
      unfold ret at 1; unfold bind at 1; rewrite insert_doctor_eq;
      cbn [txn committed executed doctors Doctor.user_id Doctor.id]; cbv zeta;
      rewrite (faulty_none _ _ F), (no_doctor_of_new_user st Hok);
      unfold bind at 1; rewrite commit_eq; cbn [txn committed executed];
      rewrite (faulty_none _ _ F); cbn [fst snd]; rewrite ?app_nil_r;
      reflexivity.
Qed.



(** *** From an account to a session *)

Lemma find_app_none {A} (f : A -> bool) l l' :
  find f l = None -> find f (l ++ l') = find f l'.
Proof.
  induction l as [|x l IH]; cbn; [reflexivity|].
  destruct (f x); [discriminate|exact IH].
Qed.

Lemma find_app_some {A} (f : A -> bool) l l' x :
  find f l = Some x -> find f (l ++ l') = Some x.
Proof.
  induction l as [|y l IH]; cbn; [discriminate|].
  destruct (f y); [auto|exact IH].
Qed.

Lemma register_decided env st req :
  validate_on_submit req RegisterForm = true ->
  (forall u, In u (users st) ->
     User.username u <> Str.strip (field req "username") /\
     User.email u <> Str.strip (field req "email")) ->
  profiles_ok st ->
  fault env = None ->
  run (register req) env st =
  (registration_done,
   registered st (Str.strip (field req "username")) (Str.strip (field req "email"))
     (generate_password_hash (salt env) (field req "password"))
     (Str.strip (field req "full_name"))).
Proof.
  intros Hv Hnew Hok F.
  destruct (no_clash_find st _ _ Hnew) as (Hfind & Hu & He).
  unfold run. rewrite register_unfold, Hv. cbn [txn]. rewrite Hfind.
  unfold register_transaction, try_except.
  unfold bind at 1, ask at 1. unfold bind at 1. rewrite insert_user_eq.
  cbn [txn committed executed User.username User.email User.id]. cbv zeta.
  rewrite (faulty_none _ _ F), Hu, He.
  unfold bind at 1. rewrite insert_patient_eq.
  cbn [txn committed executed patients Patient.user_id Patient.id]. cbv zeta.
  rewrite (faulty_none _ _ F), (no_patient_of_new_user st Hok).
  unfold bind at 1. rewrite commit_eq. cbn [txn committed executed].
  rewrite (faulty_none _ _ F). reflexivity.
Qed.




(** *** Who may use a route *)

(** X16. The protected routes that write.  A request without a session,
    or with the session of an identity that is no longer stored, is sent
    to the login view by each of them; adding a doctor is refused to every
    role but admin and booking to every role but patient.  Nothing is
    written in any of these cases. *)
Theorem routes_guarded :
  forall env st req doctor_id appointment_id,
    (cookie req = None \/
     (exists uid, cookie req = Some uid /\ load_user uid st = None) ->
     run (add_doctor req) env st = (login_needed, st) /\
     run (book_appointment doctor_id req) env st = (login_needed, st) /\
     run (complete_appointment appointment_id req) env st = (login_needed, st)) /\
    (forall current_user,
       sent_by st req current_user ->
       (User.role current_user <> "admin" ->
        run (add_doctor req) env st = (admins_only, st)) /\
       (User.role current_user <> "patient" ->
        run (book_appointment doctor_id req) env st = (access_denied, st))).
Proof.
  intros env st req doctor_id appointment_id. split.
  - intros [Hc|(uid & Hc & Hl)];
      unfold run, add_doctor, book_appointment, complete_appointment,
        login_required, bind, query;
      rewrite Hc; cbn [txn]; try rewrite Hl; auto.
  - intros cu SB. split; intros Hr; apply String.eqb_neq in Hr.
    + unfold run, add_doctor.
      rewrite (login_required_enter st req cu _ env SB). rewrite Hr.
      reflexivity.
    + unfold run, book_appointment.
      rewrite (login_required_enter st req cu _ env SB). rewrite Hr.
      reflexivity.
Qed.

(** *** One booking after another *)

Lemma find_map_none {A} (f : A -> bool) (g : A -> A) l :
  (forall x, In x l -> f (g x) = false) -> find f (map g l) = None.
Proof.
  induction l as [|y l IH]; cbn; intros H; [reflexivity|].
  rewrite (H y (or_introl eq_refl)). apply IH. intros x Hx. apply H.
  right. exact Hx.
Qed.


(** X18. Completion frees the slot.  When the only appointment standing
    in the way of a booking request is [appt], the same request is
    accepted once the doctor of [appt] has completed it: a Completed
    appointment never blocks a booking. *)
Theorem completion_frees_the_slot :
  forall env env' st req appointment_id current_user doc appt
         breq doctor_id booker doctor patient a b,
    completion_request st req appointment_id current_user doc appt ->
    Appointment.doctor_id appt = Doctor.id doc ->
    method req = "POST" ->
    fault env = None ->
    timed_booking_request st breq doctor_id booker doctor a b ->
    patient_profile booker st = Some patient ->
    fault env' = None ->
    let start_str := Datetime.strftime a STORE_FMT in
    let end_str := Datetime.strftime b STORE_FMT in
    (forall r, In r (appointments st) ->
       conflicts (Doctor.id doctor) start_str end_str r = true ->
       Appointment.id r = Appointment.id appt) ->
    let st' := snd (run (complete_appointment appointment_id req) env st) in
    run (book_appointment doctor_id breq) env' st'
    = (booking_done,
       booked st' patient doctor start_str end_str
         (form_get "reason" (form breq))).
Proof.
  intros env env' st req appointment_id cu doc appt breq doctor_id booker doctor
    patient a b CR Own Post F T Hp F' start_str end_str Only st'.
  subst st'.
  rewrite (complete_appointment_decided env st req appointment_id cu doc appt CR).
  rewrite Own, Z.eqb_refl, Post, String.eqb_refl, !(faulty_none env _ F).
  cbn [negb orb snd].
  set (st' := completed st appt _ _ _).
  assert (T' : timed_booking_request st' breq doctor_id booker doctor a b)
    by exact T.
  assert (Hp' : patient_profile booker st' = Some patient) by exact Hp.
  rewrite (book_appointment_decided env' st' breq doctor_id booker doctor patient
             a b T' Hp' F').
  fold start_str end_str.
  assert (Free : find (conflicts (Doctor.id doctor) start_str end_str)
                      (appointments st') = None).
  { subst st'. unfold completed. cbn [appointments].
    apply find_map_none. intros x Hx.
    destruct (Appointment.id x =? Appointment.id appt) eqn:K.
    - unfold conflicts, Appointment.set_status. cbn [Appointment.status].
      change (String.eqb "Completed" "Booked") with false.
      rewrite andb_false_r. reflexivity.
    - destruct (conflicts (Doctor.id doctor) start_str end_str x) eqn:Cx;
        [|reflexivity].
      apply Z.eqb_neq in K. exfalso. apply K. exact (Only x Hx Cx). }
  rewrite Free. reflexivity.
Qed.


(** *** The seeding utility *)

Lemma faulty_true_fault env n : faulty env n = true -> fault env <> None.
Proof.
  unfold faulty. destruct (fault env); [discriminate|discriminate].
Qed.

Lemma add_default_departments_run names : forall added env s,
  match add_default_departments names added env s with
  | (Ret n, s') =>
      committed s' = committed s /\
      exists ds,
        txn s' = mkStore (users (txn s)) (departments (txn s) ++ ds)
                   (doctors (txn s)) (patients (txn s)) (appointments (txn s))
                   (treatments (txn s)) /\
        n = (added + List.length ds)%nat /\
        (forall name, In name names ->
           exists d, In d (departments (txn s) ++ ds) /\ Department.name d = name) /\
        (forall d, In d ds ->
           In (Department.name d) names /\
           ~ In (Department.name d) (map Department.name (departments (txn s))))
  | (Raise _, s') => committed s' = committed s /\ fault env <> None
  end.
Proof.
  induction names as [|name names IH]; intros added env s.
  - cbn. split; [reflexivity|]. exists []. rewrite app_nil_r.
    destruct s as [c t x]; destruct t; cbn.
    split; [reflexivity|]. split; [lia|]. split; intros ? [].
  - cbn [add_default_departments]. unfold bind at 1, query at 1.
    destruct (find _ (departments (txn s))) as [dp|] eqn:Fd.
    + specialize (IH added env s).
      destruct (add_default_departments names added env s) as [[n|e] s'];
        [|exact IH].
      destruct IH as (Hc & ds & Ht & Hn & Hall & Hnew).
      split; [exact Hc|]. exists ds. repeat split; auto.
      * intros nm [<-|Hin]; [|auto].
        apply find_some in Fd. destruct Fd as [Hin Hn'].
        apply String.eqb_eq in Hn'. exists dp. split; [|exact Hn'].
        apply in_or_app. left. exact Hin.
      * right. apply (Hnew d H).
      * apply (Hnew d H).
    + unfold bind at 1. rewrite insert_department_eq.
      cbv zeta. cbn [Department.name Department.id].
      destruct (faulty env (executed s)) eqn:Ff.
      { split; [reflexivity|]. exact (faulty_true_fault env _ Ff). }
      rewrite (proj1 (find_none_iff _ _) Fd).
      match goal with
      | |- context [add_default_departments names (S added) env ?s1] =>
          specialize (IH (S added) env s1);
          destruct (add_default_departments names (S added) env s1)
            as [[n|e] s']
      end; [|exact IH].
      cbn [txn committed users departments doctors patients appointments
           treatments] in IH.
      destruct IH as (Hc & ds & Ht & Hn & Hall & Hnew).
      split; [exact Hc|].
      exists (Department.mk (next_id (map Department.id (departments (txn s))))
                name :: ds).
      rewrite <- app_assoc in Ht, Hall. cbn [app] in Ht, Hall.
      repeat split.
      * exact Ht.
      * cbn [List.length]. lia.
      * intros nm [<-|Hin]; [|auto].
        eexists. split; [apply in_or_app; right; left; reflexivity|].
        reflexivity.
      * destruct H as [<-|Hin]; [left; reflexivity|].
        right. apply (Hnew d Hin).
      * destruct H as [<-|Hin].
        -- cbn [Department.name]. apply find_none_not_in. exact Fd.
        -- intros Hold. apply (proj2 (Hnew d Hin)).
           rewrite map_app. apply in_or_app. left. exact Hold.
Qed.

Lemma setup_database_run env s :
  committed s = txn s ->
  exists ds,
    (forall d, In d ds ->
       In (Department.name d) default_depts /\
       ~ In (Department.name d) (map Department.name (departments (txn s)))) /\
    let st' := committed (snd (setup_database env s)) in
    let seeded :=
      st' = mkStore (users (txn s)) (departments (txn s) ++ ds)
              (doctors (txn s)) (patients (txn s)) (appointments (txn s))
              (treatments (txn s)) /\
      forall name, In name default_depts ->
        exists d, In d (departments st') /\ Department.name d = name in
    (st' = committed s \/ seeded) /\ (fault env = None -> seeded).
Proof.
  intros Hct. cbv zeta. unfold setup_database, try_except, bind.
  pose proof (add_default_departments_run default_depts O env s) as H.
  destruct (add_default_departments default_depts 0 env s) as [[n|e] s'].
  - destruct H as (Hc & ds & Ht & Hn & Hall & Hnew).
    exists ds. split; [exact Hnew|]. cbv zeta.
    destruct n as [|n].
    + assert (ds = []) as -> by (destruct ds; [reflexivity|cbn in Hn; lia]).
      unfold ret. cbn [snd]. rewrite Hc, Hct.
      assert (Same : txn s = mkStore (users (txn s)) (departments (txn s) ++ [])
                               (doctors (txn s)) (patients (txn s))
                               (appointments (txn s)) (treatments (txn s))).
      { rewrite app_nil_r. destruct (txn s); reflexivity. }
      assert (Seeded : txn s = mkStore (users (txn s)) (departments (txn s) ++ [])
                               (doctors (txn s)) (patients (txn s))
                               (appointments (txn s)) (treatments (txn s)) /\
                forall name, In name default_depts ->
                  exists d, In d (departments (txn s)) /\ Department.name d = name).
      { split; [exact Same|]. intros name Hin.
        destruct (Hall name Hin) as (d & Hd & En). rewrite app_nil_r in Hd.
        eauto. }
      split; [right|intros _]; exact Seeded.
    + rewrite commit_eq. destruct (faulty env (executed s')) eqn:Ff.
      * unfold rollback. cbn [snd committed]. split.
        -- left. exact Hc.
        -- intros F. rewrite (faulty_none env _ F) in Ff. discriminate.
      * cbn [snd committed].
        assert (Seeded : txn s' = mkStore (users (txn s)) (departments (txn s) ++ ds)
                               (doctors (txn s)) (patients (txn s))
                               (appointments (txn s)) (treatments (txn s)) /\
                forall name, In name default_depts ->
                  exists d, In d (departments (txn s')) /\ Department.name d = name).
        { split; [exact Ht|]. rewrite Ht. cbn [departments]. exact Hall. }
        split; [right|intros _]; exact Seeded.
  - destruct H as [Hc Hf]. exists []. split; [intros d []|]. cbv zeta.
    unfold rollback. cbn [snd committed]. split.
    + left. exact Hc.
    + intros F. contradiction.
Qed.

Lemma add_default_departments_present names : forall added env s,
  (forall name, In name names ->
     exists d, In d (departments (txn s)) /\ Department.name d = name) ->
  add_default_departments names added env s = (Ret added, s).
Proof.
  induction names as [|name names IH]; intros added env s Hall; [reflexivity|].
  cbn [add_default_departments]. unfold bind at 1, query at 1.
  destruct (Hall name (or_introl eq_refl)) as (d & Hd & En).
  destruct (find_some_in (fun x => String.eqb (Department.name x) name) _ d Hd)
    as [y Fy]; [apply String.eqb_eq; exact En|].
  rewrite Fy. apply IH. intros nm Hin. apply Hall. right. exact Hin.
Qed.

(** X19. The seeding of the default departments.  A run leaves the store
    as it was or adds departments only, each with a default name that was
    missing; once it has committed, and always when the store layer works,
    every default department is there.  A run on a store that already has
    them all changes nothing, so seeding twice is seeding once. *)
Theorem setup_database_seeds :
  forall env st,
    let st' := run_utility setup_database env st in
    let complete s :=
      forall name, In name default_depts ->
        exists d, In d (departments s) /\ Department.name d = name in
    (exists ds,
       st' = mkStore (users st) (departments st ++ ds) (doctors st) (patients st)
               (appointments st) (treatments st) /\
       forall d, In d ds ->
         In (Department.name d) default_depts /\
         ~ In (Department.name d) (map Department.name (departments st))) /\
    (st' = st \/ complete st') /\
    (fault env = None -> complete st') /\
    (complete st -> st' = st) /\
    (forall env', fault env = None -> run_utility setup_database env' st' = st').
Proof.
  intros env st st' complete.
  assert (Idem : forall e s, complete s -> run_utility setup_database e s = s).
  { intros e s Hall. unfold run_utility, setup_database, try_except.
    unfold bind at 1.
    rewrite (add_default_departments_present default_depts O e
               (mkSession s s O) Hall).
    reflexivity. }
  destruct (setup_database_run env (mkSession st st O) eq_refl)
    as (ds & Hnew & Hcases & Hok).
  cbn [txn committed] in Hnew, Hcases, Hok.
  fold (run_utility setup_database env st) in Hcases, Hok. fold st' in Hcases, Hok.
  split; [|split; [|split; [|split]]].
  - destruct Hcases as [Same|[Seeded _]].
    + exists []. split; [|intros d []]. rewrite Same, app_nil_r.
      destruct st; reflexivity.
    + exists ds. split; [exact Seeded|exact Hnew].
  - destruct Hcases as [Same|[_ Hall]]; [left; exact Same|right; exact Hall].
  - intros F. exact (proj2 (Hok F)).
  - intros Hall. apply Idem. exact Hall.
  - intros env' F. apply Idem. exact (proj2 (Hok F)).
Qed.



(** *** Resetting the database *)

Lemma reset_database_unasked env st typed :
  fault env = None ->
  reset_database false typed env (mkSession st st O)
  = (Ret true, mkSession empty_store empty_store 1).
Proof.
  intros F. unfold reset_database. cbn [andb].
  unfold try_except, drop_all. unfold bind, statement, ret.
  cbn [executed committed txn]. rewrite (faulty_none _ _ F). reflexivity.
Qed.

(** X21. Resetting the database.  No caller of the reset asks for the
    confirmation phrase: whatever is typed, the menu entry and the
    command line with its flag delete every row of every table and seed
    the default departments again, and only those.  Without the flag the
    command line changes nothing.  The reset itself, when it is told to
    ask, changes nothing unless the phrase is typed. *)
Theorem reset_deletes_unasked :
  forall env st typed,
    fault env = None ->
    let st' := run_utility (menu_reset typed) env st in
    users st' = [] /\ doctors st' = [] /\ patients st' = [] /\
    appointments st' = [] /\ treatments st' = [] /\
    (forall name, In name default_depts <->
       exists d, In d (departments st') /\ Department.name d = name) /\
    run_utility (main_reset true typed) env st = st' /\
    run_utility (main_reset false typed) env st = st /\
    (Str.strip typed <> "DELETE ALL DATA" ->
     reset_database true typed env (mkSession st st O)
     = (Ret false, mkSession st st O)).
Proof.
  intros env st typed F st'.
  assert (Menu : st' = committed (snd (setup_database env
                         (mkSession empty_store empty_store 1)))).
  { subst st'. unfold run_utility, menu_reset. unfold bind at 1.
    rewrite (reset_database_unasked env st typed F). reflexivity. }
  destruct (setup_database_run env (mkSession empty_store empty_store 1) eq_refl)
    as (ds & Hnew & _ & Hok).
  destruct (Hok F) as [Seeded Hall]. clear Hok.
  rewrite <- Menu in Seeded, Hall. cbn [txn users departments doctors patients
    appointments treatments empty_store app] in Seeded, Hnew.
  rewrite Seeded. cbn [users departments doctors patients appointments treatments].
  repeat (split; [reflexivity|]).
  split; [|split; [|split]].
  - intros name. split.
    + intros Hin. destruct (Hall name Hin) as (d & Hd & En).
      rewrite Seeded in Hd. eauto.
    + intros (d & Hd & <-). apply (Hnew d Hd).
  - rewrite <- Seeded, Menu. unfold run_utility, main_reset. unfold bind at 1.
    rewrite (reset_database_unasked env st typed F). reflexivity.
  - reflexivity.
  - intros Wrong. unfold reset_database. apply String.eqb_neq in Wrong.
    rewrite Wrong. reflexivity.
Qed.


(** *** What a login and a booking can do at most *)

Lemma insert_appointment_eq row env s :
  insert_appointment row env s =
  if faulty env (executed s)
  then (Raise OperationalError, mkSession (committed s) (txn s) (S (executed s)))
  else (Ret (Appointment.id
               (row (next_id (map Appointment.id (appointments (txn s)))))),
        mkSession (committed s)
          (mkStore (users (txn s)) (departments (txn s)) (doctors (txn s))
             (patients (txn s))
             (appointments (txn s)
                ++ [row (next_id (map Appointment.id (appointments (txn s))))])
             (treatments (txn s)))
          (S (executed s))).
Proof.
  unfold insert_appointment, bind, statement, query, set_txn, ret.
  destruct (faulty env (executed s)); reflexivity.
Qed.



End StoreProperties.
(* ===================================================================== *)
(** ** The reference functions on a few inputs *)

Module ReferenceRuns.

Example iso_minutes :
  Reference.fromisoformat "2024-01-10T09:00"
  = Ret (Datetime.mk 2024 1 10 9 0 0 0 None).
Proof. reflexivity. Qed.

Example iso_microseconds :
  Reference.fromisoformat "2024-01-10T09:00:00.500000"
  = Ret (Datetime.mk 2024 1 10 9 0 0 500000 None).
Proof. reflexivity. Qed.

Example iso_offset :
  Reference.fromisoformat "2024-01-10T09:00+05:30"
  = Ret (Datetime.mk 2024 1 10 9 0 0 0 (Some 19800000000)).
Proof. reflexivity. Qed.

Example iso_no_such_day :
  Reference.fromisoformat "2024-02-30T09:00" = Raise ValueError.
Proof. reflexivity. Qed.

Example strptime_seconds :
  Reference.strptime "2024-01-10 09:30:00" "%Y-%m-%d %H:%M:%S"
  = Ret (Datetime.mk 2024 1 10 9 30 0 0 None).
Proof. reflexivity. Qed.

Example strptime_short_fields :
  Reference.strptime "2024-1-1  9:5" "%Y-%m-%d %H:%M"
  = Ret (Datetime.mk 2024 1 1 9 5 0 0 None).
Proof. reflexivity. Qed.

Example strptime_missing_seconds :
  Reference.strptime "2024-01-10 09:30" "%Y-%m-%d %H:%M:%S" = Raise ValueError.
Proof. reflexivity. Qed.

Example strptime_leap_second :
  Reference.strptime "2024-01-10 09:30:61" "%Y-%m-%d %H:%M:%S" = Raise ValueError.
Proof. reflexivity. Qed.

Example strftime_pads :
  Datetime.strftime (Datetime.mk 987 1 10 9 30 5 0 None) STORE_FMT
  = "0987-01-10 09:30:05".
Proof. reflexivity. Qed.

Example email_shapes :
  Reference.email_validator "a@b.c" = true /\
  Reference.email_validator "a@b" = false /\
  Reference.email_validator "@b.c" = false.
Proof. repeat split; reflexivity. Qed.

Example strip_both_ends : Str.strip "  ab c  " = "ab c".
Proof. reflexivity. Qed.

Example parse_without_T :
  parse_datetime "2024-01-10 09:30" = Ret (Some (Datetime.mk 2024 1 10 9 30 0 0 None)) /\
  parse_datetime "2024-01-10" = Ret None /\
  parse_datetime "T" = Ret None.
Proof. repeat split; reflexivity. Qed.

End ReferenceRuns.

(* ===================================================================== *)
(** ** Runs on the clinic *)

Module ClinicRuns.

Import Clinic.

(** The cases of the booking contract: touching is accepted, overlap by
    fifteen minutes and overlap by one minute are refused. *)
Example touching_accepted :
  run (book_appointment 1 (booking "2024-01-10T09:30" "2024-01-10T10:00")) env store
  = (booking_done,
     booked store alice_profile bob "2024-01-10 09:30:00" "2024-01-10 10:00:00"
       (Some "cough")).
Proof. vm_compute. reflexivity. Qed.

Example overlap_refused :
  run (book_appointment 1 (booking "2024-01-10 09:15" "2024-01-10 09:45")) env store
  = (slot_taken bob, store).
Proof. vm_compute. reflexivity. Qed.

Example one_minute_overlap_refused :
  run (book_appointment 1 (booking "2024-01-10 08:00:00" "2024-01-10 09:01:00")) env store
  = (slot_taken bob, store).
Proof. vm_compute. reflexivity. Qed.

Example other_doctor_free :
  fst (run (book_appointment 2 (booking "2024-01-10 09:15" "2024-01-10 09:45")) env store)
  = booking_done.
Proof. vm_compute. reflexivity. Qed.

End ClinicRuns.

(* ===================================================================== *)
(** ** The properties at work on the clinic *)

Lemma clinic_rendered : rendered Clinic.store.
Proof.
  intros r [<-|[]].
  exists (Clinic.at_ 9 0 0 0), (Clinic.at_ 9 30 0 0).
  repeat split; reflexivity.
Defined.

Lemma clinic_profiles_ok : profiles_ok Clinic.store.
Proof.
  split.
  - intros p [<-|[]]. exists Clinic.alice. split; [left|]; reflexivity.
  - intros d [<-|[<-|[<-|[]]]].
    + exists Clinic.drbob. split; [right; left|]; reflexivity.
    + exists Clinic.drcarol. split; [right; right; left|]; reflexivity.
    + exists Clinic.drdave. split; [right; right; right; left|]; reflexivity.
Defined.




(** A start that is no date, and an end before the start. *)
Lemma booking_rejects_bad_times_at_the_clinic :
  unparsable (field Clinic.no_date "start_datetime") /\
  run (book_appointment 1 Clinic.no_date) Clinic.env Clinic.store
  = (invalid_time_range Clinic.bob, Clinic.store) /\
  run (book_appointment 1 Clinic.inverted) Clinic.env Clinic.store
  = (invalid_time_range Clinic.bob, Clinic.store).
Proof.
  assert (U : unparsable (field Clinic.no_date "start_datetime")).
  { intros fmt [<-|[<-|[]]]; exists ValueError; reflexivity. }
  split; [exact U|]. split.
  - apply (proj2 (proj2 booking_rejects_bad_times) Clinic.env Clinic.store
             Clinic.no_date 1 Clinic.alice Clinic.bob).
    + repeat split; reflexivity.
    + left. exact U.
  - apply (proj2 (proj2 booking_rejects_bad_times) Clinic.env Clinic.store
             Clinic.inverted 1 Clinic.alice Clinic.bob).
    + repeat split; reflexivity.
    + right. right. exists (Clinic.at_ 10 0 0 0), (Clinic.at_ 9 0 0 0).
      repeat split; reflexivity.
Defined.

(** C3. The claim fails on the code at a start with a UTC offset and an end
    without one: both strings parse ([fromisoformat] takes the offset), the
    end lies a day before the start on the calendar, and instead of the
    invalid-time-range answer the comparison [end_dt <= start_dt] raises
    [TypeError], which leaves the handler: a 500 answer.  No appointment is
    inserted. *)
Theorem booking_offset_against_naive_crashes :
  booking_request Clinic.store Clinic.inverted_with_offset 1 Clinic.alice Clinic.bob /\
  parse_datetime (field Clinic.inverted_with_offset "start_datetime")
  = Ret (Some (Datetime.mk 2024 1 10 10 0 0 0 (Some 0))) /\
  parse_datetime (field Clinic.inverted_with_offset "end_datetime")
  = Ret (Some (Datetime.mk 2024 1 9 10 0 0 0 None)) /\
  Datetime.le (Datetime.mk 2024 1 9 10 0 0 0 None)
              (Datetime.mk 2024 1 10 10 0 0 0 (Some 0)) = Raise TypeError /\
  run (book_appointment 1 Clinic.inverted_with_offset) Clinic.env Clinic.store
  = (internal_server_error, Clinic.store) /\
  run (book_appointment 1 Clinic.inverted_with_offset) Clinic.env Clinic.store
  <> (invalid_time_range Clinic.bob, Clinic.store).
Proof.
  assert (H : booking_request Clinic.store Clinic.inverted_with_offset 1
                Clinic.alice Clinic.bob) by (repeat split; reflexivity).
  assert (Mixed : Datetime.tzinfo (Datetime.mk 2024 1 10 10 0 0 0 (Some 0)) = None
                  <-> Datetime.tzinfo (Datetime.mk 2024 1 9 10 0 0 0 None) <> None).
  { split; [intros X; discriminate X|intros X; exfalso; apply X; reflexivity]. }
  destruct (booking_mixed_awareness_raises Clinic.env Clinic.store
              Clinic.inverted_with_offset 1 Clinic.alice Clinic.bob
              (Datetime.mk 2024 1 10 10 0 0 0 (Some 0))
              (Datetime.mk 2024 1 9 10 0 0 0 None) H eq_refl eq_refl Mixed)
    as [L R].
  split; [exact H|]. split; [reflexivity|]. split; [reflexivity|].
  split; [exact L|]. split; [exact R|].
  rewrite R. discriminate.
Qed.



(** Dr Carol may not complete Dr Bob's appointment; Alice may not complete
    any. *)
Lemma completion_requires_owning_doctor_witness :
  sent_by Clinic.store (Clinic.completion 3) Clinic.drcarol /\
  run (complete_appointment 1 (Clinic.completion 3)) Clinic.env Clinic.store
  = (not_authorized, Clinic.store) /\
  run (complete_appointment 77 (Clinic.completion 1)) Clinic.env Clinic.store
  = (access_denied, Clinic.store).
Proof.
  assert (H : sent_by Clinic.store (Clinic.completion 3) Clinic.drcarol)
    by (split; reflexivity).
  split; [exact H|]. split.
  - apply (proj1 (proj2 (completion_requires_owning_doctor Clinic.env Clinic.store
              (Clinic.completion 3) 1 Clinic.drcarol H)) Clinic.carol Clinic.nine);
      try reflexivity.
    discriminate.
  - apply (proj1 (completion_requires_owning_doctor Clinic.env Clinic.store
              (Clinic.completion 1) 77 Clinic.alice (conj eq_refl eq_refl))).
    discriminate.
Defined.

(** Dr Bob posts the completion form a second time: a second treatment. *)
Lemma recompletion_accepted_witness :
  completion_request Clinic.after_nine (Clinic.completion 2) 1 Clinic.drbob
    Clinic.bob (Appointment.set_status Clinic.nine "Completed") /\
  exists st',
    run (complete_appointment 1 (Clinic.completion 2)) Clinic.env Clinic.after_nine
    = (completion_done, st') /\
    List.length (treatments_of 1 st') = 2%nat.
Proof.
  assert (H : completion_request Clinic.after_nine (Clinic.completion 2) 1
                Clinic.drbob Clinic.bob
                (Appointment.set_status Clinic.nine "Completed"))
    by (repeat split; reflexivity).
  split; [exact H|].
  destruct (recompletion_accepted Clinic.env Clinic.after_nine
              (Clinic.completion 2) 1 Clinic.drbob Clinic.bob _ H
              eq_refl eq_refl eq_refl eq_refl)
    as (st' & t & R & _ & _ & _ & L).
  exists st'. split; [exact R|exact L].
Defined.

(** Dr Dave, not approved, is refused with the right password and let in
    once approved. *)
Lemma doctor_login_gate_witness :
  identified Clinic.store Clinic.dave_login = Some Clinic.drdave /\
  run (login Clinic.dave_login) Clinic.env Clinic.store
  = (login_rejected Clinic.dave_login pending_approval, Clinic.store) /\
  run (login Clinic.dave_login) Clinic.env (approve Clinic.store Clinic.dave)
  = (logged_in Clinic.drdave, approve Clinic.store Clinic.dave).
Proof.
  split; [reflexivity|].
  pose proof (doctor_login_gate Clinic.env Clinic.store Clinic.dave_login
                Clinic.drdave eq_refl eq_refl eq_refl eq_refl) as G.
  cbv zeta in G. destruct G as (_ & G2 & G3 & _).
  split.
  - apply (G2 Clinic.dave eq_refl). discriminate.
  - apply (G3 Clinic.dave eq_refl eq_refl).
Defined.

(** An unknown name and a known name with a wrong password. *)
Lemma login_rejection_uniform_witness :
  identified Clinic.store Clinic.nobody = None /\
  identified Clinic.store Clinic.alice_mistyped = Some Clinic.alice /\
  flashes (fst (run (login Clinic.nobody) Clinic.env Clinic.store))
  = flashes (fst (run (login Clinic.alice_mistyped) Clinic.env Clinic.store)) /\
  flashes (fst (run (login Clinic.nobody) Clinic.env Clinic.store))
  = [("Invalid username or password.", "danger")].
Proof.
  split; [reflexivity|]. split; [reflexivity|].
  pose proof (login_rejection_uniform Clinic.env Clinic.env Clinic.store
                Clinic.store Clinic.nobody Clinic.alice_mistyped Clinic.alice
                eq_refl eq_refl eq_refl eq_refl eq_refl) as U.
  cbv zeta in U. destruct U as (R1 & _ & F & _).
  split; [exact F|]. rewrite R1. reflexivity.
Defined.



(* ===================================================================== *)
(** * The journey as evidence

    The properties of reachable stores and of the remaining routes, each
    applied to the database grown in [Journey]. *)

Lemma journey_rows :
  Journey.with_admin
  = mkStore [Journey.root] (departments Journey.seeded) [] [] [] [] /\
  users Journey.completed_once = [Journey.root; Journey.drbob; Journey.alice] /\
  doctors Journey.completed_once = [Journey.bob] /\
  patients Journey.completed_once = [Journey.alice_profile] /\
  appointments Journey.booked_twice = [Journey.first_visit; Journey.second_visit] /\
  appointments Journey.completed_once
  = [Appointment.set_status Journey.first_visit "Completed"; Journey.second_visit].
Proof. vm_compute. repeat split. Qed.

Lemma journey_reachable :
  reachable Journey.with_admin /\ reachable Journey.with_bob /\
  reachable Journey.with_alice /\ reachable Journey.booked_once /\
  reachable Journey.booked_twice /\ reachable Journey.completed_once.
Proof.
  assert (R1 : reachable Journey.with_admin)
    by apply reach_admin, reach_setup, reach_empty.
  assert (R2 : reachable Journey.with_bob) by (apply reach_add_doctor; exact R1).
  assert (R3 : reachable Journey.with_alice) by (apply reach_register; exact R2).
  assert (R4 : reachable Journey.booked_once) by (apply reach_book; exact R3).
  assert (R5 : reachable Journey.booked_twice) by (apply reach_book; exact R4).
  assert (R6 : reachable Journey.completed_once)
    by (apply reach_complete; exact R5).
  auto 10.
Qed.


(** Alice, found by her key and by her address, is one row. *)
Lemma reachable_identities_unique_witness :
  reachable Journey.completed_once /\
  load_user 3 Journey.completed_once = Some Journey.alice /\
  forall u, In u (users Journey.completed_once) ->
            User.email u = "alice@example.org" -> u = Journey.alice.
Proof.
  assert (R : reachable Journey.completed_once) by apply journey_reachable.
  assert (I : In Journey.alice (users Journey.completed_once))
    by (vm_compute; auto).
  split; [exact R|]. split; [vm_compute; reflexivity|].
  intros u Hu He.
  apply (reachable_identities_unique Journey.completed_once u Journey.alice R Hu I).
  right. right. exact He.
Defined.

(** The administrator has neither a doctor profile nor a patient
    profile. *)
Lemma reachable_roles_and_profiles_witness :
  reachable Journey.completed_once /\
  In Journey.root (users Journey.completed_once) /\
  (User.role Journey.root = "doctor" <->
   exists d, doctor_profile Journey.root Journey.completed_once = Some d) /\
  (User.role Journey.root = "patient" <->
   exists p, patient_profile Journey.root Journey.completed_once = Some p).
Proof.
  assert (R : reachable Journey.completed_once) by apply journey_reachable.
  assert (I : In Journey.root (users Journey.completed_once))
    by (vm_compute; auto).
  split; [exact R|]. split; [exact I|].
  destruct (reachable_roles_and_profiles Journey.completed_once Journey.root R I)
    as (_ & P & D).
  split; [exact D|exact P].
Defined.

(** Alice's profile leads to Alice, and the one treatment to the first
    visit. *)
Lemma reachable_references_resolve_witness :
  reachable Journey.completed_once /\
  (exists u, load_user 3 Journey.completed_once = Some u /\
             User.role u = "patient" /\
             patient_profile u Journey.completed_once = Some Journey.alice_profile) /\
  (forall t, In t (treatments Journey.completed_once) ->
     exists a, find (fun x => Appointment.id x =? Treatment.appointment_id t)
                    (appointments Journey.completed_once) = Some a /\
               Appointment.status a = "Completed").
Proof.
  assert (R : reachable Journey.completed_once) by apply journey_reachable.
  assert (I : In Journey.alice_profile (patients Journey.completed_once))
    by (vm_compute; auto).
  split; [exact R|].
  destruct (reachable_references_resolve Journey.completed_once R)
    as (P & _ & _ & _ & T).
  split; [exact (P Journey.alice_profile I)|exact T].
Defined.

(** The first visit is Completed and has its treatment; the second is
    Booked and has none. *)
Lemma reachable_treatment_iff_completed_witness :
  reachable Journey.completed_once /\
  In Journey.second_visit (appointments Journey.completed_once) /\
  (Appointment.status Journey.second_visit = "Booked" <->
   treatments_of 2 Journey.completed_once = []).
Proof.
  assert (R : reachable Journey.completed_once) by apply journey_reachable.
  assert (I : In Journey.second_visit (appointments Journey.completed_once))
    by (vm_compute; auto).
  split; [exact R|]. split; [exact I|].
  apply (reachable_treatment_iff_completed Journey.completed_once
           Journey.second_visit R I).
Defined.




(** Alice's dashboard after the completion: both visits, the Completed
    one too. *)
Lemma patient_dashboard_lists_witness :
  sent_by Journey.completed_once (Journey.view 3) Journey.alice /\
  patient_profile Journey.alice Journey.completed_once = Some Journey.alice_profile /\
  exists upcoming listed,
    run_page (patient_dashboard (Journey.view 3)) Journey.env Journey.completed_once
    = (Page (PatientDashboard Journey.alice_profile upcoming listed),
       Journey.completed_once) /\
    In (Appointment.set_status Journey.first_visit "Completed") upcoming /\
    In Journey.second_visit upcoming /\
    In Journey.bob listed.
Proof.
  assert (SB : sent_by Journey.completed_once (Journey.view 3) Journey.alice)
    by (split; reflexivity).
  assert (P : patient_profile Journey.alice Journey.completed_once
              = Some Journey.alice_profile) by reflexivity.
  split; [exact SB|]. split; [exact P|].
  destruct (patient_dashboard_lists Journey.env Journey.completed_once
              (Journey.view 3) Journey.alice Journey.alice_profile SB eq_refl P)
    as (upcoming & listed & Run & Mine & _ & _ & Docs).
  exists upcoming, listed. split; [exact Run|].
  split; [|split].
  - apply Mine. split; [vm_compute; auto|reflexivity].
  - apply Mine. split; [vm_compute; auto|reflexivity].
  - apply Docs. split; [vm_compute; auto|]. split; reflexivity.
Defined.

(** Dr Bob's dashboard: both visits made with him. *)
Lemma doctor_dashboard_lists_witness :
  sent_by Journey.completed_once (Journey.view 2) Journey.drbob /\
  doctor_profile Journey.drbob Journey.completed_once = Some Journey.bob /\
  exists shown,
    run_page (doctor_dashboard (Journey.view 2)) Journey.env Journey.completed_once
    = (Page (DoctorDashboard Journey.bob shown), Journey.completed_once) /\
    In Journey.second_visit shown.
Proof.
  assert (SB : sent_by Journey.completed_once (Journey.view 2) Journey.drbob)
    by (split; reflexivity).
  assert (P : doctor_profile Journey.drbob Journey.completed_once
              = Some Journey.bob) by reflexivity.
  split; [exact SB|]. split; [exact P|].
  destruct (doctor_dashboard_lists Journey.env Journey.completed_once
              (Journey.view 2) Journey.drbob Journey.bob SB eq_refl P)
    as (shown & Run & Mine & _ & _).
  exists shown. split; [exact Run|].
  apply Mine. split; [vm_compute; auto|reflexivity].
Defined.

(** The administrator's dashboard: Dr Bob, Alice's profile, every visit. *)
Lemma admin_dashboard_lists_witness :
  sent_by Journey.completed_once (Journey.view 1) Journey.root /\
  exists shown,
    run_page (admin_dashboard (Journey.view 1)) Journey.env Journey.completed_once
    = (Page (AdminDashboard (doctors Journey.completed_once)
               (patients Journey.completed_once) shown),
       Journey.completed_once) /\
    In Journey.second_visit shown.
Proof.
  assert (SB : sent_by Journey.completed_once (Journey.view 1) Journey.root)
    by (split; reflexivity).
  split; [exact SB|].
  destruct (admin_dashboard_lists Journey.env Journey.completed_once
              (Journey.view 1) Journey.root SB eq_refl)
    as (shown & Run & _ & All & _).
  exists shown. split; [exact Run|].
  apply All. vm_compute. auto.
Defined.

Lemma journey_profiles_ok :
  profiles_ok Journey.with_admin /\ profiles_ok Journey.with_bob.
Proof.
  split; split; vm_compute; intros x H;
    repeat match goal with
           | H : _ \/ _ |- _ => destruct H as [<-|H]
           | H : False |- _ => destruct H
           end.
  exists Journey.drbob. vm_compute. auto.
Qed.

Lemma journey_no_drbob u :
  In u (users Journey.with_admin) ->
  User.username u <> "drbob" /\ User.email u <> "bob@example.org".
Proof.
  vm_compute. intros [<-|[]]. split; discriminate.
Qed.

Lemma journey_no_alice u :
  In u (users Journey.with_bob) ->
  User.username u <> "alice" /\ User.email u <> "alice@example.org".
Proof.
  vm_compute. intros [<-|[<-|[]]]; split; discriminate.
Qed.




Lemma journey_nine :
  timed_booking_request Journey.with_alice Journey.nine 1 Journey.alice
    Journey.bob (Clinic.at_ 9 0 0 0) (Clinic.at_ 9 30 0 0).
Proof. repeat split; vm_compute; reflexivity. Qed.


Lemma journey_nine_again :
  timed_booking_request Journey.booked_once Journey.nine 1 Journey.alice
    Journey.bob (Clinic.at_ 9 0 0 0) (Clinic.at_ 9 30 0 0).
Proof. repeat split; vm_compute; reflexivity. Qed.

Lemma journey_first_visit :
  completion_request Journey.booked_once Journey.done 1 Journey.drbob Journey.bob
    Journey.first_visit.
Proof. repeat split; vm_compute; reflexivity. Qed.

(** Once Dr Bob has completed the nine o'clock visit, nine o'clock can be
    booked again. *)
Lemma completion_frees_the_slot_witness :
  completion_request Journey.booked_once Journey.done 1 Journey.drbob Journey.bob
    Journey.first_visit /\
  timed_booking_request Journey.booked_once Journey.nine 1 Journey.alice
    Journey.bob (Clinic.at_ 9 0 0 0) (Clinic.at_ 9 30 0 0) /\
  run (book_appointment 1 Journey.nine) Journey.env Journey.booked_once
  = (slot_taken Journey.bob, Journey.booked_once) /\
  fst (run (book_appointment 1 Journey.nine) Journey.env
         (snd (run (complete_appointment 1 Journey.done) Journey.env
                 Journey.booked_once)))
  = booking_done.
Proof.
  split; [exact journey_first_visit|]. split; [exact journey_nine_again|].
  split; [vm_compute; reflexivity|].
  pose proof (completion_frees_the_slot Journey.env Journey.env
                Journey.booked_once Journey.done 1 Journey.drbob Journey.bob
                Journey.first_visit Journey.nine 1 Journey.alice Journey.bob
                Journey.alice_profile (Clinic.at_ 9 0 0 0) (Clinic.at_ 9 30 0 0)
                journey_first_visit eq_refl eq_refl eq_refl journey_nine_again
                eq_refl eq_refl) as H.
  cbv zeta in H. rewrite H; [reflexivity|].
  vm_compute. intros r [<-|[]] _. reflexivity.
Defined.

(** The menu entry on the journey's database, with nothing typed. *)
Lemma reset_deletes_unasked_witness :
  fault Journey.env = None /\
  users (run_utility (menu_reset "") Journey.env Journey.completed_once) = [] /\
  appointments (run_utility (menu_reset "") Journey.env Journey.completed_once) = [] /\
  run_utility (main_reset true "") Journey.env Journey.completed_once
  = run_utility (menu_reset "") Journey.env Journey.completed_once.
Proof.
  split; [reflexivity|].
  pose proof (reset_deletes_unasked Journey.env Journey.completed_once ""
                eq_refl) as H.
  cbv zeta in H. destruct H as (U & _ & _ & A & _ & _ & M & _).
  split; [exact U|]. split; [exact A|exact M].
Defined.

